(** * Weather-station server: label derivation, training orchestrator,
      single-flight guard and fuzzy forecast engine

    Shallow embedding of [backend/app.py] (snapshot
    [.history/backend/app_20260112212641.py]): class [WeatherAIModel],
    class [FuzzyForecastEngine], [get_label_distribution],
    [ai_ready_for_training] and the [/api/train-model] endpoint with its
    background worker.

    Conventions.
    - Python floats are modelled by exact rationals ([Q]).  All
      comparisons of the source are against small decimal constants, which
      the rationals reproduce.  Where a float comes straight from a
      request body (the payload validator) it is a [Py.pyfloat], which
      adds NaN and the two infinities: [float()] accepts them.
    - A [datetime] is a whole number of microseconds since the epoch ([Z]).
    - Python's [None] is [None]; a raised exception is a value of [exn].
    - Calls into scikit-learn, the random generator, the clock and the file
      system are inputs of the model (record [Env]). *)

From Stdlib Require Import String Ascii DecimalString ZArith QArith Qminmax
  Qround Qabs
  Bool Lia Lqa List Permutation Sorted.
Import ListNotations.

Open Scope string_scope.
Open Scope list_scope.
Open Scope Q_scope.

(** ** Python builtins used by the server *)

Module Py.

(** [x < y] on floats. *)
Definition Qltb (x y : Q) : bool := negb (Qle_bool y x).

(** Truth value of a number: zero is false. *)
Definition truthy (x : Q) : bool := negb (Qeq_bool x 0).

(** [max(a, b)] and [min(a, b)]: the first argument wins a tie. *)
Definition max2 (a b : Q) : Q := if Qltb a b then b else a.
Definition min2 (a b : Q) : Q := if Qltb b a then b else a.

(** [max(xs)] and [min(xs)] of a non-empty list; [d] stands for the
    [ValueError] case, which the callers exclude by an emptiness test. *)
Definition max_list (d : Q) (xs : list Q) : Q :=
  match xs with
  | [] => d
  | x :: r => fold_left max2 r x
  end.
Definition min_list (d : Q) (xs : list Q) : Q :=
  match xs with
  | [] => d
  | x :: r => fold_left min2 r x
  end.

(** [sorted(l, key=key)]: stable, ascending. *)
Fixpoint insert_by {A} (key : A -> Z) (x : A) (l : list A) : list A :=
  match l with
  | [] => [x]
  | y :: r => if (key x <=? key y)%Z then x :: y :: r
              else y :: insert_by key x r
  end.
Fixpoint sorted {A} (key : A -> Z) (l : list A) : list A :=
  match l with
  | [] => []
  | x :: r => insert_by key x (sorted key r)
  end.

(** The order [sorted] sorts by. *)
Definition le_key {A} (key : A -> Z) (a b : A) : Prop := (key a <= key b)%Z.

(** [l[-k:]] for [k > 0]. *)
Definition lastn {A} (k : nat) (l : list A) : list A :=
  skipn (length l - k) l.

(** [sum(xs)] *)
Definition sum (xs : list Q) : Q := fold_right Qplus 0 xs.

Definition count_occ_b {A} (eqb : A -> A -> bool) (a : A) (l : list A) : nat :=
  length (filter (eqb a) l).

(** [round(q)]: nearest integer, a tie goes to the even one. *)
Definition round0 (q : Q) : Z :=
  let f := Qfloor q in
  let r := q - inject_Z f in
  if Qltb r (1#2) then f
  else if Qltb (1#2) r then (f + 1)%Z
  else if Z.even f then f else (f + 1)%Z.

(** [round(q, nd)] for [nd] decimals, on the exact value. *)
Definition round_nd (q : Q) (nd : nat) : Q :=
  inject_Z (round0 (q * inject_Z (10 ^ Z.of_nat nd)))
  / inject_Z (10 ^ Z.of_nat nd).

(** A [float] where its special values can occur (what [float()] makes of
    a JSON value or of a string such as 'nan' or '-inf'): a finite
    number, an infinity, or NaN. *)
Inductive pyfloat : Type :=
| Fin (q : Q)
| PosInf
| NegInf
| NaN.

(** [a < b]: every comparison with NaN is [False]. *)
Definition flt (a b : pyfloat) : bool :=
  match a, b with
  | Fin x, Fin y => Qltb x y
  | Fin _, PosInf => true
  | NegInf, Fin _ => true
  | NegInf, PosInf => true
  | _, _ => false
  end.

(** [abs(a)] *)
Definition fabs (a : pyfloat) : pyfloat :=
  match a with
  | Fin x => Fin (Qabs x)
  | PosInf | NegInf => PosInf
  | NaN => NaN
  end.

(** [a / c] for a finite constant [c > 0]. *)
Definition fdiv (a : pyfloat) (c : Q) : pyfloat :=
  match a with
  | Fin x => Fin (x / c)
  | other => other
  end.

(** Truth value of a float: only zero is false. *)
Definition ftruthy (a : pyfloat) : bool :=
  match a with
  | Fin x => truthy x
  | _ => true
  end.

End Py.

(** ** Label deriver *)

(** The eight categories, listed in the lexicographic order of their names,
    which is the order [np.unique] returns them in. *)
Inductive label : Type :=
| Cold | CoolHumid | HotDry | HotHumid | Normal | Polluted | VeryHot | VeryHumid.

Definition label_name (l : label) : string :=
  match l with
  | Cold => "Cold" | CoolHumid => "Cool Humid" | HotDry => "Hot Dry"
  | HotHumid => "Hot Humid" | Normal => "Normal" | Polluted => "Polluted"
  | VeryHot => "Very Hot" | VeryHumid => "Very Humid"
  end.

Definition all_labels : list label :=
  [Cold; CoolHumid; HotDry; HotHumid; Normal; Polluted; VeryHot; VeryHumid].

Definition label_eqb (a b : label) : bool :=
  match a, b with
  | Cold, Cold | CoolHumid, CoolHumid | HotDry, HotDry | HotHumid, HotHumid
  | Normal, Normal | Polluted, Polluted | VeryHot, VeryHot
  | VeryHumid, VeryHumid => true
  | _, _ => false
  end.

Inductive tband : Type := t_cold | t_cool | t_normal | t_warm | t_hot | t_very_hot.
Inductive hband : Type := h_dry | h_normal | h_humid | h_very_humid.

Definition tband_eqb (a b : tband) : bool :=
  match a, b with
  | t_cold, t_cold | t_cool, t_cool | t_normal, t_normal | t_warm, t_warm
  | t_hot, t_hot | t_very_hot, t_very_hot => true
  | _, _ => false
  end.
Definition hband_eqb (a b : hband) : bool :=
  match a, b with
  | h_dry, h_dry | h_normal, h_normal | h_humid, h_humid
  | h_very_humid, h_very_humid => true
  | _, _ => false
  end.

(** [x in (a, b, ...)] *)
Definition t_in (x : tband) (l : list tband) : bool := existsb (tband_eqb x) l.
Definition h_in (x : hband) (l : list hband) : bool := existsb (hband_eqb x) l.

Definition temp_band (temp : Q) : tband :=
  if Py.Qltb temp 15 then t_cold
  else if Py.Qltb temp 20 then t_cool
  else if Py.Qltb temp 25 then t_normal
  else if Py.Qltb temp 30 then t_warm
  else if Py.Qltb temp 35 then t_hot
  else t_very_hot.

Definition humidity_band (humidity : Q) : hband :=
  if Py.Qltb humidity 30 then h_dry
  else if Py.Qltb humidity 60 then h_normal
  else if Py.Qltb humidity 80 then h_humid
  else h_very_humid.

(** [WeatherAIModel._label_from_features] (lines 808-846): a chain of
    early returns. *)
Definition _label_from_features (temp humidity air_quality : Q) : label :=
  if Py.truthy air_quality && Py.Qltb 300 air_quality then Polluted
  else
    let tb := temp_band temp in
    let hb := humidity_band humidity in
    if t_in tb [t_very_hot; t_hot] && h_in hb [h_humid; h_very_humid] then HotHumid
    else if t_in tb [t_very_hot; t_hot] && h_in hb [h_dry] then HotDry
    else if t_in tb [t_very_hot; t_hot] && h_in hb [h_normal] then VeryHot
    else if t_in tb [t_warm] && h_in hb [h_very_humid] then VeryHumid
    else if t_in tb [t_cold; t_cool] && h_in hb [h_very_humid; h_humid] then CoolHumid
    else if t_in tb [t_cold; t_cool] then Cold
    else Normal.

(** ** Forecast engine *)

Module FuzzyForecastEngine.

(** [self.light_bins]; the upper bound [None] is [float("inf")]. *)
Definition light_bins : list (string * Q * option Q) :=
  [ ("Gelap", 0, Some 50);
    ("Mendung", 50, Some 1000);
    ("Berawan", 1000, Some 10000);
    ("Cerah", 10000, Some 50000);
    ("Terik", 50000, None) ].

Definition in_bin (lux lo : Q) (hi : option Q) : bool :=
  Qle_bool lo lux &&
  match hi with Some h => Py.Qltb lux h | None => true end.

(** The [for] loop of [classify_light]: first bin that holds [lux]. *)
Fixpoint first_bin (bins : list (string * Q * option Q)) (lux : Q)
  : option string :=
  match bins with
  | [] => None
  | (name, lo, hi) :: r => if in_bin lux lo hi then Some name
                           else first_bin r lux
  end.

Definition classify_light (lux : Q) : string :=
  match first_bin light_bins lux with
  | Some name => name
  | None => "Cerah"
  end.

(** [np.polyfit(xs, ys, 1)]: the line of least squares through the points,
    by the normal equations.  It raises ([None]) on an empty [xs].  For
    equal abscissae numpy answers with a minimum-norm solution and a
    warning; [_fit_linear] never calls it there and this model's value in
    that case is not meant. *)
Definition lsq_den (xs : list Q) : Q :=
  inject_Z (Z.of_nat (length xs)) * Py.sum (map (fun x => x * x) xs)
  - Py.sum xs * Py.sum xs.

Definition np_polyfit1 (xs ys : list Q) : option (Q * Q) :=
  match xs with
  | [] => None
  | _ =>
    let n := inject_Z (Z.of_nat (length xs)) in
    let sx := Py.sum xs in
    let sy := Py.sum ys in
    let sxy := Py.sum (map (fun p => fst p * snd p) (combine xs ys)) in
    let a := (n * sxy - sx * sy) / lsq_den xs in
    let b := (sy - a * sx) / n in
    Some (a, b)
  end.

(** [(ts - t0).total_seconds() / 60.0] *)
Definition minutes_between (ts t0 : Z) : Q :=
  (inject_Z (ts - t0) / 1000000) / 60.

(** [_fit_linear] (lines 1330-1351); [series] is a list of pairs
    [(dt_utc, y)]. *)
Definition _fit_linear (series : list (Z * Q)) : option (Q * Q) :=
  if (length series <? 3)%nat then None
  else
    let series := Py.sorted fst series in
    let t0 := fst (last series (0%Z, 0)) in
    let recent := Py.lastn 30 series in
    let xs := map (fun p => minutes_between (fst p) t0) recent in
    let ys := map snd recent in
    let span := Py.max_list 0 xs - Py.min_list 0 xs in
    if match xs with [] => true | _ => false end
       || (Py.Qltb (-(1#2)) span && Py.Qltb span (1#2))
    then None
    else
      match np_polyfit1 xs ys with
      | Some (a, b) => Some (a, b)
      | None => None
      end.

(** [predict_val], the closure of [forecast_3h] (lines 1389-1399).  A fit
    is a pair, which is always true; only [None] is false. *)
Definition predict_val (now_val : Q) (fit : option (Q * Q))
    (horizon_minutes : Z) (clamp_lo clamp_hi : option Q) : Q :=
  let v := match fit with
           | None => now_val
           | Some (a, b) => b + a * inject_Z horizon_minutes
           end in
  let v := match clamp_lo with Some lo => Py.max2 lo v | None => v end in
  let v := match clamp_hi with Some hi => Py.min2 hi v | None => v end in
  v.

(** [rain_probability] (lines 1286-1298). *)
Definition rain_probability (temp_c humidity lux : Q) : Q :=
  let humidity_score := Py.min2 1 (Py.max2 0 ((humidity - 55) / 45)) in
  let light_score := Py.min2 1 (Py.max2 0 ((10000 - lux) / 10000)) in
  let temp_score := Py.min2 1 (Py.max2 0 ((temp_c - 28) / 12)) in
  let risk := (55#100) * humidity_score + (35#100) * light_score
              + (10#100) * temp_score in
  let light_label := classify_light lux in
  let risk :=
    if String.eqb light_label "Terik" then risk * (6#10)
    else if String.eqb light_label "Gelap" then Py.min2 1 (risk * (115#100))
    else risk in
  Py.min2 1 (Py.max2 0 risk) * 100.

(** [weather_type] (lines 1300-1307). *)
Definition weather_type (rain_prob lux : Q) : string :=
  if Qle_bool 70 rain_prob then "Hujan"
  else if Py.Qltb lux 1000 then "Mendung"
  else if Py.Qltb lux 10000 then "Berawan"
  else "Cerah".

(** The list [tips] of [recommendation], before it is cut and joined. *)
Definition recommendation_tips (weather_type : string)
    (temp_c humidity air_quality : Q) : list string :=
  let tips :=
    if String.eqb weather_type "Hujan" then ["Bawa payung/jas hujan"]
    else if String.eqb weather_type "Mendung" then ["Siapkan payung"]
    else if String.eqb weather_type "Berawan"
    then ["Perhatikan kemungkinan hujan, siapkan payung"]
    else if Qle_bool 32 temp_c then ["Gunakan sunscreen & topi bila di luar"]
    else ["Cuaca cerah, cocok beraktivitas"] in
  let tips :=
    if Qle_bool 200 air_quality then tips ++ ["Gunakan masker jika di luar"]
    else tips in
  let tips :=
    if Qle_bool 85 humidity && negb (String.eqb weather_type "Hujan")
    then tips ++ ["Udara lembap, kurangi aktivitas berat"]
    else tips in
  tips.

(** [recommendation] (lines 1309-1328). *)
Definition recommendation (weather_type : string)
    (temp_c humidity air_quality : Q) : string :=
  let tips := recommendation_tips weather_type temp_c humidity air_quality in
  match tips with
  | [] => "Pantau kondisi cuaca"
  | _ => String.concat " / " (firstn 2 tips)
  end.

End FuzzyForecastEngine.

(** ** Exceptions, inputs from outside, data of the training orchestrator *)

Inductive exn : Type :=
| UnboundLocalError (name : string)
| TypeError (what : string)
| IndexError
| SklearnError.

(** A raw timestamp as found in a reading: absent, a number (epoch seconds),
    a [datetime] or any other object through [str]. *)
Inductive ts_raw : Type :=
| TsNone
| TsNum (x : Q)
| TsDatetime (us : Z)
| TsStr (s : string).

(** One row of the feature matrix. *)
Record fvec : Type := mk_fvec {
  temperature : Q;
  humidity : Q;
  air_quality : Q;
  light_intensity : Q;
  battery_voltage : Q
}.

(** One reading of [local_data], a dict: a field is [None] when the key is
    missing or its value does not convert with [float]. *)
Record reading : Type := mk_reading {
  r_temperature : option Q;
  r_humidity : option Q;
  r_air_quality : option Q;
  r_light_intensity : option Q;
  r_battery_voltage : option Q;
  r_timestamp : ts_raw;
  r_ts : ts_raw;
  r_time : ts_raw
}.

Inductive eval_mode : Type := VALID | NON_VALID | UNKNOWN.
Inductive status : Type := OK | DATA_TOO_SMALL | DATA_INSUFFICIENT_VARIETY.

Definition eval_mode_eqb (a b : eval_mode) : bool :=
  match a, b with
  | VALID, VALID | NON_VALID, NON_VALID | UNKNOWN, UNKNOWN => true
  | _, _ => false
  end.

(** A dict from labels to counts, in insertion order. *)
Definition counts : Type := list (label * nat).

(** The scores scikit-learn computes at lines 1076-1081. *)
Record evaluation : Type := mk_evaluation {
  train_score : Q;
  test_score : Q;
  macro_f1 : Q;
  bal_acc : Q;
  cm : list (list nat)
}.

(** What lines 1069-1081 do: the scaler or the forest raises, a metric
    raises, or all scores come back. *)
Inductive sk_outcome : Type :=
| sk_scaler_raises
| sk_fit_raises
| sk_metric_raises
| sk_ok (ev : evaluation).

(** Where [save_model] fails.  The metadata file is written in place:
    [open(meta_path, 'w')] may fail, or it succeeds, which empties the
    file, and the write fails afterwards. *)
Inductive io_fault : Type :=
| io_ok
| io_fail_mkdir
| io_fail_model
| io_fail_scaler
| io_fail_meta_open
| io_fail_meta_write.

(** Everything a run of [train_model] takes from outside the program. *)
Record Env : Type := mk_Env {
  time_time : Z;                      (* int(time.time()) *)
  normal : nat -> Q;                  (* i-th standard normal variate of default_rng(seed) *)
  uuid4 : string;
  iso_now : nat -> Z;                 (* iso_now() at its k-th call of the run *)
  min_train_samples_per_class : Z;    (* config MIN_TRAIN_SAMPLES_PER_CLASS, default 10 *)
  fromtimestamp : Q -> option Z;      (* datetime.fromtimestamp(x, tz=utc); None when it raises *)
  fromisoformat : string -> option Z; (* datetime.fromisoformat, brought to UTC; None when it raises *)
  sklearn : list fvec -> list label -> list fvec -> list label -> sk_outcome;
  fs_fault : io_fault
}.

(** The in-memory estimators: what they were last fitted on. *)
Inductive scaler_state : Type := scaler_unfitted | scaler_fit (X : list fvec).
Inductive forest_state : Type :=
| forest_unfitted | forest_fit (X : list fvec) (y : list label).

Record train_meta : Type := mk_train_meta {
  version : string;
  training_seed : Z;
  training_samples : nat;
  training_samples_train : nat;
  training_samples_test : nat;
  meta_synthetic_used : bool;
  meta_evaluation_mode : eval_mode;
  meta_metrics_trusted : bool
}.

(** The metadata dict: the keys written by [train_model], and [saved_at]
    added by [save_model] (with the two constant paths). *)
Record meta : Type := mk_meta {
  meta_train : option train_meta;
  saved_at : option Z
}.

(** What the metadata file holds: a whole JSON document, or what a write
    that failed after the file was opened for writing left of it (nothing,
    or the beginning of the text). *)
Inductive meta_content : Type :=
| meta_whole (m : meta)
| meta_partial.

Record disk : Type := mk_disk {
  model_file : option forest_state;
  scaler_file : option scaler_state;
  meta_file : option meta_content
}.

(** [last_metrics]: the report of a completed run.  A value is [None] where
    the dict holds [None]. *)
Record report : Type := mk_report {
  rp_status : status;
  rp_evaluation_mode : eval_mode;
  rp_metrics_trusted : bool;
  rp_synthetic_used : bool;
  rp_warnings : list string;
  rp_train_accuracy : option Q;
  rp_test_accuracy : option Q;
  rp_macro_f1 : option Q;
  rp_balanced_accuracy : option Q;
  rp_baseline_majority_accuracy : option Q;
  rp_confusion_matrix : list (list nat);
  rp_labels : list label;
  rp_all_counts : counts;
  rp_train_counts : counts;
  rp_test_counts : counts
}.

Inductive metrics : Type :=
| metrics_empty
| metrics_rejected (s : status) (message : string) (mode : eval_mode)
                   (label_distribution : counts)
| metrics_report (r : report).

(** The attributes of a [WeatherAIModel] and the files it owns. *)
Record ai_state : Type := mk_ai_state {
  model : forest_state;
  scaler : scaler_state;
  trained : bool;
  model_trained_at : option Z;
  accuracy : option (option Q);
  last_metrics : metrics;
  model_meta : option meta;
  fs : disk
}.

Definition set_last_metrics (m : metrics) (st : ai_state) : ai_state :=
  mk_ai_state (model st) (scaler st) (trained st) (model_trained_at st)
    (accuracy st) m (model_meta st) (fs st).
Definition set_scaler (sc : scaler_state) (st : ai_state) : ai_state :=
  mk_ai_state (model st) sc (trained st) (model_trained_at st)
    (accuracy st) (last_metrics st) (model_meta st) (fs st).
Definition set_model (m : forest_state) (st : ai_state) : ai_state :=
  mk_ai_state m (scaler st) (trained st) (model_trained_at st)
    (accuracy st) (last_metrics st) (model_meta st) (fs st).
Definition set_model_meta (m : option meta) (st : ai_state) : ai_state :=
  mk_ai_state (model st) (scaler st) (trained st) (model_trained_at st)
    (accuracy st) (last_metrics st) m (fs st).
Definition set_fs (d : disk) (st : ai_state) : ai_state :=
  mk_ai_state (model st) (scaler st) (trained st) (model_trained_at st)
    (accuracy st) (last_metrics st) (model_meta st) d.

(** The four arrays a run carries from the split to the evaluation. *)
Record partitions : Type := mk_partitions {
  X_train : list fvec;
  y_train : list label;
  X_test : list fvec;
  y_test : list label
}.

(** ** The weather model: data preparation, augmentation, split *)

Module WeatherAIModel.

(** What [prepare_training_data] is unpacked into: [X, y, timestamps]. *)
Definition prepared : Type := (list fvec * list label * list ts_raw)%type.

(** [prepare_training_data] (lines 801-806).  Its body is the docstring
    alone: the next [def] follows at method level, so every call returns
    [None]. *)
Definition prepare_training_data (data : list reading) : option prepared :=
  None.

(** *** Lines 888-957

    These statements stand after the last [return] of
    [_oversample_minority] and are never executed.  They are recorded as
    written, to be compared with [_label_from_features] and to build
    inputs for the rest of [train_model]. *)
Module Orphaned.

Definition to_float_safe (v : option Q) : Q :=
  match v with Some x => x | None => 0 end.

(** Lines 909-949: the [if]/[elif] cascade that sets [condition]. *)
Definition condition (temp humidity air_quality : Q) : label :=
  if Py.truthy air_quality && Py.Qltb 300 air_quality then Polluted
  else
    let tb :=
      if Py.Qltb temp 15 then t_cold
      else if Py.Qltb temp 20 then t_cool
      else if Py.Qltb temp 25 then t_normal
      else if Py.Qltb temp 30 then t_warm
      else if Py.Qltb temp 35 then t_hot
      else t_very_hot in
    let hb :=
      if Py.Qltb humidity 30 then h_dry
      else if Py.Qltb humidity 60 then h_normal
      else if Py.Qltb humidity 80 then h_humid
      else h_very_humid in
    if t_in tb [t_very_hot; t_hot] && h_in hb [h_humid; h_very_humid]
    then HotHumid
    else if t_in tb [t_very_hot; t_hot] && h_in hb [h_dry] then HotDry
    else if t_in tb [t_very_hot; t_hot] && h_in hb [h_normal] then VeryHot
    else if t_in tb [t_warm] && h_in hb [h_very_humid] then VeryHumid
    else if t_in tb [t_cold; t_cool] && h_in hb [h_very_humid; h_humid]
    then CoolHumid
    else if t_in tb [t_cold; t_cool] then Cold
    else Normal.

Definition ts_truthy (t : ts_raw) : bool :=
  match t with
  | TsNone => false
  | TsNum x => Py.truthy x
  | TsDatetime _ => true
  | TsStr s => negb (String.eqb s "")
  end.

(** [a or b] *)
Definition ts_or (a b : ts_raw) : ts_raw := if ts_truthy a then a else b.

Definition row (item : reading) : fvec * label * ts_raw :=
  let temp := to_float_safe (r_temperature item) in
  let humidity := to_float_safe (r_humidity item) in
  let air_quality := to_float_safe (r_air_quality item) in
  let light_intensity := to_float_safe (r_light_intensity item) in
  let battery_voltage := to_float_safe (r_battery_voltage item) in
  (mk_fvec temp humidity air_quality light_intensity battery_voltage,
   condition temp humidity air_quality,
   ts_or (ts_or (r_timestamp item) (r_ts item)) (r_time item)).

(** The value of [X, y, timestamps] at line 957. *)
Definition rows (data : list reading) : prepared :=
  let rs := map row data in
  (map (fun r => fst (fst r)) rs, map (fun r => snd (fst r)) rs,
   map snd rs).

End Orphaned.

(** *** Counting labels *)

Definition count_label (l : label) (y : list label) : nat :=
  List.length (filter (label_eqb l) y).

(** [np.unique(y)]: the distinct labels, sorted. *)
Definition np_unique (y : list label) : list label :=
  filter (fun l => existsb (label_eqb l) y) all_labels.

(** [{lbl: int(np.sum(y == lbl)) for lbl in labels}] *)
Definition counts_over (labels : list label) (y : list label) : counts :=
  map (fun l => (l, count_label l y)) labels.

(** [any(count < 2 for count in d.values())] *)
Definition any_below_2 (d : counts) : bool :=
  existsb (fun p => (snd p <? 2)%nat) d.

(** [Counter(y)]: distinct labels in order of first occurrence. *)
Fixpoint first_seen (y : list label) (seen : list label) : list label :=
  match y with
  | [] => []
  | l :: r => if existsb (label_eqb l) seen then first_seen r seen
              else l :: first_seen r (l :: seen)
  end.

(** [Counter(y).most_common(1)]: the first label of highest count, or
    the empty list. *)
Definition most_common_1 (y : list label) : option (label * nat) :=
  fold_left
    (fun best l =>
       match best with
       | None => Some (l, count_label l y)
       | Some (b, cb) => if (cb <? count_label l y)%nat
                         then Some (l, count_label l y) else Some (b, cb)
       end)
    (first_seen y []) None.

(** *** Augmentor *)

Definition archetypes : list fvec :=
  [ mk_fvec 10 50 50 100 (38#10);
    mk_fvec 38 35 80 1200 (39#10);
    mk_fvec 26 85 90 800 4;
    mk_fvec 24 60 80 500 (38#10) ].

(** A row plus gaussian noise of deviations [0.5, 1.0, 5.0, 50.0, 0.02],
    drawn at positions [pos .. pos+4] of the generator. *)
Definition jitter_at (E : Env) (pos : nat) (src : fvec) : fvec :=
  mk_fvec (temperature src + (1#2) * normal E pos)
          (humidity src + 1 * normal E (pos + 1))
          (air_quality src + 5 * normal E (pos + 2))
          (light_intensity src + 50 * normal E (pos + 3))
          (battery_voltage src + (2#100) * normal E (pos + 4)).

(** The inner loop of [_generate_synthetic_features]. *)
Fixpoint synth_each (E : Env) (arch : fvec) (n_each pos : nat)
  : list fvec * list label :=
  match n_each with
  | O => ([], [])
  | S k =>
    let v := jitter_at E pos arch in
    let rest := synth_each E arch k (pos + 5) in
    (v :: fst rest,
     _label_from_features (temperature v) (humidity v) (air_quality v)
       :: snd rest)
  end.

(** [_generate_synthetic_features] (lines 848-861). *)
Fixpoint _generate_synthetic_features (E : Env) (archs : list fvec)
    (n_each pos : nat) : list fvec * list label :=
  match archs with
  | [] => ([], [])
  | arch :: r =>
    let one := synth_each E arch n_each pos in
    let rest := _generate_synthetic_features E r n_each (pos + 5 * n_each) in
    (fst one ++ fst rest, snd one ++ snd rest)
  end.

(** [np.unique(y, return_counts=True)], zipped. *)
Definition np_unique_counts (y : list label) : counts :=
  counts_over (np_unique y) y.

(** [X_train[np.where(y_train == label)[0]]]; the two arrays have one
    length at every call. *)
Definition rows_of (l : label) (X : list fvec) (y : list label) : list fvec :=
  map fst (filter (fun p => label_eqb (snd p) l) (combine X y)).

(** [for i in range(needed)] of [_oversample_minority], from [i]. *)
Fixpoint oversample_class (E : Env) (samples : list fvec)
    (needed i pos : nat) : list fvec :=
  match needed with
  | O => []
  | S k =>
    jitter_at E pos
      (nth (i mod List.length samples) samples (mk_fvec 0 0 0 0 0))
    :: oversample_class E samples k (S i) (pos + 5)
  end.

(** [for label, count in zip(unique, counts)]: the rows and labels
    appended to [X_new] and [y_new], and the generator's position. *)
Fixpoint oversample_loop (E : Env) (X : list fvec) (y : list label)
    (classes : counts) (min_per_class : Z) (pos : nat)
  : list fvec * list label * nat :=
  match classes with
  | [] => ([], [], pos)
  | (l, count) :: r =>
    if (min_per_class <=? Z.of_nat count)%Z
    then oversample_loop E X y r min_per_class pos
    else
      let needed := Z.to_nat (min_per_class - Z.of_nat count) in
      let samples := rows_of l X y in
      if (List.length samples =? 0)%nat
      then oversample_loop E X y r min_per_class pos
      else
        let rest :=
          oversample_loop E X y r min_per_class (pos + 5 * needed) in
        (oversample_class E samples needed 0 pos ++ fst (fst rest),
         repeat l needed ++ snd (fst rest),
         snd rest)
  end.

(** [_oversample_minority] (lines 863-887). *)
Definition _oversample_minority (E : Env) (X : list fvec) (y : list label)
    (pos : nat) (min_per_class : Z) : list fvec * list label :=
  let new := oversample_loop E X y (np_unique_counts y) min_per_class pos in
  match fst (fst new) with
  | [] => (X, y)
  | _ => (X ++ fst (fst new), y ++ snd (fst new))
  end.

(** Lines 1052-1061: the synthetic rows, when requested, and the
    oversampler; both assign [X_train] and [y_train] only. *)
Definition augment (E : Env) (needs_synthetic : bool) (p : partitions)
  : partitions :=
  let syn := _generate_synthetic_features E archetypes 3 0 in
  let Xt := if needs_synthetic then X_train p ++ fst syn else X_train p in
  let yt := if needs_synthetic then y_train p ++ snd syn else y_train p in
  let pos := if needs_synthetic then (5 * 3 * List.length archetypes)%nat
             else O in
  let over :=
    _oversample_minority E Xt yt pos (min_train_samples_per_class E) in
  mk_partitions (fst over) (snd over) (X_test p) (y_test p).

(** *** Chronological split *)

Fixpoint endswith_Z (s : string) : bool :=
  match s with
  | EmptyString => false
  | String c EmptyString => Ascii.eqb c "Z"%char
  | String _ r => endswith_Z r
  end.

(** [s.replace('Z', '+00:00')] *)
Fixpoint replace_Z (s : string) : string :=
  match s with
  | EmptyString => EmptyString
  | String c r => if Ascii.eqb c "Z"%char then String.append "+00:00" (replace_Z r)
                  else String c (replace_Z r)
  end.

(** [datetime.fromtimestamp(idx, tz=utc)] of a small index. *)
Definition us_of_index (idx : nat) : Z := (Z.of_nat idx * 1000000)%Z.

(** [_parse_ts] (lines 1015-1036): the instant in UTC, or the index taken
    as an epoch when anything raises. *)
Definition _parse_ts (E : Env) (t : ts_raw) (idx : nat) : Z :=
  let dt :=
    match t with
    | TsNone => Some (us_of_index idx)
    | TsNum x => fromtimestamp E x
    | TsDatetime us => Some us
    | TsStr s => fromisoformat E (if endswith_Z s then replace_Z s else s)
    end in
  match dt with
  | Some us => us
  | None => us_of_index idx
  end.

(** [[(_parse_ts(timestamps[i], i), i) for i in range(len(timestamps))]],
    from index [i]. *)
Fixpoint time_keys (E : Env) (timestamps : list ts_raw) (i : nat)
  : list (Z * nat) :=
  match timestamps with
  | [] => []
  | t :: r => (_parse_ts E t i, i) :: time_keys E r (S i)
  end.

(** Line 1040.  The keys are naive datetimes, so the comparison never
    raises and the fallback of line 1044 is not taken. *)
Definition sorted_indices (E : Env) (timestamps : list ts_raw) : list nat :=
  map snd (Py.sorted fst (time_keys E timestamps 0)).

(** Line 1045: [max(1, min(n - 1, int(n * 0.8)))].  [int] truncates; the
    float product [n * 0.8] and the exact one have the same integer part
    (it is the quotient of [4 n] by [5]). *)
Definition split_index (n : nat) : nat :=
  Z.to_nat (Z.max 1 (Z.min (Z.of_nat n - 1)
                           (Qfloor (inject_Z (Z.of_nat n) * (8#10))))).

(** Lines 1045-1047: [train_idx] and [test_idx]. *)
Definition chronological_split (E : Env) (timestamps : list ts_raw)
  : list nat * list nat :=
  let s := sorted_indices E timestamps in
  let split_idx := split_index (List.length s) in
  (firstn split_idx s, skipn split_idx s).

(** [a[idx]] for a list of indices: [None] is [IndexError]. *)
Fixpoint take {A} (a : list A) (idx : list nat) : option (list A) :=
  match idx with
  | [] => Some []
  | i :: r =>
    match nth_error a i, take a r with
    | Some x, Some xs => Some (x :: xs)
    | _, _ => None
    end
  end.

(** *** The training orchestrator *)

(** Where a run of [train_model] ends.  The method itself returns a
    boolean, [True] for [Done] only. *)
Inductive outcome : Type :=
| Rejected (s : status)
| Raised (e : exn)
| SaveFailed
| Done.

Definition returned (o : outcome) : bool :=
  match o with Done => true | _ => false end.

Definition str_of_nat (n : nat) : string :=
  NilEmpty.string_of_uint (Nat.to_uint n).

Definition msg_too_small (n : nat) : string :=
  String.append "AI: Training dibatalkan, data nyata terlalu sedikit ("
    (String.append (str_of_nat n) "/50)").
Definition msg_single_class : string :=
  "AI: Training dibatalkan, hanya ada 1 kelas label pada data nyata.".
Definition warn_minor : string :=
  "Kelas minor <2; evaluasi tidak representatif (NON_VALID). Tidak pakai stratify.".
Definition warn_test : string :=
  "Distribusi test set tidak memadai (kelas <2). Metrik tidak representatif.".

(** [dict(Counter(y))] *)
Definition counter (y : list label) : counts :=
  counts_over (first_seen y []) y.

(** [_atomic_write] twice, then the metadata file (lines 777-799).
    An atomic write that fails leaves its target as it was; the files
    written before it stay replaced.  The metadata file is not written
    atomically: once [open(meta_path, 'w')] has succeeded the old text is
    gone, and a failure of [json.dump] or of closing the file leaves it
    partial. *)
Definition save_model (E : Env) (st : ai_state) : bool * ai_state :=
  let d := fs st in
  match fs_fault E with
  | io_fail_mkdir => (false, st)
  | io_fail_model => (false, st)
  | io_fail_scaler =>
    (false, set_fs (mk_disk (Some (model st)) (scaler_file d) (meta_file d)) st)
  | (io_fail_meta_open | io_fail_meta_write | io_ok) as fault =>
    let d2 := mk_disk (Some (model st)) (Some (scaler st)) (meta_file d) in
    (* meta = getattr(self, 'model_meta', None) or {};  meta.update(...) *)
    let meta_obj :=
      match model_meta st with
      | Some (mk_meta (Some tm) sa) => Some (mk_meta (Some tm) sa)
      | Some (mk_meta None (Some sa)) => Some (mk_meta None (Some sa))
      | Some (mk_meta None None) => None
      | None => None
      end in
    let updated :=
      match meta_obj with
      | Some m => mk_meta (meta_train m) (Some (iso_now E 1%nat))
      | None => mk_meta None (Some (iso_now E 1%nat))
      end in
    let st2 :=
      match meta_obj with
      | Some _ => set_model_meta (Some updated) st
      | None => st
      end in
    match fault with
    | io_ok =>
      (true, set_fs (mk_disk (Some (model st)) (Some (scaler st))
                             (Some (meta_whole updated))) st2)
    | io_fail_meta_write =>
      (false, set_fs (mk_disk (Some (model st)) (Some (scaler st))
                              (Some meta_partial)) st2)
    | _ => (false, set_fs d2 st2)
    end
  end.

(** Lines 1084-1088: share of the most common training label in the test
    set, at most [1.0].  [None] is the [IndexError] of [most_common(1)[0]]
    on an empty training set. *)
Definition baseline_majority (p : partitions) : option Q :=
  match most_common_1 (y_train p) with
  | None => None
  | Some (majority_label, _) =>
    let n_test := List.length (y_test p) in
    let majority_in_test :=
      if (0 <? n_test)%nat then count_label majority_label (y_test p)
      else O in
    let baseline_acc :=
      if (0 <? n_test)%nat
      then inject_Z (Z.of_nat majority_in_test) / inject_Z (Z.of_nat n_test)
      else 0 in
    Some (Py.min2 1 baseline_acc)
  end.

(** Lines 1090-1094. *)
Definition validity_gate (evaluation_mode : eval_mode)
    (warning_msgs : list string) (yt : list label)
  : eval_mode * list string :=
  let test_class_counts := counts_over (np_unique yt) yt in
  if (List.length (np_unique yt) <? 2)%nat || any_below_2 test_class_counts
  then (NON_VALID, warning_msgs ++ [warn_test])
  else (evaluation_mode, warning_msgs).

(** Lines 1105-1109 and 1126-1142. *)
Definition build_report (st : status) (evaluation_mode : eval_mode)
    (synthetic_used : bool) (warning_msgs : list string) (ev : evaluation)
    (baseline_acc : Q) (unique_labels : list label)
    (all_counts train_counts test_counts : counts) : report :=
  let metrics_trusted := eval_mode_eqb evaluation_mode VALID in
  let display_test_score :=
    if metrics_trusted then Some (test_score ev) else None in
  let display_macro_f1 :=
    if metrics_trusted then Some (macro_f1 ev) else None in
  let display_bal_acc :=
    if metrics_trusted then Some (bal_acc ev) else None in
  let display_baseline :=
    if metrics_trusted then baseline_acc else Py.min2 1 baseline_acc in
  mk_report st evaluation_mode metrics_trusted synthetic_used warning_msgs
    (Some (train_score ev)) display_test_score display_macro_f1
    display_bal_acc (Some display_baseline) (cm ev) unique_labels
    all_counts train_counts test_counts.

(** Lines 979-1161: [train_model] from the unpacking of the value of
    [prepare_training_data] on. *)
Definition train_model_from (E : Env) (prep : option prepared)
    (force_single_class : bool) (st : ai_state) : outcome * ai_state :=
  match prep with
  | None =>
    (Raised (TypeError "cannot unpack non-iterable NoneType object"), st)
  | Some (X, y, timestamps) =>
    let label_counts := counter y in
    let unique_labels := np_unique y in
    if (List.length unique_labels <? 2)%nat && negb force_single_class
    then
      (Rejected DATA_INSUFFICIENT_VARIETY,
       set_last_metrics
         (metrics_rejected DATA_INSUFFICIENT_VARIETY msg_single_class
                           NON_VALID label_counts) st)
    else
      let needs_synthetic :=
        (List.length unique_labels <? 2)%nat && force_single_class in
      let evaluation_mode := if needs_synthetic then NON_VALID else VALID in
      let synthetic_used := needs_synthetic in
      let class_counts := counts_over unique_labels y in
      let minor := any_below_2 class_counts in
      let evaluation_mode := if minor then NON_VALID else evaluation_mode in
      let warning_msgs := if minor then [warn_minor] else [] in
      let idx := chronological_split E timestamps in
      let train_idx := fst idx in
      let test_idx := snd idx in
      match take X train_idx, take X test_idx,
            take y train_idx, take y test_idx with
      | Some Xtr, Some Xte, Some ytr, Some yte =>
        let p := augment E needs_synthetic (mk_partitions Xtr ytr Xte yte) in
        let all_counts := counts_over unique_labels y in
        let train_counts := counts_over (np_unique (y_train p)) (y_train p) in
        let test_counts := counts_over (np_unique (y_test p)) (y_test p) in
        match sklearn E (X_train p) (y_train p) (X_test p) (y_test p) with
        | sk_scaler_raises => (Raised SklearnError, st)
        | sk_fit_raises =>
          (Raised SklearnError, set_scaler (scaler_fit (X_train p)) st)
        | sk_metric_raises =>
          (Raised SklearnError,
           set_model (forest_fit (X_train p) (y_train p))
             (set_scaler (scaler_fit (X_train p)) st))
        | sk_ok ev =>
          let st1 := set_model (forest_fit (X_train p) (y_train p))
                       (set_scaler (scaler_fit (X_train p)) st) in
          match baseline_majority p with
          | None => (Raised IndexError, st1)
          | Some baseline_acc =>
            let gate := validity_gate evaluation_mode warning_msgs (y_test p) in
            let evaluation_mode := fst gate in
            let warning_msgs := snd gate in
            let r := build_report OK evaluation_mode synthetic_used
                       warning_msgs ev baseline_acc unique_labels
                       all_counts train_counts test_counts in
            let metrics_trusted := rp_metrics_trusted r in
            (* Simpan state/metrics, lines 1123-1154 *)
            let st2 :=
              mk_ai_state (model st1) (scaler st1)
                true
                (Some (iso_now E 0%nat))
                (Some (if metrics_trusted then Some (test_score ev) else None))
                (metrics_report r)
                (Some (mk_meta
                   (Some (mk_train_meta (uuid4 E) (time_time E)
                            (List.length y) (List.length (y_train p))
                            (List.length (y_test p)) synthetic_used
                            evaluation_mode metrics_trusted))
                   None))
                (fs st1) in
            let saved := save_model E st2 in
            if fst saved then (Done, snd saved) else (SaveFailed, snd saved)
          end
        end
      | _, _, _, _ => (Raised IndexError, st)
      end
  end.

(** [train_model] (lines 959-1165), with the state it ends in.  Every
    exception is caught by the handler of line 1163. *)
Definition train_model_run (E : Env) (local_data : list reading)
    (force_single_class : bool) (st : ai_state) : outcome * ai_state :=
  if (List.length local_data <? 50)%nat
  then
    (* Line 974 reads [y], a local name that is bound at line 978 only. *)
    let y : option (list label) := None in
    match y with
    | None => (Raised (UnboundLocalError "y"), st)
    | Some y =>
      (Rejected DATA_TOO_SMALL,
       set_last_metrics
         (metrics_rejected DATA_TOO_SMALL
            (msg_too_small (List.length local_data)) NON_VALID (counter y))
         st)
    end
  else
    let sample_data := local_data in
    train_model_from E (prepare_training_data sample_data)
      force_single_class st.

Definition train_model (E : Env) (local_data : list reading)
    (force_single_class : bool) (st : ai_state) : bool * ai_state :=
  let r := train_model_run E local_data force_single_class st in
  (returned (fst r), snd r).

(** *** Loading, and the recommendations of the classifier wrapper *)

(** What [joblib.load] does in [load_model]. *)
Inductive load_fault : Type :=
| load_ok
| load_model_raises
| load_scaler_raises.

(** [load_model] (lines 758-769). *)
Definition load_model (lf : load_fault) (st : ai_state) : bool * ai_state :=
  match model_file (fs st), scaler_file (fs st) with
  | Some m, Some sc =>
    match lf with
    | load_model_raises => (false, st)
    | load_scaler_raises => (false, set_model m st)
    | load_ok =>
      (true,
       mk_ai_state m sc true (model_trained_at st) (accuracy st)
         (last_metrics st) (model_meta st) (fs st))
    end
  | _, _ => (false, st)
  end.

(** [__init__] (lines 735-756) over the files found in the models
    directory. *)
Definition init (d : disk) (lf : load_fault) : ai_state :=
  snd (load_model lf
         (mk_ai_state forest_unfitted scaler_unfitted false None None
            metrics_empty None d)).

(** The table [condition_recommendations] of [get_recommendations]. *)
Definition condition_recommendations : list (string * list string) :=
  [ ("Cold", ["Wear warm clothing"; "Consider indoor heating";
              "Protect pipes from freezing"]);
    ("Very Hot", ["Stay hydrated"; "Avoid direct sun exposure";
                  "Use air conditioning"]);
    ("Very Humid", ["Use dehumidifier"; "Wear breathable clothing";
                    "Check for mold"]);
    ("Polluted", ["Wear mask outdoors"; "Use air purifier";
                  "Limit outdoor activities"]);
    ("Hot Dry", ["Stay hydrated"; "Use moisturizer"; "Protect from sunburn"]);
    ("Hot Humid", ["Stay in air conditioning"; "Wear light clothing";
                   "Watch for heat exhaustion"]);
    ("Cool Humid", ["Wear light layers"; "Use umbrella if needed";
                    "Check for dampness"]);
    ("Normal", ["Great weather for activities";
                "Perfect conditions for exercise"; "Enjoy outdoors"]) ].

(** [d.get(key, default)] on a dict given as a list of items. *)
Fixpoint dict_get {V} (d : list (string * V)) (key : string) (default : V) : V :=
  match d with
  | [] => default
  | (k, v) :: r => if String.eqb k key then v else dict_get r key default
  end.

(** The tips of [get_recommendations] before the cut to five.  The two
    readings are [sensor_data.get(key, 0)]: [None] is a missing key. *)
Definition recommendations_all (condition : string)
    (air_quality temp : option Q) : list string :=
  let recommendations :=
    dict_get condition_recommendations condition ["Weather conditions normal"] in
  let air_quality := match air_quality with Some x => x | None => 0 end in
  let recommendations :=
    if Py.Qltb 400 air_quality
    then recommendations ++ ["Hazardous air quality - stay indoors"]
    else if Py.Qltb 300 air_quality
    then recommendations ++ ["Very unhealthy air - avoid outdoor activities"]
    else if Py.Qltb 200 air_quality
    then recommendations ++ ["Unhealthy air - limit outdoor exercise"]
    else if Py.Qltb 100 air_quality
    then recommendations
         ++ ["Moderate air quality - sensitive groups should limit exposure"]
    else recommendations in
  let temp := match temp with Some x => x | None => 0 end in
  if Py.Qltb 35 temp
  then recommendations ++ ["Extreme heat - seek immediate cooling"]
  else if Py.Qltb temp 5
  then recommendations ++ ["Freezing conditions - take winter precautions"]
  else recommendations.

(** [get_recommendations] (lines 1226-1261). *)
Definition get_recommendations (condition : string)
    (air_quality temp : option Q) : list string :=
  firstn 5 (recommendations_all condition air_quality temp).

End WeatherAIModel.

(** ** The server: readiness, the training endpoint and its worker *)

Module Server.

Import WeatherAIModel.

Definition MIN_AI_TRAIN_DATA : nat := 50.

(** The module-level state the endpoint and the worker share.  [workers]
    lists the live threads of [_run_train], each with the
    [effective_force] it closed over. *)
Record server : Type := mk_server {
  local_data : list reading;
  weather_ai : ai_state;
  ai_training_in_progress : bool;
  workers : list bool;
  allow_threshold : nat   (* config ALLOW_AUTO_TRAIN_SINGLE_CLASS_THRESHOLD, default 100 *)
}.

(** [get_label_distribution] (lines 1478-1487): any exception gives the
    empty dict. *)
Definition get_label_distribution (data_points : list reading) : counts :=
  match data_points with
  | [] => []
  | _ =>
    match prepare_training_data data_points with
    | None => []     (* the unpacking raises [TypeError] *)
    | Some (_, y, _) => np_unique_counts y
    end
  end.

Inductive reason : Type :=
| data_below_min | single_class_auto_allowed | single_class
| class_too_small | ready.

Record info : Type := mk_info {
  info_reason : reason;
  auto_force : bool;
  distribution : counts
}.

(** [ai_ready_for_training] (lines 1490-1528). *)
Definition ai_ready_for_training (s : server) : bool * info :=
  if (List.length (local_data s) <? MIN_AI_TRAIN_DATA)%nat
  then (false, mk_info data_below_min false
                 (get_label_distribution (local_data s)))
  else
    let dist := get_label_distribution (local_data s) in
    if (List.length dist <? 2)%nat
    then
      if (allow_threshold s <=? List.length (local_data s))%nat
      then (true, mk_info single_class_auto_allowed true dist)
      else (false, mk_info single_class false dist)
    else if any_below_2 dist
    then (false, mk_info class_too_small false dist)
    else (true, mk_info ready false dist).

Inductive response : Type :=
| not_ready           (* 409 *)
| training_in_progress (* 202 *)
| training_started.

(** [train_ai_model] (lines 2510-2639).  The test and the assignment of
    the flag run under [ai_training_lock]; the handler is one step of the
    model. *)
Definition train_ai_model (force_single_class : bool) (s : server)
  : response * server :=
  let r := ai_ready_for_training s in
  if negb (fst r) && negb force_single_class
  then (not_ready, s)
  else if ai_training_in_progress s
  then (training_in_progress, s)
  else
    let effective_force := force_single_class || auto_force (snd r) in
    (training_started,
     mk_server (local_data s) (weather_ai s) true
               (workers s ++ [effective_force]) (allow_threshold s)).

(** [_run_train] (lines 2552-2622), run by the first live worker.
    [escapes] says that the body raised past both handlers; the
    [finally] clause runs either way.  The refresh of the last prediction
    after a success touches neither the model nor the flag and is left
    out. *)
Definition _run_train (E : Env) (escapes : bool) (s : server) : server :=
  match workers s with
  | [] => s
  | effective_force :: rest =>
    let ai :=
      if escapes then weather_ai s
      else snd (train_model E (local_data s) effective_force (weather_ai s)) in
    (* finally: ai_training_in_progress = False *)
    mk_server (local_data s) ai false rest (allow_threshold s)
  end.

Inductive event : Type :=
| Trigger (force_single_class : bool)
| WorkerEnds (E : Env) (escapes : bool)
| Reading (r : reading).

Definition step (s : server) (e : event) : server :=
  match e with
  | Trigger f => snd (train_ai_model f s)
  | WorkerEnds E esc => _run_train E esc s
  | Reading r =>
    mk_server (local_data s ++ [r]) (weather_ai s)
              (ai_training_in_progress s) (workers s) (allow_threshold s)
  end.

Definition run (s : server) (es : list event) : server :=
  fold_left step es s.

(** The state at start-up, before any request. *)
Definition boot (ai : ai_state) (threshold : nat) : server :=
  mk_server [] ai false [] threshold.

End Server.

(** ** Timestamps and ingestion helpers *)

Module Ingest.

(** A [datetime]: its wall-clock fields as microseconds, and the offset of
    its [tzinfo] ([None] for a naive one). *)
Record datetime : Type := mk_datetime {
  wall : Z;
  tz : option Z
}.

(** [JAKARTA_TZ], UTC+7. *)
Definition JAKARTA_OFFSET : Z := (7 * 3600 * 1000000)%Z.

(** The instant of [dt] in UTC, a naive one being read at offset [assume]. *)
Definition utc_us (assume : Z) (dt : datetime) : Z :=
  (wall dt - match tz dt with Some o => o | None => assume end)%Z.

(** [iso_from_dt] (lines 63-70) on a [datetime].  The text
    "YYYY-MM-DDTHH:MM:SSZ" is stood for by the UTC second it names. *)
Definition iso_from_dt (assume_tz : Z) (dt : datetime) : Z :=
  (utc_us assume_tz dt / 1000000)%Z.

(** What the server takes from [datetime] and the clock. *)
Record TimeLib : Type := mk_TimeLib {
  utcfromtimestamp : Q -> option Z;             (* naive; None when it raises *)
  dt_fromisoformat : string -> option datetime; (* None is ValueError *)
  strptime : string -> string -> option Z;      (* naive; None is ValueError *)
  utcnow : Z                                    (* the clock, in UTC *)
}.

Definition is_digit (c : ascii) : bool :=
  let n := nat_of_ascii c in (48 <=? n)%nat && (n <=? 57)%nat.

Fixpoint all_digits (s : string) : bool :=
  match s with
  | EmptyString => true
  | String c r => is_digit c && all_digits r
  end.

(** [s.isdigit()] *)
Definition isdigit (s : string) : bool :=
  match s with EmptyString => false | _ => all_digits s end.

(** [int(s)] for a string of digits. *)
Fixpoint int_of_digits (s : string) (acc : Z) : Z :=
  match s with
  | EmptyString => acc
  | String c r => int_of_digits r (acc * 10 + (Z.of_nat (nat_of_ascii c) - 48))%Z
  end.

Definition raw_truthy (t : ts_raw) : bool :=
  match t with
  | TsNone => false
  | TsNum x => Py.truthy x
  | TsDatetime _ => true
  | TsStr s => negb (String.eqb s "")
  end.

Definition strptime_formats : list string :=
  [ "%d/%m/%Y, %H.%M.%S"; "%d/%m/%Y, %H:%M:%S"; "%d/%m/%Y %H:%M:%S";
    "%Y-%m-%d %H:%M:%S"; "%Y/%m/%d %H:%M:%S" ].

(** The [for fmt in (...)] loop of [parse_sensor_timestamp]. *)
Fixpoint first_format (L : TimeLib) (value : string) (fmts : list string)
  : option datetime :=
  match fmts with
  | [] => None
  | fmt :: r =>
    match strptime L value fmt with
    | Some w => Some (mk_datetime w None)
    | None => first_format L value r
    end
  end.

(** [parse_sensor_timestamp] (lines 1551-1577).  A [datetime] value is
    neither a number nor a string and gets [None]. *)
Definition parse_sensor_timestamp (L : TimeLib) (value : ts_raw)
  : option datetime :=
  if negb (raw_truthy value) then None
  else
    match value with
    | TsNum x =>
      match utcfromtimestamp L x with
      | Some w => Some (mk_datetime w None)
      | None => None
      end
    | TsStr s =>
      if isdigit s
      then match utcfromtimestamp L (inject_Z (int_of_digits s 0)) with
           | Some w => Some (mk_datetime w None)
           | None => None
           end
      else
        match dt_fromisoformat L (WeatherAIModel.replace_Z s) with
        | Some dt => Some dt
        | None => first_format L s strptime_formats
        end
    | _ => None
    end.

(** [normalize_ts] (lines 1579-1585): to naive UTC. *)
Definition normalize_ts (ts : option datetime) : option datetime :=
  match ts with
  | None => None
  | Some dt =>
    match tz dt with
    | Some o => Some (mk_datetime (wall dt - o) None)
    | None => Some dt
    end
  end.

(** [update_last_seen_from_reading] (lines 1670-1680): the new value of
    the global [last_esp32_seen_at]. *)
Definition update_last_seen_from_reading (L : TimeLib) (reading_ : reading)
    (last_esp32_seen_at : option datetime) : option datetime :=
  match normalize_ts (parse_sensor_timestamp L (r_timestamp reading_)) with
  | None => last_esp32_seen_at
  | Some ts =>
    let last := match last_esp32_seen_at with
                | Some _ => normalize_ts last_esp32_seen_at
                | None => None
                end in
    match last with
    | None => Some ts
    | Some l => if (wall l <? wall ts)%Z then Some ts else Some l
    end
  end.

(** [get_esp32_connection_state] (lines 1531-1548).  [setting] is
    [int(client_settings.get('esp32_offline_seconds', 15))], [None] when
    [int] raises. *)
Definition get_esp32_connection_state (L : TimeLib) (setting : option Z)
    (last_esp32_seen_at : option datetime) : bool * option Z :=
  let threshold := match setting with Some t => t | None => 15%Z end in
  let threshold := if (threshold <? 1)%Z then 1%Z else threshold in
  match last_esp32_seen_at with
  | None => (false, None)
  | Some seen =>
    match normalize_ts (Some seen) with
    | None => (false, None)
    | Some last_seen =>
      let elapsed := inject_Z (utcnow L - wall last_seen) / 1000000 in
      (Qle_bool elapsed (inject_Z threshold),
       Some (iso_from_dt JAKARTA_OFFSET (mk_datetime (wall last_seen) (Some 0%Z))))
    end
  end.

(** *** Payload validation *)

(** What [validate_and_normalize_sensor_payload] observes of a JSON
    value: whether it is [None], its truth value and what [float] makes
    of it ([None]: [float] raises; NaN and the infinities are floats). *)
Inductive jv : Type :=
| JNull
| JVal (truthy : bool) (as_float : option Py.pyfloat).

Definition jv_truthy (j : jv) : bool :=
  match j with JNull => false | JVal t _ => t end.

Definition jv_float (j : jv) : option Py.pyfloat :=
  match j with JNull => None | JVal _ f => f end.

Definition jv_of_float (x : Py.pyfloat) : jv := JVal (Py.ftruthy x) (Some x).

(** [data.get(key)]: [None] for a missing key and for a stored [None]. *)
Definition jv_get (v : option jv) : option jv :=
  match v with
  | Some JNull => None
  | other => other
  end.

(** The keys of the payload the function reads; [None] is a missing key. *)
Record payload : Type := mk_payload {
  p_temperature : option jv;
  p_temp_c : option jv;
  p_temp_milli : option jv;
  p_humidity : option jv;
  p_air_quality : option jv;
  p_light_intensity : option jv;
  p_battery_voltage : option jv;
  p_battery_current : option jv;
  p_battery_power : option jv;
  p_lat : option jv;
  p_latitude : option jv;
  p_lon : option jv;
  p_longitude : option jv
}.

(** The same keys of the returned dict.  A numeric key holds a float or
    [None] once it went through [safe_float]. *)
Record normalized : Type := mk_normalized {
  n_temperature : option (option Py.pyfloat);
  n_humidity : option (option Py.pyfloat);
  n_air_quality : option (option Py.pyfloat);
  n_light_intensity : option (option Py.pyfloat);
  n_battery_voltage : option (option Py.pyfloat);
  n_battery_current : option (option Py.pyfloat);
  n_battery_power : option (option Py.pyfloat);
  n_latitude : option jv;
  n_longitude : option jv
}.

(** [safe_float] over a key that may be missing. *)
Definition coerce (v : option jv) : option (option Py.pyfloat) :=
  match v with
  | Some j => Some (jv_float j)
  | None => None
  end.

(** Lines 1620-1626. *)
Definition check_temperature (t : option (option Py.pyfloat))
  : option (option Py.pyfloat) * list string :=
  match t with
  | Some (Some t) =>
    let milli := Py.flt (Py.Fin 1000) (Py.fabs t) in
    let v := if milli then Py.fdiv t 1000 else t in
    (Some (Some v),
     (if milli then ["temperature appeared in milli, converted"] else [])
     ++ (if Py.flt v (Py.Fin (-50)) || Py.flt (Py.Fin 80) v
         then ["temperature out-of-range"] else []))
  | other => (other, [])
  end.

(** Lines 1628-1634. *)
Definition check_humidity (h : option (option Py.pyfloat))
  : option (option Py.pyfloat) * list string :=
  match h with
  | Some (Some h) =>
    let milli := Py.flt (Py.Fin 1000) h in
    let v := if milli then Py.fdiv h 1000 else h in
    (Some (Some v),
     (if milli then ["humidity appeared in milli, converted"] else [])
     ++ (if Py.flt v (Py.Fin 0) || Py.flt (Py.Fin 100) v
         then ["humidity out-of-range"] else []))
  | other => (other, [])
  end.

(** Lines 1636-1642. *)
Definition check_air_quality (aq : option (option Py.pyfloat))
  : option (option Py.pyfloat) * list string :=
  match aq with
  | Some (Some aq) =>
    let milli := Py.flt (Py.Fin 100000) aq in
    let v := if milli then Py.fdiv aq 1000 else aq in
    (Some (Some v),
     (if milli then ["air_quality appeared in milli, converted"] else [])
     ++ (if Py.flt v (Py.Fin 0) then ["air_quality negative"] else []))
  | other => (other, [])
  end.

(** Lines 1644-1650. *)
Definition check_battery_voltage (bv : option (option Py.pyfloat))
  : option (option Py.pyfloat) * list string :=
  match bv with
  | Some (Some bv) =>
    let milli := Py.flt (Py.Fin 100) bv in
    let v := if milli then Py.fdiv bv 1000 else bv in
    (Some (Some v),
     (if milli then ["battery_voltage appeared in milli, converted"] else [])
     ++ (if Py.flt v (Py.Fin 0) || Py.flt (Py.Fin 20) v
         then ["battery_voltage out-of-range"] else []))
  | other => (other, [])
  end.

(** [data.get(ka) or data.get(kb)] *)
Definition jv_or (a b : option jv) : option jv :=
  match jv_get a with
  | Some j => if jv_truthy j then Some j else jv_get b
  | None => jv_get b
  end.

(** Lines 1652-1665: the new [latitude] and [longitude], and the warning. *)
Definition check_gps (p : payload) : option jv * option jv * list string :=
  let lat := jv_or (p_lat p) (p_latitude p) in
  let lon := jv_or (p_lon p) (p_longitude p) in
  match lat, lon with
  | Some la, Some lo =>
    match jv_float la, jv_float lo with
    | Some latf, Some lonf =>
      if Py.flt (Py.Fin 90) (Py.fabs latf)
         || Py.flt (Py.Fin 180) (Py.fabs lonf)
      then (p_latitude p, p_longitude p, ["gps out-of-range"])
      else (Some (jv_of_float latf), Some (jv_of_float lonf), [])
    | _, _ => (p_latitude p, p_longitude p, ["gps parse error"])
    end
  | _, _ => (p_latitude p, p_longitude p, [])
  end.

(** [validate_and_normalize_sensor_payload] (lines 1588-1667): the
    normalized keys, the warnings and the invalid reasons. *)
Definition validate_and_normalize_sensor_payload (p : payload)
  : normalized * list string * list string :=
  (* lines 1598-1605 *)
  let t1 := match p_temperature p with
            | Some v => Some v
            | None => p_temp_c p
            end in
  let milli :=
    match t1, p_temp_milli p with
    | None, Some m =>
      match jv_float m with
      | Some x => (Some (jv_of_float (Py.fdiv x 1000)),
                   ["temperature converted from milli"], [])
      | None => (None, [], ["temp_milli invalid"])
      end
    | _, _ => (t1, [], [])
    end in
  let t2 := fst (fst milli) in
  let w0 := snd (fst milli) in
  let invalids := snd milli in
  let ct := check_temperature (coerce t2) in
  let ch := check_humidity (coerce (p_humidity p)) in
  let ca := check_air_quality (coerce (p_air_quality p)) in
  let cb := check_battery_voltage (coerce (p_battery_voltage p)) in
  let cg := check_gps p in
  (mk_normalized (fst ct) (fst ch) (fst ca) (coerce (p_light_intensity p))
     (fst cb) (coerce (p_battery_current p)) (coerce (p_battery_power p))
     (fst (fst cg)) (snd (fst cg)),
   w0 ++ snd ct ++ snd ch ++ snd ca ++ snd cb ++ snd cg,
   invalids).

End Ingest.

(** ** The three-hour forecast *)

Module Forecast.

Import FuzzyForecastEngine Ingest.

Record forecast_point : Type := mk_forecast_point {
  fp_timestamp : Z;
  fp_weather_type : string;
  fp_rain_probability : Q;
  fp_confidence : Q;
  fp_light_label : string;
  fp_temperature : Q;
  fp_humidity : Q;
  fp_light_intensity : Q
}.

Record forecast_result : Type := mk_forecast_result {
  now : forecast_point;
  hourly_forecast : list forecast_point;
  predicted_rain_time : option Z;
  primary_recommendation : string
}.

(** [_to_float] (lines 1274-1278) of a looked-up value. *)
Definition _to_float (value : option Q) (default : Q) : Q :=
  match value with Some x => x | None => default end.

(** The instant of a parsed timestamp, a naive one being taken as UTC
    (lines 1356-1358 and 1376-1378). *)
Definition as_utc (dt : datetime) : Z := utc_us 0 dt.

(** [base_ts_utc] (lines 1355-1358). *)
Definition base_ts_utc (L : TimeLib) (latest : reading) : Z :=
  match parse_sensor_timestamp L (r_timestamp latest) with
  | Some dt => as_utc dt
  | None => utcnow L
  end.

Definition minutes_30 : Z := (30 * 60 * 1000000)%Z.
Definition hour_us : Z := (3600 * 1000000)%Z.

(** The loop of lines 1370-1383 for one field: the points of the last
    thirty minutes. *)
Definition window (L : TimeLib) (base : Z) (field : reading -> option Q)
    (now_val : Q) (history : list reading) : list (Z * Q) :=
  flat_map
    (fun item =>
       match parse_sensor_timestamp L (r_timestamp item) with
       | None => []
       | Some dt =>
         let ts := as_utc dt in
         if (ts <? base - minutes_30)%Z || (base <? ts)%Z then []
         else [(ts, _to_float (field item) now_val)]
       end)
    (Py.lastn 200 history).

(** [base_conf] (lines 1401-1402). *)
Definition base_conf (n_points : nat) : Q :=
  let history_factor :=
    Py.min2 1 (Py.max2 0 (inject_Z (Z.of_nat n_points) / 12)) in
  (62#100) + (22#100) * history_factor.

(** [conf] (line 1415). *)
Definition conf_at (bc : Q) (h : Z) : Q :=
  Py.max2 0 (Py.min2 1 (bc - (8#100) * inject_Z h)).

(** The values projected for horizon [h] hours (lines 1407-1414), before
    rounding: temperature, humidity, light, rain probability. *)
Definition project (temp_now hum_now lux_now : Q)
    (fit_temp fit_hum fit_lux : option (Q * Q)) (h : Z) : Q * Q * Q * Q :=
  let horizon_min := (h * 60)%Z in
  let t_val := predict_val temp_now fit_temp horizon_min (Some (-10)) (Some 60) in
  let h_val := predict_val hum_now fit_hum horizon_min (Some 0) (Some 100) in
  let l_val := predict_val lux_now fit_lux horizon_min (Some 0) (Some 200000) in
  (t_val, h_val, l_val, rain_probability t_val h_val l_val).

(** One entry of [hourly] (lines 1420-1429). *)
Definition hourly_point (base : Z) (bc : Q) (h : Z) (v : Q * Q * Q * Q)
  : forecast_point :=
  let t_val := fst (fst (fst v)) in
  let h_val := snd (fst (fst v)) in
  let l_val := snd (fst v) in
  let rain_prob := snd v in
  mk_forecast_point
    (iso_from_dt JAKARTA_OFFSET (mk_datetime (base + h * hour_us) (Some 0%Z)))
    (weather_type rain_prob l_val)
    (Py.round_nd rain_prob 1)
    (Py.round_nd (conf_at bc h) 3)
    (classify_light l_val)
    (Py.round_nd t_val 2)
    (Py.round_nd h_val 2)
    (Py.round_nd l_val 2).

(** [predicted_rain_time] over the horizons in order (lines 1417-1418). *)
Fixpoint first_rain (base : Z) (hv : list (Z * (Q * Q * Q * Q))) : option Z :=
  match hv with
  | [] => None
  | (h, v) :: r =>
    if Qle_bool 60 (snd v)
    then Some (iso_from_dt JAKARTA_OFFSET
                 (mk_datetime (base + h * hour_us) (Some 0%Z)))
    else first_rain base r
  end.

(** [forecast_3h] (lines 1353-1449). *)
Definition forecast_3h (L : TimeLib) (latest : reading)
    (history : list reading) : forecast_result :=
  let base := base_ts_utc L latest in
  let temp_now := _to_float (r_temperature latest) 0 in
  let hum_now := _to_float (r_humidity latest) 0 in
  let air_now := _to_float (r_air_quality latest) 0 in
  let lux_now := _to_float (r_light_intensity latest) 0 in
  let series_temp := window L base r_temperature temp_now history in
  let series_hum := window L base r_humidity hum_now history in
  let series_lux := window L base r_light_intensity lux_now history in
  let fit_temp := _fit_linear series_temp in
  let fit_hum := _fit_linear series_hum in
  let fit_lux := _fit_linear series_lux in
  let bc := base_conf (List.length series_temp) in
  let hv :=
    map (fun h => (h, project temp_now hum_now lux_now
                        fit_temp fit_hum fit_lux h))
        [1%Z; 2%Z; 3%Z] in
  let hourly := map (fun p => hourly_point base bc (fst p) (snd p)) hv in
  let rain_now := rain_probability temp_now hum_now lux_now in
  let w_now := weather_type rain_now lux_now in
  mk_forecast_result
    (mk_forecast_point
       (iso_from_dt JAKARTA_OFFSET (mk_datetime base (Some 0%Z)))
       w_now (Py.round_nd rain_now 1) (Py.round_nd bc 3)
       (classify_light lux_now) (Py.round_nd temp_now 2)
       (Py.round_nd hum_now 2) (Py.round_nd lux_now 2))
    hourly
    (first_rain base hv)
    (recommendation w_now temp_now hum_now air_now).

End Forecast.

(** ** Device sessions *)

Module DeviceRegistry.

(** A dict with string keys, as its items in insertion order. *)
Fixpoint lookup {V} (d : list (string * V)) (k : string) : option V :=
  match d with
  | [] => None
  | (k', v) :: r => if String.eqb k' k then Some v else lookup r k
  end.

(** [d[k] = v] *)
Fixpoint assign {V} (d : list (string * V)) (k : string) (v : V)
  : list (string * V) :=
  match d with
  | [] => [(k, v)]
  | (k', v') :: r => if String.eqb k' k then (k, v) :: r
                     else (k', v') :: assign r k v
  end.

(** [d.pop(k, None)] *)
Definition pop {V} (d : list (string * V)) (k : string) : list (string * V) :=
  filter (fun kv => negb (String.eqb (fst kv) k)) d.

Record device : Type := mk_device {
  secret : string;
  metadata : string;
  created_at : Z
}.

Record session : Type := mk_session {
  session_device_id : string;
  expires_at : Z
}.

(** The registry: [devices], [sessions] and [session_ttl] in seconds. *)
Record registry : Type := mk_registry {
  devices : list (string * device);
  sessions : list (string * session);
  session_ttl : Z
}.

Definition str_truthy (s : string) : bool := negb (String.eqb s "").

(** [is_registered] (lines 348-349). *)
Definition is_registered (r : registry) (device_id : string) : bool :=
  match lookup (devices r) device_id with Some _ => true | None => false end.

(** [issue_session] (lines 377-387); [token] is the value of
    [secrets.token_urlsafe(32)], [now] is [utcnow()] in microseconds.
    [None] is the [ValueError] for an unknown device. *)
Definition issue_session (device_id token : string) (now : Z) (r : registry)
  : option ((string * Z) * registry) :=
  if negb (is_registered r device_id) then None
  else
    let expires := (now + session_ttl r * 1000000)%Z in
    Some ((token, expires),
          mk_registry (devices r)
            (assign (sessions r) token (mk_session device_id expires))
            (session_ttl r)).

(** [validate_session] (lines 389-401). *)
Definition validate_session (device_id token : string) (now : Z)
    (r : registry) : bool * registry :=
  if negb (str_truthy device_id) || negb (str_truthy token) then (false, r)
  else
    match lookup (sessions r) token with
    | None => (false, r)
    | Some s =>
      if negb (String.eqb (session_device_id s) device_id) then (false, r)
      else if (expires_at s <? now)%Z
      then (false, mk_registry (devices r) (pop (sessions r) token)
                               (session_ttl r))
      else (true, r)
    end.

End DeviceRegistry.

(** * The statements of the specification, and concrete inputs *)

Module Spec.

Import WeatherAIModel.

(** [round]: to the nearest integer, a tie to the even one. *)
Definition round (q : Q) : Z :=
  let f := Qfloor q in
  let r := q - inject_Z f in
  if Py.Qltb r (1#2) then f
  else if Py.Qltb (1#2) r then (f + 1)%Z
  else if Z.even f then f else (f + 1)%Z.

Definition clamp (x lo hi : Z) : Z := Z.max lo (Z.min x hi).

(** "split index = clamp(round(0.8n), 1, n-1)" *)
Definition split_index_rounded (n : nat) : Z :=
  clamp (round ((8#10) * inject_Z (Z.of_nat n))) 1 (Z.of_nat n - 1).

(** The instant the orchestrator sorts index [i] by. *)
Definition resolved (E : Env) (timestamps : list ts_raw) (i : nat) : Z :=
  _parse_ts E (nth i timestamps TsNone) i.

(** Sum of squared residuals of the line [a x + b] on the points. *)
Definition sse (a b : Q) (pts : list (Q * Q)) : Q :=
  Py.sum (map (fun p => (a * fst p + b - snd p) * (a * fst p + b - snd p)) pts).

(** The points [_fit_linear] fits: at most the thirty latest, with the
    abscissa in minutes from the newest point of the series. *)
Definition recent (series : list (Z * Q)) : list (Z * Q) :=
  Py.lastn 30 (Py.sorted fst series).
Definition newest (series : list (Z * Q)) : Z :=
  fst (last (Py.sorted fst series) (0%Z, 0)).
Definition fitted_points (series : list (Z * Q)) : list (Q * Q) :=
  map (fun p => (FuzzyForecastEngine.minutes_between (fst p) (newest series),
                 snd p))
      (recent series).

(** Sum of the squared distances of [x] to the elements of [l]. *)
Definition pairdiff (x : Q) (l : list Q) : Q :=
  Py.sum (map (fun y => (x - y) * (x - y)) l).

(** The labels one class of the training set gets from the oversampler. *)
Definition added (l : label) (m : Z) (c : label * nat) : nat :=
  if label_eqb l (fst c) && negb (m <=? Z.of_nat (snd c))%Z
  then Z.to_nat (m - Z.of_nat (snd c)) else O.

(** What the validity gate promises of a stored report. *)
Definition report_gated (r : report) : Prop :=
  (rp_metrics_trusted r = false ->
     rp_evaluation_mode r = NON_VALID
     /\ rp_test_accuracy r = None
     /\ rp_macro_f1 r = None
     /\ rp_balanced_accuracy r = None)
  /\ (rp_metrics_trusted r = true -> rp_evaluation_mode r = VALID)
  /\ (exists ta, rp_train_accuracy r = Some ta)
  /\ (exists b, rp_baseline_majority_accuracy r = Some b /\ b <= 1).

(** The single-flight guard: at most one worker, and the flag is set
    exactly while there is one. *)
Definition single_flight (s : Server.server) : Prop :=
  (List.length (Server.workers s) <= 1)%nat
  /\ (Server.ai_training_in_progress s = true <-> Server.workers s <> []).

(** The later of two optional instants. *)
Definition omax (a b : option Z) : option Z :=
  match a, b with
  | Some x, Some y => Some (Z.max x y)
  | Some x, None => Some x
  | None, y => y
  end.

(** The instant a reading's [timestamp] names, when it parses. *)
Definition reading_instant (L : Ingest.TimeLib) (r : reading) : option Z :=
  option_map Ingest.wall
    (Ingest.normalize_ts (Ingest.parse_sensor_timestamp L (r_timestamp r))).

(** [for reading in ...: update_last_seen_from_reading(reading)]: the
    global [last_esp32_seen_at] after the loop. *)
Definition feed (L : Ingest.TimeLib) (rs : list reading)
    (last : option Ingest.datetime) : option Ingest.datetime :=
  fold_left (fun acc r => Ingest.update_last_seen_from_reading L r acc) rs last.

(** A float is NaN or a finite number between [lo] and [hi]. *)
Definition nan_or_between (lo hi : Q) (v : Py.pyfloat) : Prop :=
  v = Py.NaN \/ exists q, v = Py.Fin q /\ lo <= q <= hi.

(** A float is NaN, plus infinity or a finite number from [lo] on. *)
Definition nan_or_from (lo : Q) (v : Py.pyfloat) : Prop :=
  v = Py.NaN \/ v = Py.PosInf \/ exists q, v = Py.Fin q /\ lo <= q.

(** A trigger passes the readiness gate of lines 2521-2531. *)
Definition passes_gate (force_single_class : bool) (s : Server.server) : bool :=
  fst (Server.ai_ready_for_training s) || force_single_class.

End Spec.

(** ** Concrete inputs used below *)

Module Demo.

Import WeatherAIModel.

(** The seeded data of [seed_and_train.py]: three feature vectors in
    turn, one reading per second. *)
Definition scenario_reading (i : nat) : reading :=
  let thq :=
    match (i mod 3)%nat with
    | O => (36, 35, 80)
    | S O => (24, 50, 40)
    | _ => (10, 40, 30)
    end in
  mk_reading (Some (fst (fst thq))) (Some (snd (fst thq))) (Some (snd thq))
    (Some 500) (Some (39#10))
    (TsDatetime (1700000000000000 + Z.of_nat i * 1000000)) TsNone TsNone.

Definition scenario (n : nat) : list reading :=
  map scenario_reading (seq 0 n).

Definition scores : evaluation :=
  mk_evaluation 1 1 1 1 [[4%nat; 0%nat; 0%nat]; [0%nat; 4%nat; 0%nat];
                         [0%nat; 0%nat; 4%nat]].

(** An environment in which scikit-learn answers with [scores] and the
    disk fails as [fault] says. *)
Definition env (fault : io_fault) : Env :=
  mk_Env 1700000000 (fun _ => 0) "3f0c" (fun k => 1700000100 + Z.of_nat k)%Z
    10 (fun _ => None) (fun _ => None) (fun _ _ _ _ => sk_ok scores) fault.

(** A model loaded from files written by an earlier run. *)
Definition old_disk : disk :=
  mk_disk (Some (forest_fit [] [Normal])) (Some (scaler_fit [])) None.

Definition fresh : ai_state :=
  mk_ai_state forest_unfitted scaler_unfitted false None None
    metrics_empty None old_disk.

(** Three points within ten seconds, and three points over a minute. *)
Definition flat_series : list (Z * Q) :=
  [(0%Z, 20); (5000000%Z, 20); (10000000%Z, 20)].
Definition rising_series : list (Z * Q) :=
  [(0%Z, 1); (30000000%Z, 2); (60000000%Z, 3)].

(** Readings of one class only, one per second. *)
Definition single_class (n : nat) : list reading :=
  map (fun i => mk_reading (Some 26) (Some 85) (Some 30) (Some 500)
                  (Some (39#10))
                  (TsDatetime (1700000000000000 + Z.of_nat i * 1000000))
                  TsNone TsNone)
      (seq 0 n).

(** A clock and a [datetime] library that parses nothing. *)
Definition timelib : Ingest.TimeLib :=
  Ingest.mk_TimeLib (fun _ => None) (fun _ => None) (fun _ _ => None)
    1700000000000000.

(** A library that reads epoch seconds, half a second after
    1700000000. *)
Definition clock : Ingest.TimeLib :=
  Ingest.mk_TimeLib (fun x => Some (Qfloor (x * 1000000)))
    (fun _ => None) (fun _ _ => None) 1700000000500000.

(** A reading stamped with the epoch second [t]. *)
Definition stamped (t : Z) : reading :=
  mk_reading (Some 26) (Some 85) (Some 30) (Some 500) (Some (39#10))
    (TsNum (inject_Z t)) TsNone TsNone.

(** A payload as the sensor endpoint hands it on: the five required
    readings as floats, no coordinates. *)
Definition posted (t h aq lux bv : Py.pyfloat) : Ingest.payload :=
  Ingest.mk_payload (Some (Ingest.jv_of_float t)) None None
    (Some (Ingest.jv_of_float h)) (Some (Ingest.jv_of_float aq))
    (Some (Ingest.jv_of_float lux)) (Some (Ingest.jv_of_float bv))
    None None None None None None.

(** One registered device, no session, sessions of one hour. *)
Definition one_device : DeviceRegistry.registry :=
  DeviceRegistry.mk_registry
    [("esp32-01", DeviceRegistry.mk_device "k" "" 0%Z)] [] 3600.

(** The same registry holding one session that ends after an hour. *)
Definition one_session : DeviceRegistry.registry :=
  DeviceRegistry.mk_registry
    [("esp32-01", DeviceRegistry.mk_device "k" "" 0%Z)]
    [("tok", DeviceRegistry.mk_session "esp32-01" 3600000000)] 3600.

(** Three points of one value over a minute. *)
Definition level_series : list (Z * Q) :=
  [(0%Z, 20); (30000000%Z, 20); (60000000%Z, 20)].

(** Five raw timestamps, the second one missing. *)
Definition stamps : list ts_raw :=
  [TsDatetime 30; TsNone; TsDatetime 10; TsDatetime 20; TsDatetime 5].

End Demo.

(** * Properties *)

(** ** Label deriver (C8, C1) *)

Section LabelDeriver.

Import WeatherAIModel.

(** The cascade of the unreachable lines 909-949 and
    [_label_from_features] are the same function. *)
Lemma orphaned_condition_agrees (temp humidity air_quality : Q) :
  Orphaned.condition temp humidity air_quality
  = _label_from_features temp humidity air_quality.
Proof.
  unfold Orphaned.condition, _label_from_features, temp_band, humidity_band.
  reflexivity.
Qed.

Lemma air_quality_above_300_is_polluted (temp humidity air_quality : Q) :
  300 < air_quality -> _label_from_features temp humidity air_quality = Polluted.
Proof.
  intros H. unfold _label_from_features, Py.truthy, Py.Qltb.
  assert (Hz : Qeq_bool air_quality 0 = false).
  { destruct (Qeq_bool air_quality 0) eqn:E; [|reflexivity].
    apply Qeq_bool_iff in E. rewrite E in H. lra. }
  assert (Hl : Qle_bool air_quality 300 = false).
  { destruct (Qle_bool air_quality 300) eqn:E; [|reflexivity].
    apply Qle_bool_iff in E. lra. }
  rewrite Hz, Hl. reflexivity.
Qed.

(** C8 (code as written).  [prepare_training_data] gives no labels at
    all: it returns [None] on every input, so the distribution query,
    which unpacks its value, answers with the empty dict, where
    [_label_from_features] derives a label. *)
Theorem prepare_training_data_yields_no_labels :
  (forall data, prepare_training_data data = None)
  /\ (forall data, Server.get_label_distribution data = [])
  /\ _label_from_features 36 35 80 = VeryHot
  /\ Server.get_label_distribution (Demo.scenario 60) = [].
Proof.
  split; [reflexivity|].
  split; [intros [|r l]; reflexivity|].
  split; reflexivity.
Qed.

Lemma scenario_labels :
  np_unique_counts
    (map (fun r => _label_from_features
                     (Orphaned.to_float_safe (r_temperature r))
                     (Orphaned.to_float_safe (r_humidity r))
                     (Orphaned.to_float_safe (r_air_quality r)))
         (Demo.scenario 60))
  = [(Cold, 20%nat); (Normal, 20%nat); (VeryHot, 20%nat)].
Proof. vm_compute. reflexivity. Qed.

End LabelDeriver.

(** ** Light classes (C10) *)

Section Light.

Import FuzzyForecastEngine.

Lemma below_zero_in_no_bin (lux lo : Q) (hi : option Q) :
  lux < 0 -> 0 <= lo -> in_bin lux lo hi = false.
Proof.
  intros Hl Hlo. unfold in_bin.
  destruct (Qle_bool lo lux) eqn:E; [|reflexivity].
  apply Qle_bool_iff in E. lra.
Qed.

(** C10.  A lux value below zero lies in no bin, the [[0, 50)] bin of
    "Gelap" (dark) included, and [classify_light] answers with its
    default, "Cerah" (clear). *)
Theorem classify_light_below_zero (lux : Q) :
  lux < 0 ->
  first_bin light_bins lux = None /\ classify_light lux = "Cerah".
Proof.
  intros H.
  assert (Hn : first_bin light_bins lux = None).
  { unfold light_bins, first_bin.
    rewrite !below_zero_in_no_bin by (try assumption; lra).
    reflexivity. }
  split; [exact Hn|]. unfold classify_light. rewrite Hn. reflexivity.
Qed.

Lemma classify_light_below_zero_witness :
  (-5 < 0) /\ first_bin light_bins (-5) = None
  /\ classify_light (-5) = "Cerah".
Proof.
  split; [reflexivity|]. apply (classify_light_below_zero (-5)). reflexivity.
Defined.

End Light.

(** ** Training orchestrator (C1, C2, C3, C4, C5) *)

Section Orchestrator.

Import WeatherAIModel Spec.

Lemma train_model_run_small (E : Env) (data : list reading) (force : bool)
    (st : ai_state) :
  (List.length data < 50)%nat ->
  train_model_run E data force st = (Raised (UnboundLocalError "y"), st).
Proof.
  intros H. unfold train_model_run.
  apply Nat.ltb_lt in H. rewrite H. reflexivity.
Qed.

Lemma train_model_run_large (E : Env) (data : list reading) (force : bool)
    (st : ai_state) :
  (50 <= List.length data)%nat ->
  train_model_run E data force st
  = (Raised (TypeError "cannot unpack non-iterable NoneType object"), st).
Proof.
  intros H. unfold train_model_run.
  apply Nat.ltb_ge in H. rewrite H. reflexivity.
Qed.

(** In this snapshot no call of [train_model] gets past line 978. *)
Lemma train_model_always_fails (E : Env) (data : list reading) (force : bool)
    (st : ai_state) :
  train_model E data force st = (false, st).
Proof.
  unfold train_model.
  destruct (Nat.lt_ge_cases (List.length data) 50) as [H|H].
  - rewrite train_model_run_small by exact H. reflexivity.
  - rewrite train_model_run_large by exact H. reflexivity.
Qed.

(** C1 (code as written).  On the sixty seeded readings [train_model]
    returns [False]: unpacking the [None] of [prepare_training_data] raises
    [TypeError], the handler of line 1163 catches it, and the model's state
    is as before, with no report. *)
Theorem scenario_training_returns_failure :
  forall (E : Env) (st : ai_state),
    train_model_run E (Demo.scenario 60) false st
    = (Raised (TypeError "cannot unpack non-iterable NoneType object"), st)
    /\ train_model E (Demo.scenario 60) false st = (false, st)
    /\ last_metrics (snd (train_model E (Demo.scenario 60) false Demo.fresh))
       = metrics_empty.
Proof.
  intros E st. split; [|split].
  - apply train_model_run_large. vm_compute. lia.
  - apply train_model_always_fails.
  - rewrite train_model_always_fails. reflexivity.
Qed.

(** With the value lines 888-957 would compute in place of [None], the
    same readings take the run to [Done] with a trusted, [VALID] report. *)
Lemma scenario_completes_after_unpacking :
  let r := train_model_from (Demo.env io_ok)
             (Some (Orphaned.rows (Demo.scenario 60))) false Demo.fresh in
  fst r = Done
  /\ trained (snd r) = true
  /\ exists rp, last_metrics (snd r) = metrics_report rp
       /\ rp_evaluation_mode rp = VALID
       /\ rp_metrics_trusted rp = true
       /\ rp_all_counts rp = [(Cold, 20%nat); (Normal, 20%nat); (VeryHot, 20%nat)]
       /\ rp_train_counts rp = [(Cold, 16%nat); (Normal, 16%nat); (VeryHot, 16%nat)]
       /\ rp_test_counts rp = [(Cold, 4%nat); (Normal, 4%nat); (VeryHot, 4%nat)].
Proof.
  vm_compute. split; [reflexivity|]. split; [reflexivity|].
  eexists. split; [reflexivity|]. repeat split.
Qed.

(** C4 (code as written).  With 49 readings the branch of line 969 is
    taken, but building the dict of line 974 reads the unbound local [y]:
    the run ends in the handler, [last_metrics] keeps its old value and no
    [DATA_TOO_SMALL] status is recorded.  Flag and files are untouched. *)
Theorem too_small_is_not_recorded :
  forall (E : Env) (force : bool) (st : ai_state),
    train_model_run E (Demo.scenario 49) force st
    = (Raised (UnboundLocalError "y"), st)
    /\ train_model E (Demo.scenario 49) force st = (false, st)
    /\ last_metrics (snd (train_model E (Demo.scenario 49) force Demo.fresh))
       = metrics_empty.
Proof.
  intros E force st. split; [|split].
  - apply train_model_run_small. vm_compute. lia.
  - apply train_model_always_fails.
  - rewrite train_model_always_fails. reflexivity.
Qed.

(** *** What a run leaves behind *)

Lemma save_model_keeps (E : Env) (st : ai_state) :
  trained (snd (save_model E st)) = trained st
  /\ last_metrics (snd (save_model E st)) = last_metrics st
  /\ model (snd (save_model E st)) = model st
  /\ scaler (snd (save_model E st)) = scaler st.
Proof.
  unfold save_model.
  destruct (fs_fault E); cbn; try (repeat split; reflexivity);
    destruct (model_meta st) as [[[tm|] [sa|]]|]; cbn; repeat split; reflexivity.
Qed.

(** The metadata file after a [save_model] that returned [False]: the old
    one, unless the write failed after the file had been opened. *)
Lemma save_model_files (E : Env) (st : ai_state) :
  fst (save_model E st) = false ->
  (fs_fault E <> io_fail_meta_write
   /\ meta_file (fs (snd (save_model E st))) = meta_file (fs st))
  \/ (fs_fault E = io_fail_meta_write
      /\ meta_file (fs (snd (save_model E st))) = Some meta_partial).
Proof.
  unfold save_model.
  destruct (fs_fault E); cbn; intros H; try discriminate H;
    try (left; split; [discriminate|reflexivity]);
    destruct (model_meta st) as [[[tm|] [sa|]]|]; cbn;
    try (left; split; [discriminate|reflexivity]);
    right; split; reflexivity.
Qed.

Lemma save_model_early_fault (E : Env) (st : ai_state) :
  fs_fault E = io_fail_mkdir \/ fs_fault E = io_fail_model ->
  save_model E st = (false, st).
Proof. unfold save_model. intros [H|H]; rewrite H; reflexivity. Qed.

Lemma save_model_scaler_fault (E : Env) (st : ai_state) :
  fs_fault E = io_fail_scaler ->
  fst (save_model E st) = false
  /\ model_file (fs (snd (save_model E st))) = Some (model st)
  /\ scaler_file (fs (snd (save_model E st))) = scaler_file (fs st).
Proof. unfold save_model. intros H; rewrite H. cbn. repeat split. Qed.

Lemma min2_one_le (x : Q) : Py.min2 1 x <= 1.
Proof.
  unfold Py.min2, Py.Qltb.
  destruct (Qle_bool 1 x) eqn:E; cbn.
  - lra.
  - destruct (Qlt_le_dec x 1) as [H|H]; [lra|].
    apply Qle_bool_iff in H. congruence.
Qed.

Lemma baseline_majority_le (p : partitions) (b : Q) :
  baseline_majority p = Some b -> b <= 1.
Proof.
  unfold baseline_majority.
  destruct (most_common_1 (y_train p)) as [[l c]|]; [|discriminate].
  intros H; injection H as <-. apply min2_one_le.
Qed.

Lemma validity_gate_mode (m : eval_mode) (w : list string) (yt : list label) :
  m <> UNKNOWN -> fst (validity_gate m w yt) <> UNKNOWN.
Proof.
  intros H. unfold validity_gate.
  destruct (_ || _); cbn; [discriminate|exact H].
Qed.

Lemma build_report_gated (s : status) (m : eval_mode) (syn : bool)
    (w : list string) (ev : evaluation) (b : Q) (ul : list label)
    (c1 c2 c3 : counts) :
  m <> UNKNOWN -> b <= 1 ->
  report_gated (build_report s m syn w ev b ul c1 c2 c3).
Proof.
  intros Hm Hb. unfold report_gated, build_report.
  destruct m; cbn; try congruence.
  - repeat split; try discriminate; eauto.
  - repeat split; try discriminate; eauto.
    exists (Py.min2 1 b). split; [reflexivity|apply min2_one_le].
Qed.

(** Every run ends in one of three ways: in the handler or a rejection,
    with flag and files as before; or past line 1123, with the flag set, a
    gated report stored, and [save_model] deciding the rest. *)
Lemma train_model_from_inv (E : Env) (prep : option prepared) (force : bool)
    (st : ai_state) (o : outcome) (st' : ai_state) :
  train_model_from E prep force st = (o, st') ->
  ((exists e, o = Raised e) /\ trained st' = trained st /\ fs st' = fs st
   /\ last_metrics st' = last_metrics st)
  \/ (o = Rejected DATA_INSUFFICIENT_VARIETY
      /\ trained st' = trained st /\ fs st' = fs st)
  \/ (exists st2 r,
        fs st2 = fs st /\ trained st2 = true
        /\ last_metrics st2 = metrics_report r /\ report_gated r
        /\ st' = snd (save_model E st2)
        /\ o = (if fst (save_model E st2) then Done else SaveFailed)).
Proof.
  unfold train_model_from.
  destruct prep as [[[X y] ts]|].
  2:{ intros H; injection H as <- <-. left. eauto. }
  destruct ((List.length (np_unique y) <? 2)%nat && negb force).
  { intros H; injection H as <- <-. right; left. auto. }
  cbv zeta.
  destruct (take X (fst (chronological_split E ts))) as [Xtr|];
    [|intros H; injection H as <- <-; left; eauto].
  destruct (take X (snd (chronological_split E ts))) as [Xte|];
    [|intros H; injection H as <- <-; left; eauto].
  destruct (take y (fst (chronological_split E ts))) as [ytr|];
    [|intros H; injection H as <- <-; left; eauto].
  destruct (take y (snd (chronological_split E ts))) as [yte|];
    [|intros H; injection H as <- <-; left; eauto].
  set (p := augment E _ _).
  destruct (sklearn E (X_train p) (y_train p) (X_test p) (y_test p)) as [| | |ev];
    try (intros H; injection H as <- <-; left; eauto).
  destruct (baseline_majority p) as [b|] eqn:Hb;
    [|intros H; injection H as <- <-; left; eauto].
  match goal with
  | |- (if fst (save_model E ?s2) then _ else _) = _ -> _ => set (st2 := s2)
  end.
  intros H. right; right. exists st2.
  match goal with
  | st2 := mk_ai_state _ _ _ _ _ (metrics_report ?r) _ _ |- _ => exists r
  end.
  split; [reflexivity|]. split; [reflexivity|]. split; [reflexivity|].
  split.
  - apply build_report_gated.
    + apply validity_gate_mode.
      destruct (any_below_2 _); [discriminate|].
      destruct (_ && _); discriminate.
    + eapply baseline_majority_le; eassumption.
  - destruct (fst (save_model E st2)); injection H as <- <-;
      split; reflexivity.
Qed.

(** C5.  A run that reaches [Done] stores a report in which, when
    [metrics_trusted] is false, the mode is [NON_VALID] and test accuracy,
    macro F1 and balanced accuracy are [None]; train accuracy and the
    majority baseline, at most [1.0], are there in every case. *)
Theorem untrusted_report_hides_test_metrics
    (E : Env) (prep : option prepared) (force : bool) (st st' : ai_state) :
  train_model_from E prep force st = (Done, st') ->
  exists r,
    last_metrics st' = metrics_report r
    /\ (rp_metrics_trusted r = false ->
          rp_evaluation_mode r = NON_VALID
          /\ rp_test_accuracy r = None
          /\ rp_macro_f1 r = None
          /\ rp_balanced_accuracy r = None)
    /\ (exists ta, rp_train_accuracy r = Some ta)
    /\ (exists b, rp_baseline_majority_accuracy r = Some b /\ b <= 1).
Proof.
  intros H. apply train_model_from_inv in H.
  destruct H as [[[e He] _]|[[He _]|(st2 & r & _ & _ & Hm & Hg & -> & _)]];
    try discriminate.
  exists r. destruct (save_model_keeps E st2) as (_ & Hl & _).
  rewrite Hl. destruct Hg as (G1 & _ & G3 & G4). auto.
Qed.

Lemma untrusted_report_hides_test_metrics_witness :
  exists r,
    last_metrics
      (snd (train_model_from (Demo.env io_ok)
              (Some (Orphaned.rows (Demo.scenario 4))) false Demo.fresh))
    = metrics_report r
    /\ (rp_metrics_trusted r = false ->
          rp_evaluation_mode r = NON_VALID
          /\ rp_test_accuracy r = None
          /\ rp_macro_f1 r = None
          /\ rp_balanced_accuracy r = None)
    /\ (exists ta, rp_train_accuracy r = Some ta)
    /\ (exists b, rp_baseline_majority_accuracy r = Some b /\ b <= 1).
Proof.
  apply (untrusted_report_hides_test_metrics (Demo.env io_ok)
           (Some (Orphaned.rows (Demo.scenario 4))) false Demo.fresh).
  vm_compute. reflexivity.
Defined.

(** The run of that witness is an untrusted one. *)
Example four_readings_untrusted :
  exists r,
    last_metrics
      (snd (train_model_from (Demo.env io_ok)
              (Some (Orphaned.rows (Demo.scenario 4))) false Demo.fresh))
    = metrics_report r
    /\ rp_metrics_trusted r = false /\ rp_evaluation_mode r = NON_VALID
    /\ rp_test_accuracy r = None /\ rp_train_accuracy r = Some 1.
Proof. vm_compute. eexists. repeat split. Qed.

(** Lines 1123 and 1156 as written, on a value [prepare_training_data]
    never returns: [self.trained = True] precedes the call of
    [save_model], so a scaler write that fails on the sixty seeded readings
    would leave [trained] true and the model file replaced beside the old
    scaler file. *)
Lemma save_failure_sets_trained_flag :
  fst (train_model_from (Demo.env io_fail_scaler)
         (Some (Orphaned.rows (Demo.scenario 60))) false Demo.fresh)
  = SaveFailed
  /\ trained Demo.fresh = false
  /\ trained (snd (train_model_from (Demo.env io_fail_scaler)
                     (Some (Orphaned.rows (Demo.scenario 60))) false
                     Demo.fresh))
     = true
  /\ model_file (fs (snd (train_model_from (Demo.env io_fail_scaler)
                            (Some (Orphaned.rows (Demo.scenario 60))) false
                            Demo.fresh)))
     <> model_file (fs Demo.fresh)
  /\ scaler_file (fs (snd (train_model_from (Demo.env io_fail_scaler)
                             (Some (Orphaned.rows (Demo.scenario 60))) false
                             Demo.fresh)))
     = scaler_file (fs Demo.fresh).
Proof.
  vm_compute. repeat split; try reflexivity. intros H; discriminate H.
Qed.


(** C3 (code as written).  Whatever the number of samples, two or more
    included, [train_model] never sorts or splits: [prepare_training_data]
    hands it no sample, and the run ends with the exception of line 974
    (fewer than fifty readings) or of line 978 (fifty or more), before the
    lines 1038-1050; it returns [False] and the state holds no partition,
    report or metadata of the run. *)
Theorem split_is_never_reached
    (E : Env) (data : list reading) (force : bool) (st : ai_state) :
  prepare_training_data data = None
  /\ (((List.length data < 50)%nat
       /\ train_model_run E data force st
          = (Raised (UnboundLocalError "y"), st))
      \/ ((50 <= List.length data)%nat
          /\ train_model_run E data force st
             = (Raised (TypeError "cannot unpack non-iterable NoneType object"),
                st)))
  /\ train_model E data force st = (false, st).
Proof.
  split; [reflexivity|]. split.
  - destruct (Nat.lt_ge_cases (List.length data) 50) as [H|H].
    + left. split; [exact H|]. now apply train_model_run_small.
    + right. split; [exact H|]. now apply train_model_run_large.
  - unfold train_model.
    destruct (Nat.lt_ge_cases (List.length data) 50) as [H|H].
    + rewrite train_model_run_small by exact H. reflexivity.
    + rewrite train_model_run_large by exact H. reflexivity.
Qed.

End Orchestrator.

(** ** Python's [sorted] *)

Section Sorted.

Context {A : Type} (key : A -> Z).

Lemma insert_by_perm (x : A) (l : list A) :
  Permutation (Py.insert_by key x l) (x :: l).
Proof.
  induction l as [|y r IH]; cbn.
  - reflexivity.
  - destruct (key x <=? key y)%Z.
    + reflexivity.
    + rewrite IH. apply perm_swap.
Qed.

Lemma sorted_perm (l : list A) : Permutation (Py.sorted key l) l.
Proof.
  induction l as [|x r IH]; cbn.
  - reflexivity.
  - rewrite insert_by_perm. now apply perm_skip.
Qed.

Lemma sorted_length (l : list A) :
  List.length (Py.sorted key l) = List.length l.
Proof. apply Permutation_length, sorted_perm. Qed.

Lemma insert_by_hdrel (a x : A) (l : list A) :
  Py.le_key key a x -> HdRel (Py.le_key key) a l ->
  HdRel (Py.le_key key) a (Py.insert_by key x l).
Proof.
  intros Hax Hl. destruct l as [|y r]; cbn.
  - constructor. exact Hax.
  - destruct (key x <=? key y)%Z.
    + constructor. exact Hax.
    + constructor. inversion Hl; assumption.
Qed.

Lemma insert_by_sorted (x : A) (l : list A) :
  Sorted (Py.le_key key) l -> Sorted (Py.le_key key) (Py.insert_by key x l).
Proof.
  induction 1 as [|y r Hs IH Hh]; cbn.
  - repeat constructor.
  - destruct (key x <=? key y)%Z eqn:E.
    + constructor.
      * constructor; assumption.
      * constructor. apply Z.leb_le, E.
    + constructor.
      * exact IH.
      * apply insert_by_hdrel; [|exact Hh].
        apply Z.leb_gt in E. unfold Py.le_key. lia.
Qed.

Lemma sorted_is_sorted (l : list A) :
  StronglySorted (Py.le_key key) (Py.sorted key l).
Proof.
  apply Sorted_StronglySorted.
  - intros a b c. unfold Py.le_key. lia.
  - induction l as [|x r IH]; cbn.
    + constructor.
    + apply insert_by_sorted, IH.
Qed.

Lemma sorted_keys_ascend (l : list A) :
  StronglySorted Z.le (map key (Py.sorted key l)).
Proof.
  pose proof (sorted_is_sorted l) as H.
  induction H as [|a r Hs IH Hf]; cbn; constructor.
  - exact IH.
  - rewrite Forall_forall in *. intros k Hk.
    apply in_map_iff in Hk. destruct Hk as (b & <- & Hb). now apply Hf.
Qed.

End Sorted.

(** ** Chronological split (lines 1038-1050) *)

Section Split.

Import WeatherAIModel Spec.

Lemma floor_of_product (z : Z) :
  Qfloor (inject_Z z * (8#10)) = (z * 8 / 10)%Z.
Proof. reflexivity. Qed.

Lemma floor_of_product' (z : Z) :
  Qfloor ((8#10) * inject_Z z) = (z * 8 / 10)%Z.
Proof.
  unfold Qfloor, Qmult, inject_Z. cbn [Qnum Qden].
  rewrite (Z.mul_comm 8 z). reflexivity.
Qed.

Lemma split_index_floor (n : nat) :
  (2 <= n)%nat ->
  Z.of_nat (split_index n) = (Z.of_nat n * 8 / 10)%Z
  /\ (1 <= split_index n <= n - 1)%nat.
Proof.
  intros Hn. unfold split_index. rewrite floor_of_product.
  pose proof (Z.div_mod (Z.of_nat n * 8) 10 ltac:(lia)) as Hd.
  pose proof (Z.mod_pos_bound (Z.of_nat n * 8) 10 ltac:(lia)) as Hm.
  split; lia.
Qed.

Lemma time_keys_indices (E : Env) (ts : list ts_raw) (i : nat) :
  map snd (time_keys E ts i) = seq i (List.length ts).
Proof.
  revert i. induction ts as [|t r IH]; intros i; cbn.
  - reflexivity.
  - now rewrite IH.
Qed.

Lemma time_keys_key (E : Env) (ts : list ts_raw) (i : nat) (k : Z) (j : nat) :
  In (k, j) (time_keys E ts i) ->
  (i <= j)%nat /\ k = _parse_ts E (nth (j - i) ts TsNone) j.
Proof.
  revert i. induction ts as [|t r IH]; intros i; cbn.
  - intros [].
  - intros [H|H].
    + injection H as <- <-. rewrite Nat.sub_diag. split; [lia|reflexivity].
    + apply IH in H. destruct H as [Hle ->]. split; [lia|].
      replace (j - i)%nat with (S (j - S i)) by lia. reflexivity.
Qed.

Lemma sorted_indices_perm (E : Env) (ts : list ts_raw) :
  Permutation (sorted_indices E ts) (seq 0 (List.length ts)).
Proof.
  unfold sorted_indices. rewrite <- (time_keys_indices E ts 0).
  apply Permutation_map, sorted_perm.
Qed.

Lemma sorted_indices_ascend (E : Env) (ts : list ts_raw) :
  StronglySorted Z.le (map (resolved E ts) (sorted_indices E ts)).
Proof.
  unfold sorted_indices. rewrite map_map.
  rewrite (map_ext_in _ fst).
  - apply sorted_keys_ascend.
  - intros [k j] Hin. cbn.
    apply (Permutation_in _ (sorted_perm fst (time_keys E ts 0))) in Hin.
    apply time_keys_key in Hin. destruct Hin as [_ ->].
    unfold resolved. now rewrite Nat.sub_0_r.
Qed.

(** Line 1045 as written: with 52 samples the cut is at
    [int(41.6) = 41], where rounding gives 42. *)
Lemma split_index_truncates :
  split_index 52 = 41%nat
  /\ split_index_rounded 52 = 42%Z
  /\ List.length (fst (chronological_split (Demo.env io_ok)
                         (repeat TsNone 52))) = 41%nat.
Proof. vm_compute. repeat split. Qed.

(** Lines 1038-1050 as written.  For two samples or more the cut is at
    [clamp(floor(0.8 n), 1, n-1)], which is [floor(0.8 n)] and lies between
    1 and n-1.  The indices are sorted by resolved instant, ascending;
    [train] is those before the cut and [test] the rest; together they are
    the indices 0..n-1, each once; no instant of [train] is later than one
    of [test]. *)
Lemma chronological_split_partition (E : Env) (timestamps : list ts_raw) :
  (2 <= List.length timestamps)%nat ->
  let n := List.length timestamps in
  let train := fst (chronological_split E timestamps) in
  let test := snd (chronological_split E timestamps) in
  Z.of_nat (split_index n)
  = clamp (Qfloor ((8#10) * inject_Z (Z.of_nat n))) 1 (Z.of_nat n - 1)
  /\ Z.of_nat (split_index n) = Qfloor ((8#10) * inject_Z (Z.of_nat n))
  /\ (1 <= split_index n <= n - 1)%nat
  /\ train = firstn (split_index n) (sorted_indices E timestamps)
  /\ test = skipn (split_index n) (sorted_indices E timestamps)
  /\ List.length train = split_index n
  /\ List.length test = (n - split_index n)%nat
  /\ Permutation (train ++ test) (seq 0 n)
  /\ NoDup (train ++ test)
  /\ (forall i, In i train -> ~ In i test)
  /\ StronglySorted Z.le (map (resolved E timestamps) (train ++ test))
  /\ (forall i j, In i train -> In j test ->
        (resolved E timestamps i <= resolved E timestamps j)%Z).
Proof.
  intros Hn n train test.
  destruct (split_index_floor n Hn) as [Hf Hb].
  assert (Hlen : List.length (sorted_indices E timestamps) = n).
  { rewrite (Permutation_length (sorted_indices_perm E timestamps)).
    apply length_seq. }
  assert (Htr : train = firstn (split_index n) (sorted_indices E timestamps)).
  { unfold train, chronological_split. cbn. now rewrite Hlen. }
  assert (Hte : test = skipn (split_index n) (sorted_indices E timestamps)).
  { unfold test, chronological_split. cbn. now rewrite Hlen. }
  assert (Happ : train ++ test = sorted_indices E timestamps).
  { rewrite Htr, Hte. apply firstn_skipn. }
  assert (Hnd : NoDup (train ++ test)).
  { rewrite Happ.
    apply (Permutation_NoDup (Permutation_sym (sorted_indices_perm E timestamps))).
    apply seq_NoDup. }
  assert (Hs : StronglySorted Z.le (map (resolved E timestamps) (train ++ test))).
  { rewrite Happ. apply sorted_indices_ascend. }
  split.
  { rewrite Hf, floor_of_product'. unfold clamp.
    pose proof (Z.div_mod (Z.of_nat n * 8) 10 ltac:(lia)).
    pose proof (Z.mod_pos_bound (Z.of_nat n * 8) 10 ltac:(lia)). lia. }
  split. { rewrite Hf, floor_of_product'. reflexivity. }
  split. { exact Hb. }
  split. { exact Htr. }
  split. { exact Hte. }
  split. { rewrite Htr, length_firstn, Hlen. lia. }
  split. { rewrite Hte, length_skipn, Hlen. reflexivity. }
  split. { rewrite Happ. apply sorted_indices_perm. }
  split. { exact Hnd. }
  split.
  { intros i Hi Hj. clear - Hnd Hi Hj.
    induction train as [|a r IH]; [contradiction|].
    cbn in Hnd. inversion Hnd as [|? ? Hna Hr]; subst.
    destruct Hi as [->|Hi].
    - apply Hna, in_or_app. now right.
    - now apply IH. }
  split. { exact Hs. }
  intros i j Hi Hj. clear - Hs Hi Hj.
  induction train as [|a r IH]; [contradiction|].
  cbn in Hs. inversion Hs as [|? ? Hr Hall]; subst.
  destruct Hi as [->|Hi].
  - rewrite Forall_forall in Hall. apply Hall.
    apply in_map, in_or_app. now right.
  - now apply IH.
Qed.

Example chronological_split_on_stamps :
  chronological_split (Demo.env io_ok) Demo.stamps = ([4; 2; 3; 0], [1])%nat
  /\ Permutation (fst (chronological_split (Demo.env io_ok) Demo.stamps)
                  ++ snd (chronological_split (Demo.env io_ok) Demo.stamps))
                 (seq 0 5)
  /\ (1 <= split_index 5 <= 5 - 1)%nat.
Proof.
  pose proof (chronological_split_partition (Demo.env io_ok) Demo.stamps
                ltac:(vm_compute; lia)) as H.
  cbv zeta in H.
  destruct H as (_ & _ & Hb & _ & _ & _ & _ & Hp & _).
  split; [vm_compute; reflexivity|]. split; [exact Hp|exact Hb].
Qed.

End Split.

(** ** Augmentor (C6) *)

Section Augmentor.

Import WeatherAIModel.

Lemma oversample_class_length (E : Env) (samples : list fvec)
    (needed i pos : nat) :
  List.length (oversample_class E samples needed i pos) = needed.
Proof.
  revert i pos. induction needed as [|k IH]; intros i pos; cbn.
  - reflexivity.
  - now rewrite IH.
Qed.

Lemma oversample_loop_lengths (E : Env) (X : list fvec) (y : list label)
    (classes : counts) (m : Z) (pos : nat) :
  List.length (fst (fst (oversample_loop E X y classes m pos)))
  = List.length (snd (fst (oversample_loop E X y classes m pos))).
Proof.
  revert pos. induction classes as [|[l c] r IH]; intros pos; cbn.
  - reflexivity.
  - destruct (m <=? Z.of_nat c)%Z; [apply IH|].
    destruct (List.length (rows_of l X y) =? 0)%nat; [apply IH|].
    cbn. rewrite !length_app, oversample_class_length, repeat_length.
    now rewrite IH.
Qed.

(** The oversampler keeps the rows it is given, in place, and only adds
    rows after them, one label per row. *)
Lemma oversample_minority_appends (E : Env) (X : list fvec) (y : list label)
    (pos : nat) (m : Z) :
  exists ex ey,
    _oversample_minority E X y pos m = (X ++ ex, y ++ ey)
    /\ List.length ex = List.length ey.
Proof.
  unfold _oversample_minority.
  pose proof (oversample_loop_lengths E X y (np_unique_counts y) m pos) as HL.
  destruct (fst (fst (oversample_loop E X y (np_unique_counts y) m pos)))
    as [|x ex] eqn:Hx.
  - exists [], []. now rewrite !app_nil_r.
  - eexists (x :: ex), _. split; [reflexivity|exact HL].
Qed.

Lemma synth_each_lengths (E : Env) (arch : fvec) (n_each pos : nat) :
  List.length (fst (synth_each E arch n_each pos))
  = List.length (snd (synth_each E arch n_each pos)).
Proof.
  revert pos. induction n_each as [|k IH]; intros pos; cbn.
  - reflexivity.
  - now rewrite IH.
Qed.

Lemma synthetic_lengths (E : Env) (archs : list fvec) (n_each pos : nat) :
  List.length (fst (_generate_synthetic_features E archs n_each pos))
  = List.length (snd (_generate_synthetic_features E archs n_each pos)).
Proof.
  revert pos. induction archs as [|a r IH]; intros pos; cbn.
  - reflexivity.
  - now rewrite !length_app, synth_each_lengths, IH.
Qed.

(** C6.  The augmentation step (lines 1052-1061) returns the test rows and
    test labels it was given, so their number is the same before and
    after; synthetic rows and oversampled rows are appended to the training
    rows, which stay in place. *)
Theorem augment_leaves_test_partition
    (E : Env) (needs_synthetic : bool) (p : partitions) :
  X_test (augment E needs_synthetic p) = X_test p
  /\ y_test (augment E needs_synthetic p) = y_test p
  /\ List.length (y_test (augment E needs_synthetic p))
     = List.length (y_test p)
  /\ exists ex ey,
       X_train (augment E needs_synthetic p) = X_train p ++ ex
       /\ y_train (augment E needs_synthetic p) = y_train p ++ ey
       /\ List.length ex = List.length ey
       /\ ((if needs_synthetic then 12 else 0) <= List.length ey)%nat.
Proof.
  split; [reflexivity|]. split; [reflexivity|]. split; [reflexivity|].
  unfold augment. cbn [X_train y_train].
  set (syn := _generate_synthetic_features E archetypes 3 0).
  assert (Hsyn : List.length (fst syn) = List.length (snd syn))
    by apply synthetic_lengths.
  assert (H12 : List.length (snd syn) = 12%nat).
  { rewrite <- Hsyn. reflexivity. }
  destruct needs_synthetic.
  - destruct (oversample_minority_appends E (X_train p ++ fst syn)
                (y_train p ++ snd syn) (5 * 3 * List.length archetypes)
                (min_train_samples_per_class E)) as (ex & ey & Heq & Hl).
    rewrite Heq. cbn [fst snd].
    exists (fst syn ++ ex), (snd syn ++ ey).
    rewrite <- !app_assoc. repeat split.
    + rewrite !length_app. lia.
    + rewrite !length_app. lia.
  - destruct (oversample_minority_appends E (X_train p) (y_train p) 0
                (min_train_samples_per_class E)) as (ex & ey & Heq & Hl).
    rewrite Heq. cbn [fst snd]. exists ex, ey.
    repeat split; [exact Hl|lia].
Qed.

(** Through a whole run: the counts and the size reported for the test
    set are those of the split, whatever the Augmentor added. *)
Lemma run_reports_the_split_test_set
    (E : Env) (X : list fvec) (y : list label) (ts : list ts_raw)
    (force : bool) (st st' : ai_state) :
  train_model_from E (Some (X, y, ts)) force st = (Done, st') ->
  exists yte r,
    take y (snd (chronological_split E ts)) = Some yte
    /\ last_metrics st' = metrics_report r
    /\ rp_test_counts r = counts_over (np_unique yte) yte.
Proof.
  unfold train_model_from.
  destruct (_ && negb force); [discriminate|]. cbv zeta.
  destruct (take X (fst (chronological_split E ts))) as [Xtr|]; [|discriminate].
  destruct (take X (snd (chronological_split E ts))) as [Xte|]; [|discriminate].
  destruct (take y (fst (chronological_split E ts))) as [ytr|]; [|discriminate].
  destruct (take y (snd (chronological_split E ts))) as [yte|]; [|discriminate].
  set (p := augment E _ _).
  destruct (sklearn E _ _ _ _); try discriminate.
  destruct (baseline_majority p); [|discriminate].
  match goal with
  | |- (if fst (save_model E ?s2) then _ else _) = _ -> _ => set (st2 := s2)
  end.
  destruct (fst (save_model E st2)); [|discriminate].
  intros H; injection H as <-.
  exists yte. eexists. split; [reflexivity|].
  destruct (save_model_keeps E st2) as (_ & Hl & _). rewrite Hl.
  split; reflexivity.
Qed.

End Augmentor.

(** ** Single-flight guard (C7) *)

Section Guard.

Import WeatherAIModel Server Spec.

Lemma train_ai_model_keeps_guard (f : bool) (s : server) :
  single_flight s -> single_flight (snd (train_ai_model f s)).
Proof.
  intros [Hlen Hflag]. unfold train_ai_model.
  destruct (negb (fst (ai_ready_for_training s)) && negb f); [split; assumption|].
  destruct (ai_training_in_progress s) eqn:Hp;
    [split; [assumption|cbn; rewrite Hp; assumption]|].
  assert (Hw : workers s = []).
  { destruct (workers s) as [|w r] eqn:Ew; [reflexivity|].
    assert (false = true) by (apply Hflag; discriminate). discriminate. }
  cbn. rewrite Hw. cbn. split; cbn; [lia|].
  split; [intros _; discriminate|reflexivity].
Qed.

Lemma run_train_keeps_guard (E : Env) (esc : bool) (s : server) :
  single_flight s -> single_flight (_run_train E esc s).
Proof.
  intros [Hlen Hflag]. unfold _run_train.
  destruct (workers s) as [|w r] eqn:Ew.
  - split; [rewrite Ew; cbn; lia|]. rewrite Ew. exact Hflag.
  - cbn in Hlen. assert (r = []) as -> by (destruct r; [reflexivity|cbn in Hlen; lia]).
    split; cbn; [lia|]. split; [discriminate|congruence].
Qed.

Lemma step_keeps_guard (s : server) (e : event) :
  single_flight s -> single_flight (step s e).
Proof.
  intros H. destruct e as [f|E esc|r]; cbn.
  - now apply train_ai_model_keeps_guard.
  - now apply run_train_keeps_guard.
  - exact H.
Qed.

Lemma run_keeps_guard (es : list event) (s : server) :
  single_flight s -> single_flight (run s es).
Proof.
  revert s. induction es as [|e r IH]; intros s H; cbn.
  - exact H.
  - apply IH, step_keeps_guard, H.
Qed.

Lemma boot_single_flight (ai : ai_state) (threshold : nat) :
  single_flight (boot ai threshold).
Proof. split; cbn; [lia|]. split; [discriminate|congruence]. Qed.

(** The worker's [finally]: the flag is down after [_run_train], whether
    the body returned or raised. *)
Lemma run_train_clears_flag (E : Env) (esc : bool) (s : server) :
  workers s <> [] -> ai_training_in_progress (_run_train E esc s) = false.
Proof.
  intros H. unfold _run_train. destruct (workers s); [congruence|reflexivity].
Qed.

(** C7, as claimed, fails.  Sixty readings are in; a forced trigger starts
    a run; a second trigger, not forced, arrives while that run is live and
    is answered [not_ready] by the readiness gate, which stands before the
    guard. *)
Lemma trigger_during_run_answered_not_ready :
  workers (run (boot Demo.fresh 100)
             (map Reading (Demo.scenario 60) ++ [Trigger true])) = [true]
  /\ fst (train_ai_model false
            (run (boot Demo.fresh 100)
               (map Reading (Demo.scenario 60) ++ [Trigger true])))
     = not_ready.
Proof. vm_compute. split; reflexivity. Qed.

(** C7, amended.  From start-up on, under any sequence of readings,
    triggers and worker ends: there is at most one live run; a trigger that
    arrives while a run is live starts no second one, and is answered
    [training_in_progress] when it passes the readiness gate and
    [not_ready] when it does not; when the live worker ends, by return or
    by an exception, the flag is cleared. *)
Theorem single_flight_guard
    (ai : ai_state) (threshold : nat) (es : list event) :
  let s := run (boot ai threshold) es in
  (List.length (workers s) <= 1)%nat
  /\ (ai_training_in_progress s = true <-> workers s <> [])
  /\ (workers s <> [] ->
      forall f,
        workers (snd (train_ai_model f s)) = workers s
        /\ fst (train_ai_model f s)
           = (if passes_gate f s then training_in_progress else not_ready))
  /\ (workers s <> [] ->
      forall E esc,
        ai_training_in_progress (_run_train E esc s) = false
        /\ workers (_run_train E esc s) = []).
Proof.
  intros s.
  assert (H : single_flight s) by apply run_keeps_guard, boot_single_flight.
  destruct H as [Hlen Hflag].
  split; [exact Hlen|]. split; [exact Hflag|]. split.
  - intros Hw f. apply Hflag in Hw.
    unfold train_ai_model, passes_gate.
    destruct (fst (ai_ready_for_training s)), f; cbn; rewrite ?Hw; split; reflexivity.
  - intros Hw E esc. split; [now apply run_train_clears_flag|].
    unfold _run_train. destruct (workers s) as [|w r]; [congruence|].
    cbn in *. destruct r; [reflexivity|cbn in Hlen; lia].
Qed.

Lemma single_flight_guard_witness :
  workers (run (boot Demo.fresh 100)
             (map Reading (Demo.scenario 60) ++ [Trigger true])) <> []
  /\ (forall f,
        workers (snd (train_ai_model f
                   (run (boot Demo.fresh 100)
                      (map Reading (Demo.scenario 60) ++ [Trigger true]))))
        = workers (run (boot Demo.fresh 100)
                     (map Reading (Demo.scenario 60) ++ [Trigger true]))
        /\ fst (train_ai_model f
                  (run (boot Demo.fresh 100)
                     (map Reading (Demo.scenario 60) ++ [Trigger true])))
           = (if passes_gate f
                   (run (boot Demo.fresh 100)
                      (map Reading (Demo.scenario 60) ++ [Trigger true]))
              then training_in_progress else not_ready))
  /\ (forall E esc,
        ai_training_in_progress
          (_run_train E esc
             (run (boot Demo.fresh 100)
                (map Reading (Demo.scenario 60) ++ [Trigger true])))
        = false).
Proof.
  assert (Hw : workers (run (boot Demo.fresh 100)
                 (map Reading (Demo.scenario 60) ++ [Trigger true])) <> [])
    by (vm_compute; discriminate).
  pose proof (single_flight_guard Demo.fresh 100
                (map Reading (Demo.scenario 60) ++ [Trigger true])) as H.
  cbv zeta in H. destruct H as (_ & _ & H3 & H4).
  split; [exact Hw|]. split; [exact (H3 Hw)|].
  intros E esc. exact (proj1 (H4 Hw E esc)).
Defined.

End Guard.

(** ** Linear trend (C9) *)

Section LeastSquares.

Import FuzzyForecastEngine Spec.

Lemma Qltb_true (x y : Q) : Py.Qltb x y = true <-> x < y.
Proof.
  unfold Py.Qltb. destruct (Qle_bool y x) eqn:E; cbn.
  - apply Qle_bool_iff in E. split; [discriminate|]. intros H. lra.
  - split; [intros _|reflexivity].
    destruct (Qlt_le_dec x y) as [H|H]; [exact H|].
    apply Qle_bool_iff in H. congruence.
Qed.

Lemma Qltb_false (x y : Q) : Py.Qltb x y = false <-> y <= x.
Proof.
  destruct (Py.Qltb x y) eqn:E.
  - apply Qltb_true in E. split; [discriminate|]. intros H. lra.
  - split; [intros _|reflexivity].
    destruct (Qlt_le_dec x y) as [H|H]; [|exact H].
    apply Qltb_true in H. congruence.
Qed.

Lemma fold_max2_spec (r : list Q) (x : Q) :
  In (fold_left Py.max2 r x) (x :: r)
  /\ forall y, In y (x :: r) -> y <= fold_left Py.max2 r x.
Proof.
  revert x. induction r as [|z r IH]; intros x; cbn.
  - split; [now left|]. intros y [<-|[]]. lra.
  - destruct (IH (Py.max2 x z)) as [Hin Hle].
    assert (Hx : x <= Py.max2 x z /\ z <= Py.max2 x z
                 /\ (Py.max2 x z = x \/ Py.max2 x z = z)).
    { unfold Py.max2. destruct (Py.Qltb x z) eqn:E.
      - apply Qltb_true in E. repeat split; try lra. now right.
      - apply Qltb_false in E. repeat split; try lra. now left. }
    destruct Hx as (Hx1 & Hx2 & Hx3).
    split.
    + destruct Hin as [Hin|Hin].
      * destruct Hx3 as [H|H]; rewrite <- Hin, H; auto.
      * auto.
    + intros y [<-|[<-|Hy]].
      * eapply Qle_trans; [exact Hx1|]. apply Hle. now left.
      * eapply Qle_trans; [exact Hx2|]. apply Hle. now left.
      * apply Hle. now right.
Qed.

Lemma fold_min2_spec (r : list Q) (x : Q) :
  In (fold_left Py.min2 r x) (x :: r)
  /\ forall y, In y (x :: r) -> fold_left Py.min2 r x <= y.
Proof.
  revert x. induction r as [|z r IH]; intros x; cbn.
  - split; [now left|]. intros y [<-|[]]. lra.
  - destruct (IH (Py.min2 x z)) as [Hin Hle].
    assert (Hx : Py.min2 x z <= x /\ Py.min2 x z <= z
                 /\ (Py.min2 x z = x \/ Py.min2 x z = z)).
    { unfold Py.min2. destruct (Py.Qltb z x) eqn:E.
      - apply Qltb_true in E. repeat split; try lra. now right.
      - apply Qltb_false in E. repeat split; try lra. now left. }
    destruct Hx as (Hx1 & Hx2 & Hx3).
    split.
    + destruct Hin as [Hin|Hin].
      * destruct Hx3 as [H|H]; rewrite <- Hin, H; auto.
      * auto.
    + intros y [<-|[<-|Hy]].
      * eapply Qle_trans; [|exact Hx1]. apply Hle. now left.
      * eapply Qle_trans; [|exact Hx2]. apply Hle. now left.
      * apply Hle. now right.
Qed.

(** The spread [max(xs) - min(xs)] is below a bound exactly when every
    two elements are closer than it. *)
Lemma spread_below (d : Q) (xs : list Q) (c : Q) :
  xs <> [] ->
  (Py.max_list d xs - Py.min_list d xs < c
   <-> forall x x', In x xs -> In x' xs -> x - x' < c).
Proof.
  destruct xs as [|x0 r]; [congruence|]. intros _. cbn.
  destruct (fold_max2_spec r x0) as [Mi Ml].
  destruct (fold_min2_spec r x0) as [mi ml].
  split.
  - intros H x x' Hx Hx'. specialize (Ml x Hx). specialize (ml x' Hx'). lra.
  - intros H. now apply H.
Qed.

Lemma spread_nonneg (d : Q) (xs : list Q) :
  xs <> [] -> 0 <= Py.max_list d xs - Py.min_list d xs.
Proof.
  destruct xs as [|x0 r]; [congruence|]. intros _. cbn.
  destruct (fold_max2_spec r x0) as [Mi Ml].
  destruct (fold_min2_spec r x0) as [mi ml].
  specialize (Ml _ mi). lra.
Qed.

Lemma spread_members (d : Q) (xs : list Q) :
  xs <> [] -> In (Py.max_list d xs) xs /\ In (Py.min_list d xs) xs.
Proof.
  destruct xs as [|x0 r]; [congruence|]. intros _. cbn [Py.max_list Py.min_list].
  split; [apply fold_max2_spec|apply fold_min2_spec].
Qed.

(** *** The denominator of the normal equations *)

Lemma Qsq_nonneg (a : Q) : 0 <= a * a.
Proof.
  destruct (Qlt_le_dec a 0) as [H|H].
  - setoid_replace (a * a) with ((- a) * (- a)) by ring.
    apply Qmult_le_0_compat; lra.
  - apply Qmult_le_0_compat; assumption.
Qed.

Lemma inject_S (k : nat) :
  inject_Z (Z.of_nat (S k)) == inject_Z (Z.of_nat k) + 1.
Proof. rewrite Nat2Z.inj_succ. unfold Z.succ. rewrite inject_Z_plus. reflexivity. Qed.

Lemma pairdiff_expand (x : Q) (l : list Q) :
  pairdiff x l
  == inject_Z (Z.of_nat (List.length l)) * (x * x)
     - 2 * x * Py.sum l + Py.sum (map (fun y => y * y) l).
Proof.
  unfold pairdiff. induction l as [|y r IH].
  - cbn. ring.
  - cbn [map Py.sum fold_right List.length]. fold (Py.sum r).
    fold (Py.sum (map (fun y => (x - y) * (x - y)) r)).
    fold (Py.sum (map (fun y => y * y) r)).
    rewrite IH, inject_S. ring.
Qed.

Lemma pairdiff_nonneg (x : Q) (l : list Q) : 0 <= pairdiff x l.
Proof.
  unfold pairdiff. induction l as [|y r IH]; cbn.
  - lra.
  - fold (Py.sum (map (fun y => (x - y) * (x - y)) r)).
    pose proof (Qsq_nonneg (x - y)). lra.
Qed.

Lemma pairdiff_pos (x y : Q) (l : list Q) :
  In y l -> ~ x == y -> 0 < pairdiff x l.
Proof.
  unfold pairdiff. induction l as [|z r IH]; [intros []|].
  intros [->|Hin] Hne; cbn;
    fold (Py.sum (map (fun y => (x - y) * (x - y)) r)).
  - pose proof (pairdiff_nonneg x r) as Hp. unfold pairdiff in Hp.
    assert (0 < (x - y) * (x - y)).
    { destruct (Qlt_le_dec y x) as [H|H].
      - apply Qmult_lt_0_compat; lra.
      - assert (H' : x < y).
        { apply Qle_lteq in H. destruct H as [H|H]; [exact H|contradiction]. }
        setoid_replace ((x - y) * (x - y)) with ((y - x) * (y - x)) by ring.
        apply Qmult_lt_0_compat; lra. }
    lra.
  - specialize (IH Hin Hne). pose proof (Qsq_nonneg (x - z)). lra.
Qed.

Lemma lsq_den_cons (x : Q) (l : list Q) :
  lsq_den (x :: l) == lsq_den l + pairdiff x l.
Proof.
  rewrite pairdiff_expand. unfold lsq_den.
  cbn [map Py.sum fold_right List.length]. fold (Py.sum l).
  fold (Py.sum (map (fun x => x * x) l)).
  rewrite inject_S. ring.
Qed.

Lemma lsq_den_nonneg (l : list Q) : 0 <= lsq_den l.
Proof.
  induction l as [|x r IH].
  - unfold lsq_den. cbn. lra.
  - rewrite lsq_den_cons. pose proof (pairdiff_nonneg x r). lra.
Qed.

(** Two different abscissae make the denominator positive. *)
Lemma lsq_den_pos (l : list Q) (x1 x2 : Q) :
  In x1 l -> In x2 l -> ~ x1 == x2 -> 0 < lsq_den l.
Proof.
  induction l as [|h t IH]; [intros []|].
  intros H1 H2 Hne. rewrite lsq_den_cons.
  pose proof (lsq_den_nonneg t) as Ht.
  pose proof (pairdiff_nonneg h t) as Hp.
  destruct H1 as [->|H1], H2 as [->|H2].
  - exfalso. apply Hne. reflexivity.
  - pose proof (pairdiff_pos x1 x2 t H2 Hne). lra.
  - assert (Hne' : ~ x2 == x1) by (intros H; apply Hne; now symmetry).
    pose proof (pairdiff_pos x2 x1 t H1 Hne'). lra.
  - specialize (IH H1 H2 Hne). lra.
Qed.

(** *** The normal equations give the minimum *)

Lemma normal_equations_minimise (n Sx Sy Sxx Sxy Syy a' b' : Q) :
  0 < n -> 0 < n * Sxx - Sx * Sx ->
  forall a b,
    a == (n * Sxy - Sx * Sy) / (n * Sxx - Sx * Sx) ->
    b == (Sy - a * Sx) / n ->
    a * a * Sxx + 2 * a * b * Sx + n * (b * b) - 2 * a * Sxy - 2 * b * Sy + Syy
    <= a' * a' * Sxx + 2 * a' * b' * Sx + n * (b' * b') - 2 * a' * Sxy
       - 2 * b' * Sy + Syy.
Proof.
  intros Hn HD a b Ha Hb.
  assert (Hn0 : ~ n == 0) by lra.
  assert (HD0 : ~ n * Sxx - Sx * Sx == 0) by lra.
  (* the two normal equations *)
  assert (N1 : a * Sx + n * b - Sy == 0).
  { rewrite Hb. field. exact Hn0. }
  assert (N2 : a * Sxx + b * Sx - Sxy == 0).
  { rewrite Hb, Ha. field. split; assumption. }
  set (u := a' - a). set (v := b' - b).
  assert (Hd :
    (a' * a' * Sxx + 2 * a' * b' * Sx + n * (b' * b') - 2 * a' * Sxy
     - 2 * b' * Sy + Syy)
    - (a * a * Sxx + 2 * a * b * Sx + n * (b * b) - 2 * a * Sxy
       - 2 * b * Sy + Syy)
    == ((n * v + u * Sx) * (n * v + u * Sx)
        + u * u * (n * Sxx - Sx * Sx)) / n
       + 2 * u * (a * Sxx + b * Sx - Sxy) + 2 * v * (a * Sx + n * b - Sy)).
  { unfold u, v. field. exact Hn0. }
  rewrite N1, N2 in Hd.
  assert (Hpos : 0 <= ((n * v + u * Sx) * (n * v + u * Sx)
                       + u * u * (n * Sxx - Sx * Sx)) / n).
  { apply Qle_shift_div_l; [exact Hn|].
    pose proof (Qsq_nonneg (n * v + u * Sx)).
    pose proof (Qsq_nonneg u).
    assert (0 <= u * u * (n * Sxx - Sx * Sx))
      by (apply Qmult_le_0_compat; lra).
    lra. }
  lra.
Qed.

Lemma sse_expand (a b : Q) (pts : list (Q * Q)) :
  sse a b pts
  == a * a * Py.sum (map (fun x => x * x) (map fst pts))
     + 2 * a * b * Py.sum (map fst pts)
     + inject_Z (Z.of_nat (List.length pts)) * (b * b)
     - 2 * a * Py.sum (map (fun p => fst p * snd p) pts)
     - 2 * b * Py.sum (map snd pts)
     + Py.sum (map (fun y => y * y) (map snd pts)).
Proof.
  unfold sse. induction pts as [|[x y] r IH].
  - cbn. ring.
  - cbn [map Py.sum fold_right List.length fst snd].
    fold (Py.sum (map (fun p => (a * fst p + b - snd p) * (a * fst p + b - snd p)) r)).
    fold (Py.sum (map (fun x => x * x) (map fst r))).
    fold (Py.sum (map fst r)).
    fold (Py.sum (map (fun p => fst p * snd p) r)).
    fold (Py.sum (map snd r)).
    fold (Py.sum (map (fun y => y * y) (map snd r))).
    rewrite IH, inject_S. ring.
Qed.

Lemma combine_fst_snd {A B : Type} (l : list (A * B)) :
  combine (map fst l) (map snd l) = l.
Proof.
  induction l as [|[a b] r IH]; cbn; [reflexivity|now rewrite IH].
Qed.

Lemma length_pos_inject (k : nat) : (0 < k)%nat -> 0 < inject_Z (Z.of_nat k).
Proof.
  intros H. replace 0 with (inject_Z 0) by reflexivity.
  rewrite <- Zlt_Qlt. lia.
Qed.

(** [np.polyfit] of degree one minimises the sum of squared residuals as
    soon as two abscissae differ. *)
Lemma polyfit_least_squares (pts : list (Q * Q)) (a b : Q) :
  0 < lsq_den (map fst pts) ->
  np_polyfit1 (map fst pts) (map snd pts) = Some (a, b) ->
  forall a' b', sse a b pts <= sse a' b' pts.
Proof.
  intros HD Hfit a' b'.
  assert (Hne : pts <> []).
  { intros ->. discriminate Hfit. }
  assert (Hn : 0 < inject_Z (Z.of_nat (List.length pts))).
  { apply length_pos_inject. destruct pts; [congruence|cbn; lia]. }
  unfold np_polyfit1 in Hfit. rewrite combine_fst_snd in Hfit.
  destruct (map fst pts) as [|x0 xr] eqn:Hx.
  { destruct pts; [congruence|discriminate Hx]. }
  rewrite <- Hx in *. clear Hx x0 xr.
  injection Hfit as Ha Hb.
  rewrite !sse_expand.
  unfold lsq_den in HD. rewrite length_map in *.
  apply normal_equations_minimise; try assumption.
  - rewrite <- Ha. unfold lsq_den. rewrite length_map. reflexivity.
  - rewrite <- Hb, <- Ha. unfold lsq_den. rewrite length_map. reflexivity.
Qed.

End LeastSquares.

Section Trend.

Import FuzzyForecastEngine Spec.

Lemma lastn_length {A : Type} (k : nat) (l : list A) :
  List.length (Py.lastn k l) = Nat.min k (List.length l).
Proof. unfold Py.lastn. rewrite length_skipn. lia. Qed.

Lemma recent_nonempty (series : list (Z * Q)) :
  (1 <= List.length series)%nat -> recent series <> [].
Proof.
  intros H Hnil. apply (f_equal (@List.length _)) in Hnil.
  unfold recent in Hnil. rewrite lastn_length, sorted_length in Hnil.
  cbn [List.length] in Hnil. lia.
Qed.

Lemma minutes_between_diff (a b t : Z) :
  minutes_between a t - minutes_between b t == minutes_between a b.
Proof.
  unfold minutes_between.
  replace (a - b)%Z with ((a - t) + - (b - t))%Z by lia.
  rewrite inject_Z_plus, inject_Z_opp. field.
Qed.

Lemma fitted_abscissae (series : list (Z * Q)) :
  map fst (fitted_points series)
  = map (fun p => minutes_between (fst p) (newest series)) (recent series).
Proof. unfold fitted_points. rewrite map_map. reflexivity. Qed.

Lemma fitted_ordinates (series : list (Z * Q)) :
  map snd (fitted_points series) = map snd (recent series).
Proof. unfold fitted_points. rewrite map_map. reflexivity. Qed.

(** [_fit_linear] on three points or more: the guard on the spread of the
    abscissae, then [np.polyfit]. *)
Lemma fit_linear_unfold (series : list (Z * Q)) :
  (3 <= List.length series)%nat ->
  _fit_linear series
  = if Py.Qltb (-(1#2))
         (Py.max_list 0 (map fst (fitted_points series))
          - Py.min_list 0 (map fst (fitted_points series)))
       && Py.Qltb (Py.max_list 0 (map fst (fitted_points series))
                   - Py.min_list 0 (map fst (fitted_points series))) (1#2)
    then None
    else np_polyfit1 (map fst (fitted_points series))
                     (map snd (fitted_points series)).
Proof.
  intros H3. unfold _fit_linear.
  apply Nat.ltb_ge in H3. rewrite H3. cbv zeta.
  rewrite fitted_abscissae, fitted_ordinates.
  fold (newest series). fold (recent series).
  assert (Hne : recent series <> []).
  { apply recent_nonempty. apply Nat.ltb_ge in H3. lia. }
  destruct (recent series) as [|p r] eqn:Er; [congruence|].
  cbn [map orb].
  destruct (_ && _); [reflexivity|].
  destruct (np_polyfit1 _ _) as [[a b]|]; reflexivity.
Qed.

Lemma abscissae_differences (series : list (Z * Q)) (c : Q) :
  (forall x x', In x (map fst (fitted_points series)) ->
                In x' (map fst (fitted_points series)) -> x - x' < c)
  <-> (forall p q, In p (recent series) -> In q (recent series) ->
                   minutes_between (fst p) (fst q) < c).
Proof.
  rewrite fitted_abscissae. split.
  - intros H p q Hp Hq. rewrite <- (minutes_between_diff _ _ (newest series)).
    apply H; apply in_map_iff; eauto.
  - intros H x x' Hx Hx'.
    apply in_map_iff in Hx. destruct Hx as (p & <- & Hp).
    apply in_map_iff in Hx'. destruct Hx' as (q & <- & Hq).
    rewrite minutes_between_diff. now apply H.
Qed.

(** C9, as claimed, fails at a span of exactly half a minute: three points
    fifteen seconds apart are fitted, with slope 4 per minute. *)
Lemma fit_at_half_minute_span :
  minutes_between 30000000 0 == 1#2
  /\ ~ (1#2 < minutes_between 30000000 0)
  /\ exists a b,
       _fit_linear [(0%Z, 1); (15000000%Z, 2); (30000000%Z, 3)] = Some (a, b)
       /\ a == 4 /\ b == 3.
Proof.
  split; [reflexivity|]. split; [intros H; discriminate H|].
  eexists _, _. split; [vm_compute; reflexivity|]. split; reflexivity.
Qed.

(** C9, amended.  [_fit_linear] returns [None] when the series has fewer
    than three points, or when every two of its (at most thirty) latest
    points are less than half a minute apart.  When two of them are half a
    minute apart or more it returns the coefficients of the least-squares
    line through those points, in minutes from the newest one.  With no
    fit, [predict_val] is the current value brought into the clamp range,
    whatever the horizon. *)
Theorem fit_linear_trend (series : list (Z * Q)) :
  ((List.length series < 3)%nat -> _fit_linear series = None)
  /\ ((3 <= List.length series)%nat ->
      (forall p q, In p (recent series) -> In q (recent series) ->
                   minutes_between (fst p) (fst q) < 1#2) ->
      _fit_linear series = None)
  /\ ((3 <= List.length series)%nat ->
      (exists p q, In p (recent series) /\ In q (recent series)
                   /\ 1#2 <= minutes_between (fst p) (fst q)) ->
      exists a b,
        _fit_linear series = Some (a, b)
        /\ forall a' b',
             sse a b (fitted_points series) <= sse a' b' (fitted_points series))
  /\ (forall now_val h lo hi,
        predict_val now_val None h (Some lo) (Some hi)
        = Py.min2 hi (Py.max2 lo now_val))
  /\ (forall now_val h lo hi,
        lo <= now_val -> now_val <= hi ->
        predict_val now_val None h (Some lo) (Some hi) == now_val).
Proof.
  split; [|split; [|split; [|split]]].
  - intros H. unfold _fit_linear. apply Nat.ltb_lt in H. now rewrite H.
  - intros H3 Hclose. rewrite fit_linear_unfold by exact H3.
    set (xs := map fst (fitted_points series)).
    assert (Hne : xs <> []).
    { unfold xs. rewrite fitted_abscissae. intros Hn.
      apply map_eq_nil in Hn. revert Hn. apply recent_nonempty. lia. }
    assert (Hlt : Py.max_list 0 xs - Py.min_list 0 xs < 1#2).
    { apply (proj2 (spread_below 0 xs (1#2) Hne)).
      apply (proj2 (abscissae_differences series (1#2))), Hclose. }
    pose proof (spread_nonneg 0 xs Hne) as Hge.
    assert (H1 : Py.Qltb (-(1#2)) (Py.max_list 0 xs - Py.min_list 0 xs) = true)
      by (apply Qltb_true; lra).
    assert (H2 : Py.Qltb (Py.max_list 0 xs - Py.min_list 0 xs) (1#2) = true)
      by (apply Qltb_true; exact Hlt).
    rewrite H1, H2. reflexivity.
  - intros H3 (p & q & Hp & Hq & Hfar).
    rewrite fit_linear_unfold by exact H3.
    set (xs := map fst (fitted_points series)).
    assert (Hne : xs <> []).
    { unfold xs. rewrite fitted_abscissae. intros Hn.
      apply map_eq_nil in Hn. revert Hn. apply recent_nonempty. lia. }
    assert (Hge : 1#2 <= Py.max_list 0 xs - Py.min_list 0 xs).
    { destruct (Qlt_le_dec (Py.max_list 0 xs - Py.min_list 0 xs) (1#2))
        as [Hlt|Hle]; [|exact Hle].
      exfalso.
      pose proof (proj1 (spread_below 0 xs (1#2) Hne) Hlt) as Hall.
      pose proof (proj1 (abscissae_differences series (1#2)) Hall p q Hp Hq).
      lra. }
    assert (H2 : Py.Qltb (Py.max_list 0 xs - Py.min_list 0 xs) (1#2) = false)
      by (apply Qltb_false; exact Hge).
    rewrite H2, andb_false_r.
    destruct (spread_members 0 xs Hne) as [HM Hm].
    assert (HD : 0 < lsq_den xs).
    { apply (lsq_den_pos xs _ _ HM Hm). intros Heq. rewrite Heq in Hge. lra. }
    destruct (np_polyfit1 xs (map snd (fitted_points series)))
      as [[a b]|] eqn:Hfit.
    + exists a, b. split; [reflexivity|].
      apply polyfit_least_squares; assumption.
    + exfalso. unfold np_polyfit1 in Hfit.
      destruct xs; [congruence|discriminate Hfit].
  - intros now_val h lo hi. reflexivity.
  - intros now_val h lo hi Hlo Hhi. cbn. unfold Py.min2, Py.max2.
    destruct (Py.Qltb lo now_val) eqn:E1.
    + destruct (Py.Qltb now_val hi) eqn:E2; [reflexivity|].
      apply Qltb_false in E2. lra.
    + apply Qltb_false in E1.
      destruct (Py.Qltb lo hi) eqn:E2; [lra|].
      apply Qltb_false in E2. lra.
Qed.

Lemma fit_linear_trend_witness :
  _fit_linear [(0%Z, 1); (60000000%Z, 2)] = None
  /\ _fit_linear Demo.flat_series = None
  /\ (exists a b,
        _fit_linear Demo.rising_series = Some (a, b)
        /\ forall a' b',
             sse a b (fitted_points Demo.rising_series)
             <= sse a' b' (fitted_points Demo.rising_series))
  /\ predict_val 25 None 60 (Some (-10)) (Some 60) == 25.
Proof.
  destruct (fit_linear_trend [(0%Z, 1); (60000000%Z, 2)]) as (H1 & _).
  destruct (fit_linear_trend Demo.flat_series) as (_ & H2 & _).
  destruct (fit_linear_trend Demo.rising_series) as (_ & _ & H3 & _ & H5).
  split; [apply H1; cbn; lia|].
  split.
  { apply H2; [cbn; lia|].
    intros p q Hp Hq. vm_compute in Hp, Hq.
    repeat (destruct Hp as [<-|Hp]; [repeat (destruct Hq as [<-|Hq];
              [reflexivity|]); contradiction|]); contradiction. }
  split.
  { apply H3; [cbn; lia|].
    exists (60000000%Z, 3), (0%Z, 1).
    split; [vm_compute; auto|]. split; [vm_compute; auto|].
    vm_compute. intros H; discriminate H. }
  apply H5; [intros H; discriminate H|intros H; discriminate H].
Defined.

End Trend.

(** * Further properties of the code *)

(** ** The label table *)

Section LabelTable.

Import WeatherAIModel.

Lemma truthy_false (x : Q) : Py.truthy x = false -> x == 0.
Proof.
  unfold Py.truthy. destruct (Qeq_bool x 0) eqn:E; [|discriminate].
  intros _. now apply Qeq_bool_iff.
Qed.

Ltac cases_Qltb :=
  repeat match goal with
  | |- context [Py.Qltb ?a ?b] =>
    let E := fresh "E" in
    destruct (Py.Qltb a b) eqn:E;
    [apply Qltb_true in E | apply Qltb_false in E]
  end.

(** X1.  The whole decision table of [_label_from_features]: which readings
    get which of the eight labels. *)
Theorem label_decision_table (temp humidity air_quality : Q) :
  (_label_from_features temp humidity air_quality = Polluted
   <-> 300 < air_quality)
  /\ (_label_from_features temp humidity air_quality = HotHumid
      <-> air_quality <= 300 /\ 30 <= temp /\ 60 <= humidity)
  /\ (_label_from_features temp humidity air_quality = HotDry
      <-> air_quality <= 300 /\ 30 <= temp /\ humidity < 30)
  /\ (_label_from_features temp humidity air_quality = VeryHot
      <-> air_quality <= 300 /\ 30 <= temp /\ 30 <= humidity /\ humidity < 60)
  /\ (_label_from_features temp humidity air_quality = VeryHumid
      <-> air_quality <= 300 /\ 25 <= temp /\ temp < 30 /\ 80 <= humidity)
  /\ (_label_from_features temp humidity air_quality = CoolHumid
      <-> air_quality <= 300 /\ temp < 20 /\ 60 <= humidity)
  /\ (_label_from_features temp humidity air_quality = Cold
      <-> air_quality <= 300 /\ temp < 20 /\ humidity < 60)
  /\ (_label_from_features temp humidity air_quality = Normal
      <-> air_quality <= 300 /\ 20 <= temp /\ temp < 30
          /\ (temp < 25 \/ humidity < 80)).
Proof.
  unfold _label_from_features, temp_band, humidity_band.
  destruct (Py.truthy air_quality) eqn:Et;
    [|apply truthy_false in Et];
    cases_Qltb; cbn;
    repeat split; intros; try discriminate; try lra;
    repeat match goal with H : _ /\ _ |- _ => destruct H end;
    try lra;
    try (left; lra); try (right; lra);
    try match goal with H : _ \/ _ |- _ => destruct H; lra end.
Qed.

End LabelTable.

(** ** Synthetic rows and the oversampler *)

Section AugmentorMore.

Import WeatherAIModel Spec.

Lemma label_eqb_eq (a b : label) : label_eqb a b = true <-> a = b.
Proof. destruct a, b; cbn; split; intros H; try reflexivity; discriminate H. Qed.

Lemma label_eqb_refl (a : label) : label_eqb a a = true.
Proof. now apply label_eqb_eq. Qed.

Lemma label_eqb_sym (a b : label) : label_eqb a b = label_eqb b a.
Proof. destruct a, b; reflexivity. Qed.

Lemma synth_each_labels (E : Env) (arch : fvec) (n_each pos : nat) :
  List.length (fst (synth_each E arch n_each pos)) = n_each
  /\ snd (synth_each E arch n_each pos)
     = map (fun v => _label_from_features (temperature v) (humidity v)
                       (air_quality v))
           (fst (synth_each E arch n_each pos)).
Proof.
  revert pos. induction n_each as [|k IH]; intros pos; cbn.
  - split; reflexivity.
  - destruct (IH (pos + 5)%nat) as [Hl Hm]. split; [now rewrite Hl|].
    now rewrite Hm at 1.
Qed.

(** X2.  [_generate_synthetic_features] returns [n_each] rows per archetype,
    and the label of every row is what [_label_from_features] gives for
    that (jittered) row. *)
Theorem synthetic_rows_and_labels
    (E : Env) (archs : list fvec) (n_each pos : nat) :
  List.length (fst (_generate_synthetic_features E archs n_each pos))
  = (List.length archs * n_each)%nat
  /\ snd (_generate_synthetic_features E archs n_each pos)
     = map (fun v => _label_from_features (temperature v) (humidity v)
                       (air_quality v))
           (fst (_generate_synthetic_features E archs n_each pos)).
Proof.
  revert pos. induction archs as [|a r IH]; intros pos.
  - split; reflexivity.
  - cbn [_generate_synthetic_features fst snd List.length].
    destruct (IH (pos + 5 * n_each)%nat) as [Hl Hm].
    destruct (synth_each_labels E a n_each pos) as [Hl1 Hm1].
    split.
    + rewrite length_app, Hl, Hl1. cbn [Nat.mul]. reflexivity.
    + rewrite map_app, <- Hm, <- Hm1. reflexivity.
Qed.

(** *** Counting after the oversampler *)

Lemma count_label_app (l : label) (a b : list label) :
  count_label l (a ++ b) = (count_label l a + count_label l b)%nat.
Proof. unfold count_label. now rewrite filter_app, length_app. Qed.

Lemma count_label_repeat (l l' : label) (k : nat) :
  count_label l (repeat l' k) = if label_eqb l l' then k else O.
Proof.
  unfold count_label. induction k as [|k IH]; cbn.
  - now destruct (label_eqb l l').
  - destruct (label_eqb l l') eqn:E; cbn; now rewrite IH.
Qed.

Lemma rows_of_length (l : label) (X : list fvec) (y : list label) :
  List.length X = List.length y ->
  List.length (rows_of l X y) = count_label l y.
Proof.
  unfold rows_of, count_label. rewrite length_map.
  revert y. induction X as [|x X IH]; intros [|b y] H; cbn in *;
    try discriminate; [reflexivity|].
  rewrite (label_eqb_sym b l).
  destruct (label_eqb l b); cbn; rewrite IH by lia; reflexivity.
Qed.

Lemma oversample_loop_counts (E : Env) (X : list fvec) (y : list label)
    (classes : counts) (m : Z) (pos : nat) (l : label) :
  List.length X = List.length y ->
  (forall c, In c classes -> snd c = count_label (fst c) y /\ snd c <> O) ->
  count_label l (snd (fst (oversample_loop E X y classes m pos)))
  = fold_right (fun c acc => (added l m c + acc)%nat) O classes.
Proof.
  intros HL. revert pos. induction classes as [|[l' c] r IH]; intros pos Hc.
  - reflexivity.
  - assert (Hr : forall c0, In c0 r ->
                   snd c0 = count_label (fst c0) y /\ snd c0 <> O)
      by (intros c0 Hin; apply Hc; now right).
    destruct (Hc (l', c) (or_introl eq_refl)) as [Hcnt Hnz]. cbn in Hcnt, Hnz.
    cbn [oversample_loop fold_right]. unfold added at 1. cbn [fst snd].
    destruct (m <=? Z.of_nat c)%Z eqn:Em.
    + rewrite andb_false_r. cbn. apply IH, Hr.
    + rewrite (rows_of_length l' X y HL), <- Hcnt.
      destruct (c =? 0)%nat eqn:Ec; [apply Nat.eqb_eq in Ec; congruence|].
      cbn [fst snd]. rewrite count_label_app, count_label_repeat, IH by exact Hr.
      rewrite andb_true_r. reflexivity.
Qed.

Lemma added_over_unique (l : label) (m : Z) (y : list label) :
  fold_right (fun c acc => (added l m c + acc)%nat) O (np_unique_counts y)
  = if (count_label l y =? 0)%nat then O
    else if (m <=? Z.of_nat (count_label l y))%Z then O
    else Z.to_nat (m - Z.of_nat (count_label l y)).
Proof.
  assert (Hp : forall l0, existsb (label_eqb l0) y = negb (count_label l0 y =? 0)%nat).
  { intros l0. unfold count_label. induction y as [|b y IH]; cbn; [reflexivity|].
    destruct (label_eqb l0 b); cbn; [reflexivity|exact IH]. }
  unfold np_unique_counts, counts_over, np_unique, all_labels.
  cbn [filter]. rewrite !Hp.
  destruct l;
    destruct (count_label Cold y =? 0)%nat;
    destruct (count_label CoolHumid y =? 0)%nat;
    destruct (count_label HotDry y =? 0)%nat;
    destruct (count_label HotHumid y =? 0)%nat;
    destruct (count_label Normal y =? 0)%nat;
    destruct (count_label Polluted y =? 0)%nat;
    destruct (count_label VeryHot y =? 0)%nat;
    destruct (count_label VeryHumid y =? 0)%nat;
    cbn; unfold added; cbn;
    repeat match goal with
    | |- context [(m <=? ?z)%Z] => destruct (m <=? z)%Z
    end; cbn; lia.
Qed.

Lemma unique_counts_sound (y : list label) (c : label * nat) :
  In c (np_unique_counts y) -> snd c = count_label (fst c) y /\ snd c <> O.
Proof.
  unfold np_unique_counts, counts_over. intros H.
  apply in_map_iff in H. destruct H as (l & <- & Hin). cbn.
  split; [reflexivity|].
  unfold np_unique in Hin. apply filter_In in Hin. destruct Hin as [_ Hex].
  apply existsb_exists in Hex. destruct Hex as (b & Hb & Heq).
  apply label_eqb_eq in Heq. subst b.
  unfold count_label. induction y as [|a y IH]; [contradiction|].
  cbn. destruct (label_eqb l a) eqn:E; cbn; [discriminate|].
  destruct Hb as [->|Hb]; [rewrite label_eqb_refl in E; discriminate|].
  now apply IH.
Qed.

(** X3.  After [_oversample_minority], rows and labels still pair up, every
    class that was present has [max(count, min_per_class)] samples, and no
    class that was absent has appeared. *)
Theorem oversample_reaches_minimum
    (E : Env) (X : list fvec) (y : list label) (pos : nat) (m : Z) :
  List.length X = List.length y ->
  List.length (fst (_oversample_minority E X y pos m))
  = List.length (snd (_oversample_minority E X y pos m))
  /\ forall l,
       count_label l (snd (_oversample_minority E X y pos m))
       = if (count_label l y =? 0)%nat then O
         else Nat.max (count_label l y) (Z.to_nat m).
Proof.
  intros HL.
  pose proof (oversample_loop_lengths E X y (np_unique_counts y) m pos) as Hlen.
  assert (Hcount : forall l,
    count_label l (y ++ snd (fst (oversample_loop E X y (np_unique_counts y) m pos)))
    = if (count_label l y =? 0)%nat then O
      else Nat.max (count_label l y) (Z.to_nat m)).
  { intros l. rewrite count_label_app.
    rewrite (oversample_loop_counts E X y _ m pos l HL (unique_counts_sound y)).
    rewrite added_over_unique.
    destruct (count_label l y =? 0)%nat eqn:E0.
    - apply Nat.eqb_eq in E0. lia.
    - destruct (m <=? Z.of_nat (count_label l y))%Z eqn:Em.
      + apply Z.leb_le in Em. lia.
      + apply Z.leb_gt in Em. lia. }
  unfold _oversample_minority.
  destruct (fst (fst (oversample_loop E X y (np_unique_counts y) m pos)))
    as [|x ex] eqn:Hx.
  - cbn [fst snd]. split; [exact HL|].
    intros l. specialize (Hcount l).
    destruct (snd (fst (oversample_loop E X y (np_unique_counts y) m pos)));
      [|discriminate Hlen].
    now rewrite app_nil_r in Hcount.
  - cbn [fst snd]. split; [|exact Hcount].
    rewrite !length_app, HL, <- Hlen. reflexivity.
Qed.

Lemma oversample_reaches_minimum_witness :
  List.length
    (fst (_oversample_minority (Demo.env io_ok)
            (map (fun r => fst (fst (Orphaned.row r))) (Demo.scenario 4))
            (map (fun r => snd (fst (Orphaned.row r))) (Demo.scenario 4))
            0 10))
  = List.length
      (snd (_oversample_minority (Demo.env io_ok)
              (map (fun r => fst (fst (Orphaned.row r))) (Demo.scenario 4))
              (map (fun r => snd (fst (Orphaned.row r))) (Demo.scenario 4))
              0 10))
  /\ forall l,
       count_label l
         (snd (_oversample_minority (Demo.env io_ok)
                 (map (fun r => fst (fst (Orphaned.row r))) (Demo.scenario 4))
                 (map (fun r => snd (fst (Orphaned.row r))) (Demo.scenario 4))
                 0 10))
       = if (count_label l
               (map (fun r => snd (fst (Orphaned.row r))) (Demo.scenario 4))
             =? 0)%nat
         then O
         else Nat.max
                (count_label l
                   (map (fun r => snd (fst (Orphaned.row r))) (Demo.scenario 4)))
                (Z.to_nat 10).
Proof.
  apply (oversample_reaches_minimum (Demo.env io_ok)
           (map (fun r => fst (fst (Orphaned.row r))) (Demo.scenario 4))
           (map (fun r => snd (fst (Orphaned.row r))) (Demo.scenario 4))
           0 10).
  reflexivity.
Defined.

End AugmentorMore.

(** ** More on the chronological split *)

Section SplitMore.

Import WeatherAIModel Spec.

Lemma sorted_of_sorted {A : Type} (key : A -> Z) (l : list A) :
  Sorted (Py.le_key key) l -> Py.sorted key l = l.
Proof.
  induction 1 as [|x r Hs IH Hh]; cbn.
  - reflexivity.
  - rewrite IH. destruct Hh as [|y r' Hxy]; cbn.
    + reflexivity.
    + unfold Py.le_key in Hxy. apply Z.leb_le in Hxy. now rewrite Hxy.
Qed.

Lemma time_keys_sorted (E : Env) (ts : list ts_raw) (i : nat) :
  (forall a b, (a <= b < List.length ts)%nat ->
     (_parse_ts E (nth a ts TsNone) (i + a) <= _parse_ts E (nth b ts TsNone) (i + b))%Z) ->
  Sorted (Py.le_key fst) (time_keys E ts i).
Proof.
  revert i. induction ts as [|t r IH]; intros i H; cbn.
  - constructor.
  - constructor.
    + apply IH. intros a b Hab.
      specialize (H (S a) (S b) ltac:(cbn; lia)). cbn in H.
      now rewrite <- !Nat.add_succ_comm in H.
    + destruct r as [|t' r']; cbn; constructor.
      unfold Py.le_key. cbn.
      specialize (H 0%nat 1%nat ltac:(cbn; lia)). cbn in H.
      now rewrite Nat.add_0_r, Nat.add_1_r in H.
Qed.

(** X4.  When the resolved instants do not decrease along the buffer (all
    equal, or all missing so that the index stands in), sorting changes
    nothing: the split is the one by insertion order. *)
Theorem split_keeps_insertion_order (E : Env) (timestamps : list ts_raw) :
  (1 <= List.length timestamps)%nat ->
  (forall a b, (a <= b < List.length timestamps)%nat ->
     (resolved E timestamps a <= resolved E timestamps b)%Z) ->
  sorted_indices E timestamps = seq 0 (List.length timestamps)
  /\ chronological_split E timestamps
     = (seq 0 (split_index (List.length timestamps)),
        seq (split_index (List.length timestamps))
            (List.length timestamps - split_index (List.length timestamps))).
Proof.
  intros Hn H.
  assert (Hs : sorted_indices E timestamps = seq 0 (List.length timestamps)).
  { unfold sorted_indices. rewrite sorted_of_sorted.
    - apply time_keys_indices.
    - apply time_keys_sorted. intros a b Hab. apply (H a b Hab). }
  split; [exact Hs|].
  unfold chronological_split. rewrite Hs, length_seq.
  set (n := List.length timestamps) in *. set (k := split_index n).
  assert (Hk : (k <= n)%nat).
  { unfold k, split_index. rewrite floor_of_product.
    pose proof (Z.div_mod (Z.of_nat n * 8) 10 ltac:(lia)).
    pose proof (Z.mod_pos_bound (Z.of_nat n * 8) 10 ltac:(lia)). lia. }
  replace n with (k + (n - k))%nat at 1 2 by lia.
  rewrite seq_app, firstn_app, skipn_app, length_seq, Nat.sub_diag.
  rewrite firstn_all2 by (rewrite length_seq; lia).
  rewrite skipn_all2 by (rewrite length_seq; lia).
  cbn. now rewrite app_nil_r.
Qed.

Lemma split_keeps_insertion_order_witness :
  sorted_indices (Demo.env io_ok) (repeat TsNone 5) = seq 0 5
  /\ chronological_split (Demo.env io_ok) (repeat TsNone 5)
     = ([0; 1; 2; 3], [4])%nat.
Proof.
  apply (split_keeps_insertion_order (Demo.env io_ok) (repeat TsNone 5)).
  - cbn. lia.
  - intros a b Hab. unfold resolved.
    assert (Hnth : forall i, nth i (repeat TsNone 5) TsNone = TsNone).
    { intros i. do 6 (destruct i as [|i]; [reflexivity|]). reflexivity. }
    rewrite !Hnth. unfold _parse_ts, us_of_index. lia.
Defined.

(** *** The split on the samples themselves *)

Lemma take_some_iff {A : Type} (a : list A) (idx : list nat) :
  (exists l, take a idx = Some l) <-> Forall (fun i => (i < List.length a)%nat) idx.
Proof.
  induction idx as [|i r IH]; cbn.
  - split; [constructor|eauto].
  - split.
    + intros [l H]. destruct (nth_error a i) as [x|] eqn:En; [|discriminate].
      destruct (take a r) as [xs|] eqn:Et; [|discriminate].
      constructor.
      * apply nth_error_Some. congruence.
      * apply IH. eauto.
    + intros H. inversion H as [|? ? Hi Hr]; subst.
      apply IH in Hr. destruct Hr as [xs ->].
      destruct (nth_error a i) as [x|] eqn:En.
      * eauto.
      * apply nth_error_None in En. lia.
Qed.

Lemma take_app {A : Type} (a : list A) (i1 i2 : list nat) (l1 l2 : list A) :
  take a i1 = Some l1 -> take a i2 = Some l2 ->
  take a (i1 ++ i2) = Some (l1 ++ l2).
Proof.
  revert l1. induction i1 as [|i r IH]; cbn; intros l1 H1 H2.
  - injection H1 as <-. exact H2.
  - destruct (nth_error a i) as [x|]; [|discriminate].
    destruct (take a r) as [xs|]; [|discriminate].
    injection H1 as <-. now rewrite (IH xs eq_refl H2).
Qed.

Lemma take_perm {A : Type} (a : list A) (i1 i2 : list nat) :
  Permutation i1 i2 ->
  forall l1 l2, take a i1 = Some l1 -> take a i2 = Some l2 -> Permutation l1 l2.
Proof.
  induction 1 as [|i r r' Hp IH|i j r|r1 r2 r3 H12 IH12 H23 IH23];
    intros l1 l2 H1 H2.
  - cbn in *. injection H1 as <-. injection H2 as <-. constructor.
  - cbn in *. destruct (nth_error a i) as [x|]; [|discriminate].
    destruct (take a r) as [xs|]; [|discriminate].
    destruct (take a r') as [xs'|]; [|discriminate].
    injection H1 as <-. injection H2 as <-.
    apply perm_skip. now apply IH.
  - cbn in *. destruct (nth_error a i) as [x|]; [|discriminate].
    destruct (nth_error a j) as [y|]; [|discriminate].
    destruct (take a r) as [xs|]; [|discriminate].
    injection H1 as <-. injection H2 as <-. apply perm_swap.
  - assert (H : exists l, take a r2 = Some l).
    { apply take_some_iff.
      assert (F : Forall (fun i => (i < List.length a)%nat) r1)
        by (apply take_some_iff; eauto).
      rewrite Forall_forall in *. intros i Hi. apply F.
      apply (Permutation_in _ (Permutation_sym H12) Hi). }
    destruct H as [l Hl].
    transitivity l; [now apply IH12|now apply IH23].
Qed.

Lemma take_seq {A : Type} (p a : list A) :
  take (p ++ a) (seq (List.length p) (List.length a)) = Some a.
Proof.
  revert p. induction a as [|x a IH]; intros p; cbn.
  - reflexivity.
  - rewrite nth_error_app2 by lia. rewrite Nat.sub_diag. cbn.
    specialize (IH (p ++ [x])). rewrite <- app_assoc in IH. cbn in IH.
    rewrite length_app in IH. cbn in IH. rewrite Nat.add_1_r in IH.
    now rewrite IH.
Qed.

(** X5.  Indexing any array that is as long as the timestamps with [train_idx]
    and [test_idx] raises no [IndexError], and the two parts together hold
    every sample exactly once. *)
Theorem split_loses_no_sample {A : Type}
    (E : Env) (a : list A) (timestamps : list ts_raw) :
  List.length a = List.length timestamps ->
  exists tr te,
    take a (fst (chronological_split E timestamps)) = Some tr
    /\ take a (snd (chronological_split E timestamps)) = Some te
    /\ Permutation (tr ++ te) a
    /\ List.length tr = List.length (fst (chronological_split E timestamps))
    /\ List.length te = List.length (snd (chronological_split E timestamps)).
Proof.
  intros HL.
  set (tri := fst (chronological_split E timestamps)).
  set (tei := snd (chronological_split E timestamps)).
  assert (Happ : tri ++ tei = sorted_indices E timestamps)
    by apply firstn_skipn.
  pose proof (sorted_indices_perm E timestamps) as Hp. rewrite <- Happ in Hp.
  assert (F : Forall (fun i => (i < List.length a)%nat) (tri ++ tei)).
  { rewrite Forall_forall. intros i Hi.
    apply (Permutation_in _ Hp) in Hi. apply in_seq in Hi. lia. }
  apply Forall_app in F. destruct F as [F1 F2].
  apply take_some_iff in F1. destruct F1 as [tr Htr].
  apply take_some_iff in F2. destruct F2 as [te Hte].
  exists tr, te. split; [exact Htr|]. split; [exact Hte|].
  assert (Hlen : forall idx l, take a idx = Some l -> List.length l = List.length idx).
  { induction idx as [|i r IH]; cbn; intros l H.
    - injection H as <-. reflexivity.
    - destruct (nth_error a i); [|discriminate].
      destruct (take a r) as [xs|]; [|discriminate].
      injection H as <-. cbn. now rewrite (IH xs eq_refl). }
  split; [|split; [now apply Hlen|now apply Hlen]].
  apply (take_perm a (tri ++ tei) (seq 0 (List.length a))).
  - now rewrite HL.
  - now apply take_app.
  - apply (take_seq [] a).
Qed.

Lemma split_loses_no_sample_witness :
  exists tr te,
    take [10; 11; 12; 13; 14]%nat
         (fst (chronological_split (Demo.env io_ok) Demo.stamps)) = Some tr
    /\ take [10; 11; 12; 13; 14]%nat
            (snd (chronological_split (Demo.env io_ok) Demo.stamps)) = Some te
    /\ Permutation (tr ++ te) [10; 11; 12; 13; 14]%nat
    /\ List.length tr
       = List.length (fst (chronological_split (Demo.env io_ok) Demo.stamps))
    /\ List.length te
       = List.length (snd (chronological_split (Demo.env io_ok) Demo.stamps)).
Proof.
  apply (split_loses_no_sample (Demo.env io_ok) [10; 11; 12; 13; 14]%nat
           Demo.stamps).
  reflexivity.
Defined.

End SplitMore.

(** ** More on the orchestrator and the classifier wrapper *)

Section OrchestratorMore.

Import WeatherAIModel Spec.

Ltac done_run E ts X y force :=
  unfold train_model_from;
  destruct ((List.length (np_unique y) <? 2)%nat && negb force) eqn:Hrej;
    [discriminate|];
  cbv zeta;
  destruct (take X (fst (chronological_split E ts))) as [Xtr|] eqn:HXtr;
    [|discriminate];
  destruct (take X (snd (chronological_split E ts))) as [Xte|] eqn:HXte;
    [|discriminate];
  destruct (take y (fst (chronological_split E ts))) as [ytr|] eqn:Hytr;
    [|discriminate];
  destruct (take y (snd (chronological_split E ts))) as [yte|] eqn:Hyte;
    [|discriminate];
  let p := fresh "p" in
  set (p := augment E _ _);
  destruct (sklearn E _ _ _ _) as [| | |ev] eqn:Hsk; try discriminate;
  destruct (baseline_majority p) as [b|] eqn:Hb; [|discriminate];
  let st2 := fresh "st2" in
  match goal with
  | |- (if fst (save_model E ?s2) then _ else _) = _ -> _ => set (st2 := s2)
  end;
  destruct (fst (save_model E st2)) eqn:Hsave; [|discriminate];
  intros Hrun; injection Hrun as <-.

Lemma any_below_2_false (d : counts) :
  any_below_2 d = false -> forall c, In c d -> (2 <= snd c)%nat.
Proof.
  unfold any_below_2. intros H c Hc.
  destruct (snd c <? 2)%nat eqn:E; [|apply Nat.ltb_ge in E; exact E].
  assert (existsb (fun p => (snd p <? 2)%nat) d = true)
    by (apply existsb_exists; eauto).
  congruence.
Qed.

Lemma validity_gate_valid (m : eval_mode) (w : list string) (yt : list label) :
  fst (validity_gate m w yt) = VALID ->
  m = VALID
  /\ snd (validity_gate m w yt) = w
  /\ (2 <= List.length (np_unique yt))%nat
  /\ any_below_2 (counts_over (np_unique yt) yt) = false.
Proof.
  unfold validity_gate. cbv zeta.
  destruct (List.length (np_unique yt) <? 2)%nat eqn:E1;
    destruct (any_below_2 (counts_over (np_unique yt) yt)) eqn:E2;
    cbn; intros H; try discriminate H.
  apply Nat.ltb_ge in E1. auto.
Qed.

(** X6.  A run ends with a [VALID] report only when nothing spoke against it:
    no synthetic rows, no warning, two classes or more in the data and in
    the test set, each with two samples or more.  [NON_VALID] is never
    turned back into [VALID]. *)
Theorem valid_report_requirements
    (E : Env) (X : list fvec) (y : list label) (ts : list ts_raw)
    (force : bool) (st st' : ai_state) (r : report) :
  train_model_from E (Some (X, y, ts)) force st = (Done, st') ->
  last_metrics st' = metrics_report r ->
  rp_evaluation_mode r = VALID ->
  rp_metrics_trusted r = true
  /\ rp_synthetic_used r = false
  /\ rp_warnings r = []
  /\ (2 <= List.length (rp_labels r))%nat
  /\ (forall c, In c (rp_all_counts r) -> (2 <= snd c)%nat)
  /\ (2 <= List.length (rp_test_counts r))%nat
  /\ (forall c, In c (rp_test_counts r) -> (2 <= snd c)%nat).
Proof.
  done_run E ts X y force.
  destruct (save_model_keeps E st2) as (_ & Hl & _). rewrite Hl.
  unfold st2. cbn [last_metrics]. intros Hr. injection Hr as <-.
  cbn [build_report rp_evaluation_mode rp_metrics_trusted rp_synthetic_used
       rp_warnings rp_labels rp_all_counts rp_test_counts].
  intros Hv. apply validity_gate_valid in Hv as Hv'.
  destruct Hv' as (Hm & Hw & Hn & Ha).
  rewrite Hv, Hw.
  destruct (any_below_2 (counts_over (np_unique y) y)) eqn:Hab; [discriminate|].
  destruct ((List.length (np_unique y) <? 2)%nat && force) eqn:Hns;
    [discriminate|].
  assert (H2 : (2 <= List.length (np_unique y))%nat).
  { destruct (List.length (np_unique y) <? 2)%nat eqn:Elt.
    - destruct force; discriminate.
    - now apply Nat.ltb_ge in Elt. }
  split; [reflexivity|]. split; [reflexivity|]. split; [reflexivity|].
  split; [exact H2|]. split; [now apply any_below_2_false|].
  split; [|now apply any_below_2_false].
  unfold counts_over. now rewrite length_map.
Qed.

Lemma valid_report_requirements_witness :
  exists r,
    last_metrics
      (snd (train_model_from (Demo.env io_ok)
              (Some (Orphaned.rows (Demo.scenario 60))) false Demo.fresh))
    = metrics_report r
    /\ rp_evaluation_mode r = VALID
    /\ rp_metrics_trusted r = true
    /\ rp_synthetic_used r = false
    /\ rp_warnings r = []
    /\ (2 <= List.length (rp_labels r))%nat
    /\ (forall c, In c (rp_all_counts r) -> (2 <= snd c)%nat)
    /\ (2 <= List.length (rp_test_counts r))%nat
    /\ (forall c, In c (rp_test_counts r) -> (2 <= snd c)%nat).
Proof.
  eexists. split; [vm_compute; reflexivity|]. split; [reflexivity|].
  eapply (valid_report_requirements (Demo.env io_ok)
            (fst (fst (Orphaned.rows (Demo.scenario 60))))
            (snd (fst (Orphaned.rows (Demo.scenario 60))))
            (snd (Orphaned.rows (Demo.scenario 60))) false Demo.fresh).
  - vm_compute. reflexivity.
  - vm_compute. reflexivity.
  - reflexivity.
Defined.

(** X7.  A forced run on data of one class that reaches [Done] says so in its
    report: synthetic rows used, mode [NON_VALID], metrics untrusted and
    hidden; the training set has grown by the twelve synthetic rows at
    least, the test set is the one of the split. *)
Theorem forced_single_class_run
    (E : Env) (X : list fvec) (y : list label) (ts : list ts_raw)
    (st st' : ai_state) :
  (List.length (np_unique y) < 2)%nat ->
  train_model_from E (Some (X, y, ts)) true st = (Done, st') ->
  exists r tm sa,
    last_metrics st' = metrics_report r
    /\ rp_synthetic_used r = true
    /\ rp_evaluation_mode r = NON_VALID
    /\ rp_metrics_trusted r = false
    /\ rp_test_accuracy r = None
    /\ model_meta st' = Some (mk_meta (Some tm) sa)
    /\ (List.length (fst (chronological_split E ts)) + 12
        <= training_samples_train tm)%nat
    /\ training_samples_test tm
       = List.length (snd (chronological_split E ts)).
Proof.
  intros H1. apply Nat.ltb_lt in H1.
  done_run E ts X y true.
  destruct (save_model_keeps E st2) as (_ & Hl & _).
  assert (Hmeta : exists sa,
            model_meta (snd (save_model E st2))
            = Some (mk_meta (meta_train
                      match model_meta st2 with
                      | Some m => m | None => mk_meta None None end) sa)).
  { unfold save_model in *. destruct (fs_fault E); cbn in *; try discriminate.
    eexists. reflexivity. }
  destruct Hmeta as [sa Hmeta].
  eexists _, _, sa. rewrite Hl, Hmeta. unfold st2.
  cbn [last_metrics model_meta meta_train].
  split; [reflexivity|].
  cbn [build_report rp_synthetic_used rp_evaluation_mode rp_metrics_trusted
       rp_test_accuracy training_samples_train training_samples_test].
  rewrite H1. cbn [andb].
  assert (Hg : fst (validity_gate
                 (if any_below_2 (counts_over (np_unique y) y)
                  then NON_VALID else NON_VALID)
                 (if any_below_2 (counts_over (np_unique y) y)
                  then [warn_minor] else []) (y_test p)) = NON_VALID).
  { unfold validity_gate. cbv zeta. destruct (_ || _); cbn [fst];
      [reflexivity|].
    destruct (any_below_2 (counts_over (np_unique y) y)); reflexivity. }
  rewrite Hg. cbn [eval_mode_eqb].
  split; [reflexivity|]. split; [reflexivity|]. split; [reflexivity|].
  split; [reflexivity|]. split; [reflexivity|].
  assert (Hlen : forall (A : Type) (a : list A) idx l,
            take a idx = Some l -> List.length l = List.length idx).
  { intros A a. induction idx as [|i r IH]; cbn; intros l H.
    - injection H as <-. reflexivity.
    - destruct (nth_error a i); [|discriminate].
      destruct (take a r) as [xs|]; [|discriminate].
      injection H as <-. cbn. now rewrite (IH xs eq_refl). }
  split.
  - unfold p, augment. cbn [X_train y_train y_test X_test]. rewrite H1. cbn [andb].
    set (syn := _generate_synthetic_features E archetypes 3 0).
    destruct (oversample_minority_appends E (Xtr ++ fst syn) (ytr ++ snd syn)
                (5 * 3 * List.length archetypes)
                (min_train_samples_per_class E)) as (ex & ey & Heq & _).
    rewrite Heq. cbn [snd fst]. rewrite !length_app.
    rewrite (Hlen _ _ _ _ Hytr).
    assert (Hs : List.length (snd syn) = 12%nat).
    { unfold syn. rewrite <- (synthetic_lengths E archetypes 3 0).
      reflexivity. }
    rewrite Hs. cbn [training_samples_train]. lia.
  - unfold p, augment. cbn [y_test training_samples_test].
    apply (Hlen _ _ _ _ Hyte).
Qed.

Lemma forced_single_class_run_witness :
  exists r tm sa,
    last_metrics
      (snd (train_model_from (Demo.env io_ok)
              (Some (Orphaned.rows (Demo.single_class 6))) true Demo.fresh))
    = metrics_report r
    /\ rp_synthetic_used r = true
    /\ rp_evaluation_mode r = NON_VALID
    /\ rp_metrics_trusted r = false
    /\ rp_test_accuracy r = None
    /\ model_meta
         (snd (train_model_from (Demo.env io_ok)
                 (Some (Orphaned.rows (Demo.single_class 6))) true Demo.fresh))
       = Some (mk_meta (Some tm) sa)
    /\ (List.length
          (fst (chronological_split (Demo.env io_ok)
                  (snd (Orphaned.rows (Demo.single_class 6))))) + 12
        <= training_samples_train tm)%nat
    /\ training_samples_test tm
       = List.length
           (snd (chronological_split (Demo.env io_ok)
                   (snd (Orphaned.rows (Demo.single_class 6))))).
Proof.
  apply (forced_single_class_run (Demo.env io_ok)
           (fst (fst (Orphaned.rows (Demo.single_class 6))))
           (snd (fst (Orphaned.rows (Demo.single_class 6))))
           (snd (Orphaned.rows (Demo.single_class 6))) Demo.fresh).
  - vm_compute. lia.
  - vm_compute. reflexivity.
Defined.

(** *** What is on disk after a run, and loading it back *)

Lemma save_model_success (E : Env) (st : ai_state) (tm : train_meta)
    (sa : option Z) :
  model_meta st = Some (mk_meta (Some tm) sa) ->
  fst (save_model E st) = true ->
  fs (snd (save_model E st))
  = mk_disk (Some (model st)) (Some (scaler st))
            (Some (meta_whole (mk_meta (Some tm) (Some (iso_now E 1%nat)))))
  /\ model_meta (snd (save_model E st))
     = Some (mk_meta (Some tm) (Some (iso_now E 1%nat)))
  /\ accuracy (snd (save_model E st)) = accuracy st
  /\ model_trained_at (snd (save_model E st)) = model_trained_at st.
Proof.
  intros Hm. unfold save_model. rewrite Hm.
  destruct (fs_fault E); cbn; intros H; try discriminate H.
  repeat split.
Qed.

(** X8.  After a run that returns [True], what is on disk is what is in
    memory: model, scaler and metadata; the metadata carries the mode, the
    trust flag and the synthetic flag of the stored report, the size of the
    data, and the [accuracy] attribute is the reported test accuracy. *)
Theorem done_run_persists_what_it_reports
    (E : Env) (X : list fvec) (y : list label) (ts : list ts_raw)
    (force : bool) (st st' : ai_state) :
  train_model_from E (Some (X, y, ts)) force st = (Done, st') ->
  trained st' = true
  /\ model_file (fs st') = Some (model st')
  /\ scaler_file (fs st') = Some (scaler st')
  /\ meta_file (fs st') = option_map meta_whole (model_meta st')
  /\ exists r tm,
       last_metrics st' = metrics_report r
       /\ model_meta st' = Some (mk_meta (Some tm) (Some (iso_now E 1%nat)))
       /\ meta_evaluation_mode tm = rp_evaluation_mode r
       /\ meta_metrics_trusted tm = rp_metrics_trusted r
       /\ meta_synthetic_used tm = rp_synthetic_used r
       /\ training_samples tm = List.length y
       /\ training_seed tm = time_time E
       /\ accuracy st' = Some (rp_test_accuracy r).
Proof.
  done_run E ts X y force.
  destruct (save_model_keeps E st2) as (Ht & Hl & Hmo & Hsc).
  match goal with
  | st2 := mk_ai_state _ _ _ _ _ _ (Some (mk_meta (Some ?tm0) None)) _ |- _ =>
    destruct (save_model_success E st2 tm0 None eq_refl Hsave)
      as (Hfs & Hmm & Hacc & _)
  end.
  rewrite Ht, Hfs, Hmm, Hmo, Hsc, Hl, Hacc.
  split; [reflexivity|]. split; [reflexivity|]. split; [reflexivity|].
  split; [reflexivity|].
  eexists _, _. split; [reflexivity|]. split; [reflexivity|].
  unfold st2. cbn [accuracy]. unfold build_report.
  cbn [meta_evaluation_mode meta_metrics_trusted meta_synthetic_used
       training_samples training_seed rp_evaluation_mode rp_metrics_trusted
       rp_synthetic_used rp_test_accuracy].
  repeat split.
Qed.

Lemma done_run_persists_what_it_reports_witness :
  trained (snd (train_model_from (Demo.env io_ok)
                  (Some (Orphaned.rows (Demo.scenario 60))) false Demo.fresh))
  = true
  /\ model_file
       (fs (snd (train_model_from (Demo.env io_ok)
                   (Some (Orphaned.rows (Demo.scenario 60))) false Demo.fresh)))
     = Some (model
               (snd (train_model_from (Demo.env io_ok)
                       (Some (Orphaned.rows (Demo.scenario 60))) false
                       Demo.fresh))).
Proof.
  destruct (done_run_persists_what_it_reports (Demo.env io_ok)
              (fst (fst (Orphaned.rows (Demo.scenario 60))))
              (snd (fst (Orphaned.rows (Demo.scenario 60))))
              (snd (Orphaned.rows (Demo.scenario 60))) false Demo.fresh
              (snd (train_model_from (Demo.env io_ok)
                      (Some (Orphaned.rows (Demo.scenario 60))) false
                      Demo.fresh)))
    as (H1 & H2 & _).
  - vm_compute. reflexivity.
  - split; [exact H1|exact H2].
Defined.

(** X9.  A model object built after a save that returned [True] is the saved
    one: [__init__] loads the model and the scaler just written and sets
    [trained]. *)
Theorem save_then_load_round_trip (E : Env) (st : ai_state) :
  fst (save_model E st) = true ->
  model (init (fs (snd (save_model E st))) load_ok) = model st
  /\ scaler (init (fs (snd (save_model E st))) load_ok) = scaler st
  /\ trained (init (fs (snd (save_model E st))) load_ok) = true
  /\ fs (init (fs (snd (save_model E st))) load_ok) = fs (snd (save_model E st)).
Proof.
  unfold save_model.
  destruct (fs_fault E); cbn; intros H; try discriminate H;
    destruct (model_meta st) as [[[tm|] [sa|]]|]; cbn; repeat split.
Qed.

Lemma save_then_load_round_trip_witness :
  model (init (fs (snd (save_model (Demo.env io_ok) Demo.fresh))) load_ok)
  = model Demo.fresh
  /\ scaler (init (fs (snd (save_model (Demo.env io_ok) Demo.fresh))) load_ok)
     = scaler Demo.fresh
  /\ trained (init (fs (snd (save_model (Demo.env io_ok) Demo.fresh))) load_ok)
     = true
  /\ fs (init (fs (snd (save_model (Demo.env io_ok) Demo.fresh))) load_ok)
     = fs (snd (save_model (Demo.env io_ok) Demo.fresh)).
Proof.
  apply (save_then_load_round_trip (Demo.env io_ok) Demo.fresh). reflexivity.
Defined.

(** X10.  The save is atomic file by file, not for the pair.  When the scaler
    write fails over an older scaler file, [save_model] returns [False]
    with the new model file beside the old scaler file, and a model object
    built from those files loads that mixed pair as trained. *)
Theorem failed_scaler_write_leaves_mixed_pair
    (E : Env) (st : ai_state) (old : scaler_state) :
  fs_fault E = io_fail_scaler ->
  scaler_file (fs st) = Some old ->
  fst (save_model E st) = false
  /\ model (init (fs (snd (save_model E st))) load_ok) = model st
  /\ scaler (init (fs (snd (save_model E st))) load_ok) = old
  /\ trained (init (fs (snd (save_model E st))) load_ok) = true.
Proof.
  intros Hf Hold. unfold save_model. rewrite Hf. cbn.
  unfold init, load_model. cbn. rewrite Hold. repeat split.
Qed.

Lemma failed_scaler_write_leaves_mixed_pair_witness :
  fst (save_model (Demo.env io_fail_scaler) Demo.fresh) = false
  /\ model (init (fs (snd (save_model (Demo.env io_fail_scaler) Demo.fresh)))
              load_ok) = model Demo.fresh
  /\ scaler (init (fs (snd (save_model (Demo.env io_fail_scaler) Demo.fresh)))
               load_ok) = scaler_fit []
  /\ trained (init (fs (snd (save_model (Demo.env io_fail_scaler) Demo.fresh)))
                load_ok) = true.
Proof.
  apply (failed_scaler_write_leaves_mixed_pair (Demo.env io_fail_scaler)
           Demo.fresh (scaler_fit [])); reflexivity.
Defined.

(** *** Recommendations of the classifier wrapper *)

Lemma condition_tips_length (condition : string) :
  (1 <= List.length (dict_get condition_recommendations condition
                       ["Weather conditions normal"]) <= 3)%nat.
Proof.
  unfold condition_recommendations. cbn [dict_get].
  repeat match goal with
  | |- context [String.eqb ?a condition] => destruct (String.eqb a condition)
  end; cbn; lia.
Qed.

(** X11.  [get_recommendations] returns between one and five tips: those of the
    condition (or the default one) first, then at most one air-quality tip
    and at most one temperature tip; the cut to five never drops a tip. *)
Theorem recommendations_are_kept_whole
    (condition : string) (air_quality temp : option Q) :
  get_recommendations condition air_quality temp
  = recommendations_all condition air_quality temp
  /\ (1 <= List.length (get_recommendations condition air_quality temp) <= 5)%nat
  /\ exists extra,
       get_recommendations condition air_quality temp
       = dict_get condition_recommendations condition
           ["Weather conditions normal"] ++ extra
       /\ (List.length extra <= 2)%nat.
Proof.
  pose proof (condition_tips_length condition) as Hc.
  assert (Hall : exists extra,
            recommendations_all condition air_quality temp
            = dict_get condition_recommendations condition
                ["Weather conditions normal"] ++ extra
            /\ (List.length extra <= 2)%nat).
  { unfold recommendations_all.
    set (base := dict_get condition_recommendations condition _).
    destruct (Py.Qltb 400 _); [|destruct (Py.Qltb 300 _);
      [|destruct (Py.Qltb 200 _); [|destruct (Py.Qltb 100 _)]]];
      (destruct (Py.Qltb 35 _); [|destruct (Py.Qltb _ 5)]);
      rewrite <- ?app_assoc;
      try (eexists; split; [reflexivity|cbn; lia]);
      exists []; rewrite app_nil_r; split; [reflexivity|cbn; lia]. }
  destruct Hall as (extra & Heq & Hle).
  assert (Hlen : (List.length (recommendations_all condition air_quality temp)
                  <= 5)%nat).
  { rewrite Heq, length_app. lia. }
  assert (Hget : get_recommendations condition air_quality temp
                 = recommendations_all condition air_quality temp).
  { unfold get_recommendations. apply firstn_all2. exact Hlen. }
  rewrite Hget. split; [reflexivity|]. split.
  - rewrite Heq, length_app. lia.
  - exists extra. split; assumption.
Qed.

End OrchestratorMore.

(** ** The rules of the forecast engine *)

Section ForecastRules.

Import FuzzyForecastEngine.

Lemma max2_spec (c x : Q) :
  (Py.max2 c x = x /\ c < x) \/ (Py.max2 c x = c /\ x <= c).
Proof.
  unfold Py.max2. destruct (Py.Qltb c x) eqn:E.
  - apply Qltb_true in E. now left.
  - apply Qltb_false in E. now right.
Qed.

Lemma min2_spec (c x : Q) :
  (Py.min2 c x = x /\ x < c) \/ (Py.min2 c x = c /\ c <= x).
Proof.
  unfold Py.min2. destruct (Py.Qltb x c) eqn:E.
  - apply Qltb_true in E. now left.
  - apply Qltb_false in E. now right.
Qed.

Lemma max2_mono (c x y : Q) : x <= y -> Py.max2 c x <= Py.max2 c y.
Proof.
  intros H. destruct (max2_spec c x) as [[-> ?]|[-> ?]],
                     (max2_spec c y) as [[-> ?]|[-> ?]]; lra.
Qed.

Lemma min2_mono (c x y : Q) : x <= y -> Py.min2 c x <= Py.min2 c y.
Proof.
  intros H. destruct (min2_spec c x) as [[-> ?]|[-> ?]],
                     (min2_spec c y) as [[-> ?]|[-> ?]]; lra.
Qed.

Lemma clamp01_bounds (x : Q) : 0 <= Py.min2 1 (Py.max2 0 x) <= 1.
Proof.
  destruct (max2_spec 0 x) as [[-> ?]|[-> ?]];
    [destruct (min2_spec 1 x) as [[-> ?]|[-> ?]]
    |destruct (min2_spec 1 0) as [[-> ?]|[-> ?]]]; lra.
Qed.

Lemma Qdiv_mono (a b c : Q) : 0 < c -> a <= b -> a / c <= b / c.
Proof.
  intros Hc H. unfold Qdiv. apply Qmult_le_compat_r; [exact H|].
  apply Qlt_le_weak, Qinv_lt_0_compat, Hc.
Qed.

Lemma clamp01_mono (x y : Q) :
  x <= y -> Py.min2 1 (Py.max2 0 x) <= Py.min2 1 (Py.max2 0 y).
Proof. intros H. now apply min2_mono, max2_mono. Qed.



(** X13.  [rain_probability] is a percentage, and it does not fall when the
    humidity or the temperature rises at a given light level. *)
Theorem rain_probability_range_and_monotone
    (t1 t2 h1 h2 lux : Q) :
  0 <= rain_probability t1 h1 lux <= 100
  /\ (t1 <= t2 -> h1 <= h2 ->
      rain_probability t1 h1 lux <= rain_probability t2 h2 lux).
Proof.
  unfold rain_probability.
  set (hs1 := Py.min2 1 (Py.max2 0 ((h1 - 55) / 45))).
  set (hs2 := Py.min2 1 (Py.max2 0 ((h2 - 55) / 45))).
  set (ls := Py.min2 1 (Py.max2 0 ((10000 - lux) / 10000))).
  set (s1 := Py.min2 1 (Py.max2 0 ((t1 - 28) / 12))).
  set (s2 := Py.min2 1 (Py.max2 0 ((t2 - 28) / 12))).
  split.
  - match goal with
    | |- 0 <= Py.min2 1 (Py.max2 0 ?r) * 100 <= 100 =>
      pose proof (clamp01_bounds r)
    end. lra.
  - intros Ht Hh.
    assert (H1 : hs1 <= hs2)
      by (apply clamp01_mono, Qdiv_mono; [reflexivity|lra]).
    assert (H2 : s1 <= s2)
      by (apply clamp01_mono, Qdiv_mono; [reflexivity|lra]).
    assert (Hr : (55#100) * hs1 + (35#100) * ls + (10#100) * s1
                 <= (55#100) * hs2 + (35#100) * ls + (10#100) * s2) by lra.
    set (r1 := (55#100) * hs1 + (35#100) * ls + (10#100) * s1) in *.
    set (r2 := (55#100) * hs2 + (35#100) * ls + (10#100) * s2) in *.
    assert (forall a b, a <= b -> a * 100 <= b * 100) as Hm by (intros; lra).
    apply Hm.
    destruct (String.eqb (classify_light lux) "Terik").
    + apply clamp01_mono. lra.
    + destruct (String.eqb (classify_light lux) "Gelap").
      * apply clamp01_mono, min2_mono. lra.
      * now apply clamp01_mono.
Qed.

Lemma rain_probability_range_and_monotone_witness :
  0 <= rain_probability 30 30 200 <= 100
  /\ rain_probability 30 30 200 <= rain_probability 30 90 200.
Proof.
  destruct (rain_probability_range_and_monotone 30 30 30 90 200) as [H1 H2].
  split; [exact H1|]. apply H2; [apply Qle_refl|]. intros H; discriminate H.
Defined.



(** X15.  [recommendation] never falls back to "Pantau kondisi cuaca": it shows
    the weather tip, followed by one more at most, and the mask tip goes
    before the humidity tip, which is shown only when the air is below
    200. *)
Theorem recommendation_shows_two_at_most
    (wt : string) (temp_c humidity air_quality : Q) :
  exists w rest,
    recommendation_tips wt temp_c humidity air_quality = w :: rest
    /\ (List.length rest <= 2)%nat
    /\ recommendation wt temp_c humidity air_quality
       = (if Qle_bool 200 air_quality
          then String.append w " / Gunakan masker jika di luar"
          else if Qle_bool 85 humidity && negb (String.eqb wt "Hujan")
               then String.append w " / Udara lembap, kurangi aktivitas berat"
               else w).
Proof.
  unfold recommendation, recommendation_tips.
  destruct (String.eqb wt "Hujan"); [|destruct (String.eqb wt "Mendung");
    [|destruct (String.eqb wt "Berawan"); [|destruct (Qle_bool 32 temp_c)]]];
    destruct (Qle_bool 200 air_quality);
    destruct (Qle_bool 85 humidity);
    cbn; eexists _, _; (split; [reflexivity|split; [cbn; lia|reflexivity]]).
Qed.

End ForecastRules.

(** ** The three-hour forecast *)

Section ForecastThreeHours.

Import FuzzyForecastEngine Ingest Forecast.

(** *** Rounding *)

Lemma round0_floor (q : Q) :
  (Qfloor q <= Py.round0 q <= Qfloor q + 1)%Z.
Proof.
  unfold Py.round0. cbv zeta.
  destruct (Py.Qltb _ _); [lia|].
  destruct (Py.Qltb _ _); [lia|].
  destruct (Z.even _); lia.
Qed.


Lemma round0_mono (a b : Q) : a <= b -> (Py.round0 a <= Py.round0 b)%Z.
Proof.
  intros H. pose proof (Qfloor_resp_le _ _ H) as Hf.
  destruct (Z.eq_dec (Qfloor a) (Qfloor b)) as [He|Hne].
  - unfold Py.round0. cbv zeta. rewrite He.
    destruct (Py.Qltb (a - inject_Z (Qfloor b)) (1#2)) eqn:A1.
    + destruct (Py.Qltb (b - inject_Z (Qfloor b)) (1#2)); [lia|].
      destruct (Py.Qltb (1#2) (b - inject_Z (Qfloor b))); [lia|].
      destruct (Z.even (Qfloor b)); lia.
    + apply Qltb_false in A1.
      destruct (Py.Qltb (b - inject_Z (Qfloor b)) (1#2)) eqn:B1.
      { apply Qltb_true in B1. lra. }
      destruct (Py.Qltb (1#2) (a - inject_Z (Qfloor b))) eqn:A2.
      * apply Qltb_true in A2.
        destruct (Py.Qltb (1#2) (b - inject_Z (Qfloor b))) eqn:B2; [lia|].
        apply Qltb_false in B2. lra.
      * destruct (Py.Qltb (1#2) (b - inject_Z (Qfloor b))).
        -- destruct (Z.even (Qfloor b)); lia.
        -- lia.
  - pose proof (round0_floor a). pose proof (round0_floor b). lia.
Qed.

Lemma pow10_pos (nd : nat) : 0 < inject_Z (10 ^ Z.of_nat nd).
Proof.
  change 0 with (inject_Z 0). rewrite <- Zlt_Qlt.
  apply Z.pow_pos_nonneg; lia.
Qed.

Lemma round_nd_mono (a b : Q) (nd : nat) :
  a <= b -> Py.round_nd a nd <= Py.round_nd b nd.
Proof.
  intros H. unfold Py.round_nd. pose proof (pow10_pos nd) as Hp.
  apply Qdiv_mono; [exact Hp|].
  rewrite <- Zle_Qle. apply round0_mono.
  apply Qmult_le_compat_r; [exact H|lra].
Qed.


(** *** Confidence and time stamps *)





(** *** Projections *)

Lemma window_length (L : TimeLib) (base : Z) (f g : reading -> option Q)
    (d d' : Q) (history : list reading) :
  List.length (window L base f d history)
  = List.length (window L base g d' history).
Proof.
  unfold window. induction (Py.lastn 200 history) as [|item r IH].
  - reflexivity.
  - cbn [flat_map]. rewrite !length_app. f_equal; [|exact IH].
    destruct (parse_sensor_timestamp L (r_timestamp item)); [|reflexivity].
    destruct (_ || _); reflexivity.
Qed.

Lemma fit_linear_short (series : list (Z * Q)) :
  (List.length series < 3)%nat -> _fit_linear series = None.
Proof.
  intros H. unfold _fit_linear. apply Nat.ltb_lt in H. now rewrite H.
Qed.

Lemma clamp_inside (lo hi x : Q) :
  lo <= x -> x <= hi -> Py.min2 hi (Py.max2 lo x) == x.
Proof.
  intros H1 H2.
  destruct (max2_spec lo x) as [[-> ?]|[-> ?]];
    [destruct (min2_spec hi x) as [[-> ?]|[-> ?]]
    |destruct (min2_spec hi lo) as [[-> ?]|[-> ?]]]; lra.
Qed.

Lemma clamp_range (lo hi x : Q) :
  lo <= hi -> lo <= Py.min2 hi (Py.max2 lo x) <= hi.
Proof.
  intros H.
  destruct (max2_spec lo x) as [[-> ?]|[-> ?]];
    [destruct (min2_spec hi x) as [[-> ?]|[-> ?]]
    |destruct (min2_spec hi lo) as [[-> ?]|[-> ?]]]; lra.
Qed.

(** X18.  With fewer than three readings of the last thirty minutes in the
    history there is no trend: the three hourly points all carry the
    current temperature, humidity and light, brought into their ranges,
    and the rain probability, weather type and light class that follow
    from them. *)
Theorem forecast_without_trend_is_flat
    (L : TimeLib) (latest : reading) (history : list reading) :
  (List.length (window L (base_ts_utc L latest) r_temperature
                  (_to_float (r_temperature latest) 0) history) < 3)%nat ->
  let tc := Py.min2 60 (Py.max2 (-10) (_to_float (r_temperature latest) 0)) in
  let hc := Py.min2 100 (Py.max2 0 (_to_float (r_humidity latest) 0)) in
  let lc := Py.min2 200000
              (Py.max2 0 (_to_float (r_light_intensity latest) 0)) in
  Forall (fun p =>
            fp_temperature p = Py.round_nd tc 2
            /\ fp_humidity p = Py.round_nd hc 2
            /\ fp_light_intensity p = Py.round_nd lc 2
            /\ fp_rain_probability p
               = Py.round_nd (rain_probability tc hc lc) 1
            /\ fp_weather_type p = weather_type (rain_probability tc hc lc) lc
            /\ fp_light_label p = classify_light lc)
         (hourly_forecast (forecast_3h L latest history))
  /\ (-10 <= _to_float (r_temperature latest) 0 <= 60 ->
      tc == _to_float (r_temperature latest) 0)
  /\ (0 <= _to_float (r_humidity latest) 0 <= 100 ->
      hc == _to_float (r_humidity latest) 0)
  /\ (0 <= _to_float (r_light_intensity latest) 0 <= 200000 ->
      lc == _to_float (r_light_intensity latest) 0).
Proof.
  intros Hshort tc hc lc.
  split; [|split; [|split]];
    try (intros [H1 H2]; apply clamp_inside; assumption).
  unfold forecast_3h. cbv zeta. cbn [hourly_forecast].
  rewrite (fit_linear_short _ Hshort).
  rewrite (window_length L _ r_temperature r_humidity
             (_to_float (r_temperature latest) 0)
             (_to_float (r_humidity latest) 0) history) in Hshort.
  rewrite (fit_linear_short _ Hshort).
  rewrite (window_length L _ r_humidity r_light_intensity
             (_to_float (r_humidity latest) 0)
             (_to_float (r_light_intensity latest) 0) history) in Hshort.
  rewrite (fit_linear_short _ Hshort).
  cbn [map fst snd]. unfold hourly_point, project.
  cbn [fst snd fp_temperature fp_humidity fp_light_intensity
       fp_rain_probability fp_weather_type fp_light_label predict_val].
  fold tc hc lc.
  repeat constructor.
Qed.

Lemma forecast_without_trend_is_flat_witness :
  Forall (fun p =>
            fp_temperature p = Py.round_nd (Py.min2 60 (Py.max2 (-10) 24)) 2
            /\ fp_humidity p = Py.round_nd (Py.min2 100 (Py.max2 0 50)) 2)
         (hourly_forecast
            (forecast_3h Demo.timelib (Demo.scenario_reading 1) [])).
Proof.
  destruct (forecast_without_trend_is_flat Demo.timelib
              (Demo.scenario_reading 1) []) as [H _].
  - cbn. lia.
  - eapply Forall_impl; [|exact H].
    intros p (H1 & H2 & _). split; [exact H1|exact H2].
Defined.

(** *** Ranges and the predicted rain time *)

Lemma predict_val_range (now_val : Q) (fit : option (Q * Q)) (h : Z)
    (lo hi : Q) :
  lo <= hi -> lo <= predict_val now_val fit h (Some lo) (Some hi) <= hi.
Proof. intros H. unfold predict_val. destruct fit as [[a b]|]; now apply clamp_range. Qed.

Lemma rain_range (t h l : Q) : 0 <= rain_probability t h l <= 100.
Proof.
  unfold rain_probability. cbv zeta.
  match goal with
  | |- 0 <= Py.min2 1 (Py.max2 0 ?r) * 100 <= 100 =>
    pose proof (clamp01_bounds r)
  end. lra.
Qed.

Lemma round_nd_inside (x lo hi : Q) (nd : nat) :
  Py.round_nd lo nd == lo -> Py.round_nd hi nd == hi ->
  lo <= x <= hi -> lo <= Py.round_nd x nd <= hi.
Proof.
  intros Hlo Hhi [H1 H2].
  pose proof (round_nd_mono lo x nd H1). pose proof (round_nd_mono x hi nd H2).
  lra.
Qed.

(** X19.  Every hourly point stays in range, also after rounding: temperature
    in [-10, 60], humidity in [0, 100], light in [0, 200000], rain
    probability in [0, 100]. *)
Theorem forecast_values_in_range
    (L : TimeLib) (latest : reading) (history : list reading) :
  Forall (fun p =>
            -10 <= fp_temperature p <= 60
            /\ 0 <= fp_humidity p <= 100
            /\ 0 <= fp_light_intensity p <= 200000
            /\ 0 <= fp_rain_probability p <= 100)
         (hourly_forecast (forecast_3h L latest history)).
Proof.
  assert (Hp : forall base bc h v,
            let t := predict_val (fst (fst v)) (fst (snd v)) (h * 60)
                       (Some (-10)) (Some 60) in
            forall hu l,
            hu = predict_val (snd (fst v)) (snd (snd v)) (h * 60)
                   (Some 0) (Some 100) ->
            (exists n f, l = predict_val n f (h * 60) (Some 0) (Some 200000)) ->
            let p := hourly_point base bc h (t, hu, l, rain_probability t hu l) in
            -10 <= fp_temperature p <= 60
            /\ 0 <= fp_humidity p <= 100
            /\ 0 <= fp_light_intensity p <= 200000
            /\ 0 <= fp_rain_probability p <= 100).
  { intros base bc h v t hu l -> (n & f & ->) p. unfold p, hourly_point.
    cbn [fst snd fp_temperature fp_humidity fp_light_intensity
         fp_rain_probability].
    split; [|split; [|split]]; apply round_nd_inside;
      try reflexivity;
      first [apply rain_range
            |apply predict_val_range; intros H; discriminate H]. }
  unfold forecast_3h. cbv zeta. cbn [hourly_forecast map fst snd].
  unfold project.
  repeat (constructor;
          [match goal with
           | |- context [hourly_point ?b ?c ?h (predict_val ?n1 ?f1 _ _ _, _, _, _)] =>
             match goal with
             | |- context [predict_val ?n2 ?f2 _ (Some 0) (Some 100)] =>
               apply (Hp b c h ((n1, n2), (f1, f2))); [reflexivity|eauto]
             end
           end|]).
  constructor.
Qed.

(** X20.  [predicted_rain_time] is the time stamp of the first hourly point
    whose rain probability reaches 60; the points before it show 60 at
    most.  It is [None] only when no point shows more than 60. *)
Theorem predicted_rain_time_is_first_rainy_hour
    (L : TimeLib) (latest : reading) (history : list reading) :
  match predicted_rain_time (forecast_3h L latest history) with
  | None =>
    Forall (fun p => fp_rain_probability p <= 60)
           (hourly_forecast (forecast_3h L latest history))
  | Some t =>
    exists before p after,
      hourly_forecast (forecast_3h L latest history) = before ++ p :: after
      /\ fp_timestamp p = t
      /\ 60 <= fp_rain_probability p
      /\ Forall (fun q => fp_rain_probability q <= 60) before
  end.
Proof.
  unfold forecast_3h. cbv zeta. cbn [hourly_forecast predicted_rain_time].
  set (pr := project _ _ _ _ _ _).
  set (base := base_ts_utc L latest). set (bc := base_conf _).
  assert (Hge : forall v : Q * Q * Q * Q, Qle_bool 60 (snd v) = true ->
                  60 <= Py.round_nd (snd v) 1).
  { intros v H. apply Qle_bool_iff in H.
    pose proof (round_nd_mono 60 (snd v) 1 H) as Hm.
    assert (Py.round_nd 60 1 == 60) as He by reflexivity. lra. }
  assert (Hlt : forall v : Q * Q * Q * Q, Qle_bool 60 (snd v) = false ->
                  Py.round_nd (snd v) 1 <= 60).
  { intros v H.
    assert (snd v <= 60) as Hv.
    { destruct (Qlt_le_dec 60 (snd v)) as [Hc|Hc]; [|exact Hc].
      apply Qlt_le_weak, Qle_bool_iff in Hc. congruence. }
    pose proof (round_nd_mono (snd v) 60 1 Hv) as Hm.
    assert (Py.round_nd 60 1 == 60) as He by reflexivity. lra. }
  cbn [map first_rain fst snd].
  destruct (Qle_bool 60 (snd (pr 1%Z))) eqn:E1.
  { eexists [], (hourly_point base bc 1 (pr 1%Z)), _.
    split; [reflexivity|]. split; [reflexivity|].
    split; [apply Hge, E1|constructor]. }
  destruct (Qle_bool 60 (snd (pr 2%Z))) eqn:E2.
  { eexists [hourly_point base bc 1 (pr 1%Z)],
            (hourly_point base bc 2 (pr 2%Z)), _.
    split; [reflexivity|]. split; [reflexivity|].
    split; [apply Hge, E2|]. repeat constructor. apply Hlt, E1. }
  destruct (Qle_bool 60 (snd (pr 3%Z))) eqn:E3.
  { exists [hourly_point base bc 1 (pr 1%Z); hourly_point base bc 2 (pr 2%Z)],
           (hourly_point base bc 3 (pr 3%Z)), [].
    split; [reflexivity|]. split; [reflexivity|].
    split; [apply Hge, E3|].
    repeat constructor; [apply Hlt, E1|apply Hlt, E2]. }
  repeat constructor; apply Hlt; assumption.
Qed.

End ForecastThreeHours.

(** ** A level series has no slope *)

Section LevelSeries.

Import FuzzyForecastEngine Spec.

Lemma sum_constant (ys : list Q) (v : Q) :
  (forall y, In y ys -> y == v) ->
  Py.sum ys == inject_Z (Z.of_nat (List.length ys)) * v.
Proof.
  induction ys as [|y r IH]; intros H.
  - cbn. ring.
  - cbn [Py.sum fold_right List.length]. fold (Py.sum r).
    rewrite IH by (intros y' Hy; apply H; now right).
    rewrite (H y (or_introl eq_refl)), inject_S. ring.
Qed.

Lemma sum_products_constant (pts : list (Q * Q)) (v : Q) :
  (forall p, In p pts -> snd p == v) ->
  Py.sum (map (fun p => fst p * snd p) pts) == v * Py.sum (map fst pts).
Proof.
  induction pts as [|p r IH]; intros H.
  - cbn. ring.
  - cbn [map Py.sum fold_right].
    fold (Py.sum (map (fun p => fst p * snd p) r)). fold (Py.sum (map fst r)).
    rewrite IH by (intros p' Hp; apply H; now right).
    rewrite (H p (or_introl eq_refl)). ring.
Qed.

Lemma recent_incl (series : list (Z * Q)) (p : Z * Q) :
  In p (recent series) -> In p series.
Proof.
  unfold recent, Py.lastn. intros H.
  apply (Permutation_in _ (sorted_perm fst series)).
  rewrite <- (firstn_skipn (List.length (Py.sorted fst series) - 30)
                (Py.sorted fst series)).
  apply in_or_app. right. exact H.
Qed.

(** X16.  When every point of the series has the same value, a fit, if there is
    one, is the level line: slope 0 and that value as intercept, so the
    projection of a level history is level. *)
Theorem fit_of_level_series (series : list (Z * Q)) (v a b : Q) :
  (forall p, In p series -> snd p == v) ->
  _fit_linear series = Some (a, b) ->
  a == 0 /\ b == v
  /\ forall now_val h, predict_val now_val (Some (a, b)) h None None == v.
Proof.
  intros Hv Hfit.
  assert (H3 : (3 <= List.length series)%nat).
  { destruct (Nat.lt_ge_cases (List.length series) 3) as [H|H]; [|exact H].
    unfold _fit_linear in Hfit. apply Nat.ltb_lt in H. rewrite H in Hfit.
    discriminate Hfit. }
  rewrite (fit_linear_unfold series H3) in Hfit.
  set (pts := fitted_points series) in *.
  set (xs := map fst pts) in *.
  destruct (Py.Qltb (- (1#2)) (Py.max_list 0 xs - Py.min_list 0 xs)
            && Py.Qltb (Py.max_list 0 xs - Py.min_list 0 xs) (1#2)) eqn:Hg;
    [discriminate Hfit|].
  assert (Hne : xs <> []).
  { unfold xs, pts. rewrite fitted_abscissae. intros Hn.
    apply map_eq_nil in Hn. revert Hn. apply recent_nonempty. lia. }
  pose proof (spread_nonneg 0 xs Hne) as Hsp.
  assert (Hfar : 1#2 <= Py.max_list 0 xs - Py.min_list 0 xs).
  { apply andb_false_iff in Hg. destruct Hg as [Hg|Hg].
    - apply Qltb_false in Hg. lra.
    - now apply Qltb_false in Hg. }
  destruct (spread_members 0 xs Hne) as [HM Hm].
  assert (HD : 0 < lsq_den xs).
  { apply (lsq_den_pos xs _ _ HM Hm). intros Heq. rewrite Heq in Hfar. lra. }
  assert (Hys : forall p, In p pts -> snd p == v).
  { intros p Hp. unfold pts, fitted_points in Hp.
    apply in_map_iff in Hp. destruct Hp as (q & <- & Hq). cbn.
    apply Hv, recent_incl, Hq. }
  assert (Hn : 0 < inject_Z (Z.of_nat (List.length xs))).
  { apply length_pos_inject. destruct xs; [congruence|cbn; lia]. }
  unfold np_polyfit1 in Hfit. fold xs in Hfit.
  destruct xs as [|x0 xr] eqn:Hx; [congruence|]. rewrite <- Hx in *.
  injection Hfit as Ha Hb.
  assert (Hsy : Py.sum (map snd pts)
                == inject_Z (Z.of_nat (List.length xs)) * v).
  { rewrite sum_constant with (v := v).
    - unfold xs. now rewrite !length_map.
    - intros y Hy. apply in_map_iff in Hy. destruct Hy as (p & <- & Hp).
      now apply Hys. }
  assert (Hsxy : Py.sum (map (fun p => fst p * snd p) (combine xs (map snd pts)))
                 == v * Py.sum xs).
  { unfold xs. rewrite combine_fst_snd. now apply sum_products_constant. }
  assert (Ha0 : a == 0).
  { rewrite <- Ha, Hsxy, Hsy. field. lra. }
  assert (Hbv : b == v).
  { rewrite <- Hb, Ha, Ha0, Hsy. field. lra. }
  split; [exact Ha0|]. split; [exact Hbv|].
  intros now_val h. cbn. rewrite Ha0, Hbv. ring.
Qed.

Lemma fit_of_level_series_witness :
  exists a b,
    _fit_linear Demo.level_series = Some (a, b)
    /\ a == 0 /\ b == 20
    /\ forall now_val h, predict_val now_val (Some (a, b)) h None None == 20.
Proof.
  eexists. eexists. split; [vm_compute; reflexivity|].
  apply (fit_of_level_series Demo.level_series 20).
  - intros p Hp. cbn in Hp.
    destruct Hp as [<-|[<-|[<-|[]]]]; reflexivity.
  - vm_compute. reflexivity.
Defined.

End LevelSeries.

(** ** The guard can be taken again *)

Section GuardMore.

Import WeatherAIModel Server Spec.

(** X21.  Once the live worker has ended, the next trigger that passes the
    readiness gate starts a run again: the guard does not stay taken. *)
Theorem guard_is_free_after_the_run
    (ai : ai_state) (threshold : nat) (es : list event)
    (E : Env) (escapes f : bool) :
  workers (run (boot ai threshold) es) <> [] ->
  passes_gate f (_run_train E escapes (run (boot ai threshold) es)) = true ->
  fst (train_ai_model f (_run_train E escapes (run (boot ai threshold) es)))
  = training_started
  /\ List.length
       (workers (snd (train_ai_model f
                        (_run_train E escapes (run (boot ai threshold) es)))))
     = 1%nat.
Proof.
  intros Hw Hg. set (s := run (boot ai threshold) es) in *.
  assert (Hs : single_flight s) by apply run_keeps_guard, boot_single_flight.
  pose proof (run_train_keeps_guard E escapes s Hs) as [Hlen Hflag].
  pose proof (run_train_clears_flag E escapes s Hw) as Hclear.
  assert (Hnil : workers (_run_train E escapes s) = []).
  { destruct (workers (_run_train E escapes s)) eqn:Ew; [reflexivity|].
    assert (ai_training_in_progress (_run_train E escapes s) = true)
      by (apply Hflag; discriminate).
    congruence. }
  unfold train_ai_model. unfold passes_gate in Hg.
  destruct (fst (ai_ready_for_training (_run_train E escapes s))), f;
    cbn in Hg; try discriminate Hg; cbn; rewrite Hclear; cbn;
    rewrite Hnil; split; reflexivity.
Qed.

Lemma guard_is_free_after_the_run_witness :
  fst (train_ai_model true
         (_run_train (Demo.env io_ok) false
            (run (boot Demo.fresh 100)
               (map Reading (Demo.scenario 60) ++ [Trigger true]))))
  = training_started
  /\ List.length
       (workers (snd (train_ai_model true
                        (_run_train (Demo.env io_ok) false
                           (run (boot Demo.fresh 100)
                              (map Reading (Demo.scenario 60)
                               ++ [Trigger true]))))))
     = 1%nat.
Proof.
  apply (guard_is_free_after_the_run Demo.fresh 100
           (map Reading (Demo.scenario 60) ++ [Trigger true])
           (Demo.env io_ok) false true).
  - vm_compute. discriminate.
  - vm_compute. reflexivity.
Defined.

End GuardMore.

(** ** When the device was last seen *)

Section Presence.

Import Ingest Spec.

Lemma normalize_ts_some (dt : datetime) :
  exists n, normalize_ts (Some dt) = Some n
            /\ wall n = utc_us 0 dt /\ tz n = None.
Proof.
  destruct dt as [w [o|]]; cbn [normalize_ts tz wall];
    (eexists; split; [reflexivity|]; split;
     [unfold utc_us; cbn [wall tz]; lia|reflexivity]).
Qed.

Lemma normalize_ts_naive (ts : option datetime) (n : datetime) :
  normalize_ts ts = Some n -> tz n = None.
Proof.
  destruct ts as [dt|]; [|discriminate].
  destruct (normalize_ts_some dt) as (n' & E & _ & Ht).
  rewrite E. now intros [= <-].
Qed.

Lemma update_instant (L : TimeLib) (r : reading) (last : option datetime) :
  option_map (utc_us 0) (update_last_seen_from_reading L r last)
  = omax (option_map (utc_us 0) last) (reading_instant L r).
Proof.
  unfold update_last_seen_from_reading, reading_instant.
  destruct (normalize_ts (parse_sensor_timestamp L (r_timestamp r)))
    as [ts|] eqn:Ets.
  - pose proof (normalize_ts_naive _ _ Ets) as Hn.
    assert (Hts : utc_us 0 ts = wall ts) by (unfold utc_us; rewrite Hn; lia).
    destruct last as [l|]; cbn [option_map omax].
    + destruct (normalize_ts_some l) as (n & En & Hw & Hz).
      rewrite En.
      assert (Hnw : utc_us 0 n = wall n) by (unfold utc_us; rewrite Hz; lia).
      destruct (wall n <? wall ts)%Z eqn:Hc; cbn [option_map].
      * apply Z.ltb_lt in Hc. f_equal. lia.
      * apply Z.ltb_ge in Hc. f_equal. lia.
    + now rewrite Hts.
  - destruct last; reflexivity.
Qed.

Lemma feed_instant (L : TimeLib) (rs : list reading) (last : option datetime) :
  option_map (utc_us 0) (feed L rs last)
  = fold_left omax (map (reading_instant L) rs) (option_map (utc_us 0) last).
Proof.
  unfold feed. revert last.
  induction rs as [|r rs IH]; intros last; cbn [fold_left map]; [reflexivity|].
  rewrite IH, update_instant. reflexivity.
Qed.

Lemma omax_swap (a b c : option Z) : omax (omax a b) c = omax (omax a c) b.
Proof. destruct a, b, c; cbn; try reflexivity; f_equal; lia. Qed.

Lemma fold_omax_perm (l l' : list (option Z)) (a : option Z) :
  Permutation l l' -> fold_left omax l a = fold_left omax l' a.
Proof.
  intros P. revert a.
  induction P as [|x l l' _ IH|x y l|l l' l'' _ IH1 _ IH2]; intros a; cbn.
  - reflexivity.
  - apply IH.
  - now rewrite omax_swap.
  - now rewrite IH1.
Qed.

Lemma fold_omax_grows (l : list (option Z)) (x : Z) :
  exists y, fold_left omax l (Some x) = Some y /\ (x <= y)%Z.
Proof.
  revert x. induction l as [|[b|] l IH]; intros x; cbn.
  - exists x. split; [reflexivity|lia].
  - destruct (IH (Z.max x b)) as (y & E & H). exists y. split; [exact E|lia].
  - apply IH.
Qed.

Lemma fold_omax_covers (l : list (option Z)) (a : option Z) (t : Z) :
  In (Some t) l ->
  exists y, fold_left omax l a = Some y /\ (t <= y)%Z.
Proof.
  revert a. induction l as [|b l IH]; intros a Hin; [destruct Hin|].
  destruct Hin as [->|Hin].
  - cbn [fold_left].
    assert (E : exists z, omax a (Some t) = Some z /\ (t <= z)%Z).
    { destruct a as [x|]; cbn; eexists; (split; [reflexivity|lia]). }
    destruct E as (z & -> & Hz).
    destruct (fold_omax_grows l z) as (y & E & H).
    exists y. split; [exact E|lia].
  - cbn [fold_left]. now apply IH.
Qed.

(** X22.  The instant the server holds as last seen after a batch of readings
    does not depend on the order the readings are taken in. *)
Theorem last_seen_in_any_order
    (L : TimeLib) (rs rs' : list reading) (last : option datetime) :
  Permutation rs rs' ->
  option_map (utc_us 0) (feed L rs last)
  = option_map (utc_us 0) (feed L rs' last).
Proof.
  intros P. rewrite !feed_instant.
  apply fold_omax_perm, Permutation_map, P.
Qed.

Lemma last_seen_in_any_order_witness :
  option_map (utc_us 0)
    (feed Demo.clock [Demo.stamped 1700000000; Demo.stamped 1699999990] None)
  = option_map (utc_us 0)
      (feed Demo.clock [Demo.stamped 1699999990; Demo.stamped 1700000000] None).
Proof.
  apply (last_seen_in_any_order Demo.clock
           [Demo.stamped 1700000000; Demo.stamped 1699999990]
           [Demo.stamped 1699999990; Demo.stamped 1700000000] None).
  apply perm_swap.
Defined.

(** X23.  Readings never move the last-seen instant back: whatever their
    timestamps, a server that has seen the device keeps an instant that is
    at least the one it had. *)
Theorem last_seen_never_moves_back
    (L : TimeLib) (rs : list reading) (l : datetime) :
  exists l', feed L rs (Some l) = Some l'
             /\ (utc_us 0 l <= utc_us 0 l')%Z.
Proof.
  pose proof (feed_instant L rs (Some l)) as E. cbn [option_map] in E.
  destruct (fold_omax_grows (map (reading_instant L) rs) (utc_us 0 l))
    as (y & Ey & Hy).
  rewrite Ey in E.
  destruct (feed L rs (Some l)) as [l'|]; [|discriminate E].
  exists l'. split; [reflexivity|]. cbn in E. injection E as ->. exact Hy.
Qed.

Lemma connected_within_a_second
    (L : TimeLib) (setting : option Z) (seen : datetime) :
  (utcnow L - utc_us 0 seen <= 1000000)%Z ->
  fst (get_esp32_connection_state L setting (Some seen)) = true.
Proof.
  intros H. unfold get_esp32_connection_state.
  destruct (normalize_ts_some seen) as (n & -> & Hw & _).
  cbn [fst]. rewrite Hw. apply Qle_bool_iff.
  set (thr := match setting with Some t => t | None => 15%Z end).
  assert (Ht : 1 <= inject_Z (if (thr <? 1)%Z then 1%Z else thr)).
  { replace 1 with (inject_Z 1) by reflexivity. rewrite <- Zle_Qle.
    destruct (thr <? 1)%Z eqn:E; [lia|]. apply Z.ltb_ge in E. exact E. }
  assert (Hd : inject_Z (utcnow L - utc_us 0 seen) <= 1000000).
  { replace 1000000 with (inject_Z 1000000) by reflexivity.
    now rewrite <- Zle_Qle. }
  apply Qle_trans with (y := 1); [|exact Ht].
  apply Qle_shift_div_r; lra.
Qed.

(** X24.  A batch that holds a reading stamped at most a second before the
    clock leaves the device reported as connected, whatever the configured
    offline threshold and whatever the server had seen before. *)
Theorem fresh_reading_reports_connected
    (L : TimeLib) (setting : option Z) (rs : list reading) (r : reading)
    (last : option datetime) (t : Z) :
  In r rs ->
  reading_instant L r = Some t ->
  (utcnow L - t <= 1000000)%Z ->
  fst (get_esp32_connection_state L setting (feed L rs last)) = true.
Proof.
  intros Hin Ht Hnow.
  pose proof (feed_instant L rs last) as E.
  destruct (fold_omax_covers (map (reading_instant L) rs)
              (option_map (utc_us 0) last) t) as (y & Ey & Hy).
  { rewrite <- Ht. now apply in_map. }
  rewrite Ey in E.
  destruct (feed L rs last) as [l'|]; [|discriminate E].
  cbn in E. injection E as E.
  apply connected_within_a_second. lia.
Qed.

Lemma fresh_reading_reports_connected_witness :
  fst (get_esp32_connection_state Demo.clock (Some 0%Z)
         (feed Demo.clock [Demo.stamped 1699999990; Demo.stamped 1700000000]
            None)) = true.
Proof.
  apply (fresh_reading_reports_connected Demo.clock (Some 0%Z)
           [Demo.stamped 1699999990; Demo.stamped 1700000000]
           (Demo.stamped 1700000000) None 1700000000000000).
  - right. left. reflexivity.
  - vm_compute. reflexivity.
  - vm_compute. discriminate.
Defined.

End Presence.

(** ** Payload validation *)

Section Payload.

Import Ingest Spec.

(** X25.  The validator rejects a payload for one reason only: it has neither a
    [temperature] nor a [temp_c] key and its [temp_milli] cannot be read
    as a number.  A payload that went through the required-field check of
    the sensor endpoint is therefore never rejected here. *)
Theorem invalid_only_for_unreadable_temp_milli (p : payload) :
  (snd (validate_and_normalize_sensor_payload p) <> []
   <-> p_temperature p = None /\ p_temp_c p = None
       /\ exists m, p_temp_milli p = Some m /\ jv_float m = None)
  /\ (snd (validate_and_normalize_sensor_payload p) <> [] ->
      snd (validate_and_normalize_sensor_payload p) = ["temp_milli invalid"]).
Proof.
  unfold validate_and_normalize_sensor_payload. cbn [snd].
  destruct (p_temperature p) as [t|] eqn:Et.
  - cbn. split; [split|]; [congruence|intros (H & _); discriminate H|congruence].
  - destruct (p_temp_c p) as [c|] eqn:Ec.
    + cbn. split; [split|];
        [congruence|intros (_ & H & _); discriminate H|congruence].
    + destruct (p_temp_milli p) as [m|] eqn:Em.
      * destruct (jv_float m) as [x|] eqn:Ef; cbn.
        -- split; [split|]; [congruence| |congruence].
           intros (_ & _ & m' & [= <-] & Hm). congruence.
        -- split; [split|]; [|discriminate|reflexivity].
           intros _. repeat split. exists m. split; [reflexivity|exact Ef].
      * cbn. split; [split|]; [congruence| |congruence].
        intros (_ & _ & m' & Hm & _). discriminate Hm.
Qed.

Lemma warned_in (msg : string) (c : bool) (pre : list string) :
  ~ In msg (pre ++ (if c then [msg] else [])) -> c = false.
Proof.
  destruct c; [|reflexivity]. intros H. exfalso. apply H.
  apply in_or_app. right. left. reflexivity.
Qed.

Lemma flt_above_false (c : Q) (v : Py.pyfloat) :
  Py.flt (Py.Fin c) v = false ->
  v = Py.NaN \/ v = Py.NegInf \/ exists q, v = Py.Fin q /\ q <= c.
Proof.
  destruct v as [q| | |]; cbn; intros H; try discriminate H.
  - right. right. exists q. split; [reflexivity|]. now apply Qltb_false.
  - right. left. reflexivity.
  - left. reflexivity.
Qed.

Lemma flt_below_false (c : Q) (v : Py.pyfloat) :
  Py.flt v (Py.Fin c) = false ->
  v = Py.NaN \/ v = Py.PosInf \/ exists q, v = Py.Fin q /\ c <= q.
Proof.
  destruct v as [q| | |]; cbn; intros H; try discriminate H.
  - right. right. exists q. split; [reflexivity|]. now apply Qltb_false.
  - right. left. reflexivity.
  - left. reflexivity.
Qed.

Lemma between_guards (lo hi : Q) (v : Py.pyfloat) :
  Py.flt v (Py.Fin lo) || Py.flt (Py.Fin hi) v = false ->
  nan_or_between lo hi v.
Proof.
  intros H. apply orb_false_iff in H. destruct H as [H1 H2].
  apply flt_below_false in H1. apply flt_above_false in H2.
  destruct H1 as [->|[->|(q & -> & Hq)]].
  - left. reflexivity.
  - destruct H2 as [H|[H|(q' & H & _)]]; discriminate H.
  - destruct H2 as [H|[H|(q' & H & Hq')]]; try discriminate H.
    injection H as <-. right. exists q. split; [reflexivity|].
    split; assumption.
Qed.

Lemma abs_guard (c : Q) (v : Py.pyfloat) :
  Py.flt (Py.Fin c) (Py.fabs v) = false -> nan_or_between (- c) c v.
Proof.
  destruct v as [q| | |]; cbn; intros H; try discriminate H.
  - right. exists q. split; [reflexivity|].
    apply Qltb_false in H. now apply Qabs_Qle_condition.
  - left. reflexivity.
Qed.

Lemma check_temperature_sound (t : option (option Py.pyfloat))
    (v : Py.pyfloat) :
  fst (check_temperature t) = Some (Some v) ->
  ~ In "temperature out-of-range" (snd (check_temperature t)) ->
  nan_or_between (-50) 80 v.
Proof.
  destruct t as [[x|]|]; cbn [check_temperature fst snd]; try discriminate.
  cbv zeta. cbn [fst snd]. intros [= <-] H. apply warned_in in H.
  now apply between_guards.
Qed.

Lemma check_humidity_sound (h : option (option Py.pyfloat)) (v : Py.pyfloat) :
  fst (check_humidity h) = Some (Some v) ->
  ~ In "humidity out-of-range" (snd (check_humidity h)) ->
  nan_or_between 0 100 v.
Proof.
  destruct h as [[x|]|]; cbn [check_humidity fst snd]; try discriminate.
  cbv zeta. cbn [fst snd]. intros [= <-] H. apply warned_in in H.
  now apply between_guards.
Qed.

Lemma check_air_quality_sound (a : option (option Py.pyfloat))
    (v : Py.pyfloat) :
  fst (check_air_quality a) = Some (Some v) ->
  ~ In "air_quality negative" (snd (check_air_quality a)) ->
  nan_or_from 0 v.
Proof.
  destruct a as [[x|]|]; cbn [check_air_quality fst snd]; try discriminate.
  cbv zeta. cbn [fst snd]. intros [= <-] H. apply warned_in in H.
  now apply flt_below_false.
Qed.

Lemma check_battery_voltage_sound (b : option (option Py.pyfloat))
    (v : Py.pyfloat) :
  fst (check_battery_voltage b) = Some (Some v) ->
  ~ In "battery_voltage out-of-range" (snd (check_battery_voltage b)) ->
  nan_or_between 0 20 v.
Proof.
  destruct b as [[x|]|]; cbn [check_battery_voltage fst snd]; try discriminate.
  cbv zeta. cbn [fst snd]. intros [= <-] H. apply warned_in in H.
  now apply between_guards.
Qed.

(** *** The warnings each check can raise *)

Lemma in_cond (m a : string) (c : bool) :
  In m (if c then [a] else []) -> m = a.
Proof.
  destruct c; cbn; [intros [H|[]]; now symmetry|contradiction].
Qed.

Lemma in_two_conds (m a b : string) (c d : bool) :
  In m ((if c then [a] else []) ++ (if d then [b] else [])) ->
  m = a \/ m = b.
Proof.
  intros H. apply in_app_or in H.
  destruct H as [H|H]; apply in_cond in H; [now left|now right].
Qed.

Lemma check_temperature_warnings (t : option (option Py.pyfloat)) (m : string) :
  In m (snd (check_temperature t)) ->
  m = "temperature appeared in milli, converted"
  \/ m = "temperature out-of-range".
Proof.
  destruct t as [[x|]|]; cbn [check_temperature snd]; try contradiction.
  cbv zeta. cbn [snd]. apply in_two_conds.
Qed.

Lemma check_humidity_warnings (h : option (option Py.pyfloat)) (m : string) :
  In m (snd (check_humidity h)) ->
  m = "humidity appeared in milli, converted" \/ m = "humidity out-of-range".
Proof.
  destruct h as [[x|]|]; cbn [check_humidity snd]; try contradiction.
  cbv zeta. cbn [snd]. apply in_two_conds.
Qed.

Lemma check_air_quality_warnings (a : option (option Py.pyfloat)) (m : string) :
  In m (snd (check_air_quality a)) ->
  m = "air_quality appeared in milli, converted" \/ m = "air_quality negative".
Proof.
  destruct a as [[x|]|]; cbn [check_air_quality snd]; try contradiction.
  cbv zeta. cbn [snd]. apply in_two_conds.
Qed.

Lemma check_battery_voltage_warnings (b : option (option Py.pyfloat))
    (m : string) :
  In m (snd (check_battery_voltage b)) ->
  m = "battery_voltage appeared in milli, converted"
  \/ m = "battery_voltage out-of-range".
Proof.
  destruct b as [[x|]|]; cbn [check_battery_voltage snd]; try contradiction.
  cbv zeta. cbn [snd]. apply in_two_conds.
Qed.

Lemma check_gps_warnings (p : payload) (m : string) :
  In m (snd (check_gps p)) -> m = "gps out-of-range" \/ m = "gps parse error".
Proof.
  unfold check_gps. cbv zeta.
  destruct (jv_or (p_lat p) (p_latitude p)) as [la|]; [|contradiction].
  destruct (jv_or (p_lon p) (p_longitude p)) as [lo|]; [|contradiction].
  destruct (jv_float la) as [latf|];
    [|cbn; intros [H|[]]; right; now symmetry].
  destruct (jv_float lo) as [lonf|];
    [|cbn; intros [H|[]]; right; now symmetry].
  destruct (_ || _); cbn; [intros [H|[]]; left; now symmetry|contradiction].
Qed.

(** The validator in parts: the temperature it settles on (lines
    1598-1605) with the conversion note, then the five checks. *)
Lemma validator_parts (p : payload) :
  exists (t2 : option jv) (w0 : list string),
    (forall m, In m w0 -> m = "temperature converted from milli")
    /\ (forall j, p_temperature p = Some j -> t2 = Some j)
    /\ fst (validate_and_normalize_sensor_payload p)
       = (mk_normalized (fst (check_temperature (coerce t2)))
            (fst (check_humidity (coerce (p_humidity p))))
            (fst (check_air_quality (coerce (p_air_quality p))))
            (coerce (p_light_intensity p))
            (fst (check_battery_voltage (coerce (p_battery_voltage p))))
            (coerce (p_battery_current p)) (coerce (p_battery_power p))
            (fst (fst (check_gps p))) (snd (fst (check_gps p))),
          w0 ++ snd (check_temperature (coerce t2))
             ++ snd (check_humidity (coerce (p_humidity p)))
             ++ snd (check_air_quality (coerce (p_air_quality p)))
             ++ snd (check_battery_voltage (coerce (p_battery_voltage p)))
             ++ snd (check_gps p)).
Proof.
  unfold validate_and_normalize_sensor_payload. cbv zeta. cbn [fst].
  destruct (p_temperature p) as [t|].
  - exists (Some t), []. split; [contradiction|].
    split; [intros j [= <-]; reflexivity|reflexivity].
  - destruct (p_temp_c p) as [c|].
    + exists (Some c), []. split; [contradiction|].
      split; [discriminate|reflexivity].
    + destruct (p_temp_milli p) as [m|].
      * destruct (jv_float m) as [x|].
        -- eexists _, _. split; [|split; [discriminate|reflexivity]].
           cbn. intros m' [H|[]]. now symmetry.
        -- exists None, []. split; [contradiction|].
           split; [discriminate|reflexivity].
      * exists None, []. split; [contradiction|].
        split; [discriminate|reflexivity].
Qed.

Ltac foreign_warning H :=
  first [ apply check_temperature_warnings in H
        | apply check_humidity_warnings in H
        | apply check_air_quality_warnings in H
        | apply check_battery_voltage_warnings in H
        | apply check_gps_warnings in H ];
  destruct H as [H|H]; discriminate H.

Ltac no_such_warning H own :=
  repeat (apply in_app_or in H; destruct H as [H|H]);
  first [ apply own in H; discriminate H
        | foreign_warning H
        | cbn in H; contradiction ].

(** X26.  The range warnings are complete for every number but NaN: a
    value the validator hands on without the warning of its field is NaN
    or lies in the range of that field (temperature -50..80, humidity
    0..100, battery voltage 0..20; air quality from 0, plus infinity
    included).  A NaN passes every guard: it is handed on as it came and
    the warning of its field is not raised. *)
Theorem unwarned_values_are_in_range
    (p : payload) (n : normalized) (w i : list string) :
  validate_and_normalize_sensor_payload p = (n, w, i) ->
  (forall v, n_temperature n = Some (Some v) ->
             ~ In "temperature out-of-range" w -> nan_or_between (-50) 80 v)
  /\ (forall v, n_humidity n = Some (Some v) ->
                ~ In "humidity out-of-range" w -> nan_or_between 0 100 v)
  /\ (forall v, n_air_quality n = Some (Some v) ->
                ~ In "air_quality negative" w -> nan_or_from 0 v)
  /\ (forall v, n_battery_voltage n = Some (Some v) ->
                ~ In "battery_voltage out-of-range" w -> nan_or_between 0 20 v)
  /\ (forall j, p_temperature p = Some j -> jv_float j = Some Py.NaN ->
                n_temperature n = Some (Some Py.NaN)
                /\ ~ In "temperature out-of-range" w)
  /\ (forall j, p_humidity p = Some j -> jv_float j = Some Py.NaN ->
                n_humidity n = Some (Some Py.NaN)
                /\ ~ In "humidity out-of-range" w)
  /\ (forall j, p_air_quality p = Some j -> jv_float j = Some Py.NaN ->
                n_air_quality n = Some (Some Py.NaN)
                /\ ~ In "air_quality negative" w)
  /\ (forall j, p_battery_voltage p = Some j -> jv_float j = Some Py.NaN ->
                n_battery_voltage n = Some (Some Py.NaN)
                /\ ~ In "battery_voltage out-of-range" w).
Proof.
  intros Hv.
  destruct (validator_parts p) as (t2 & w0 & Hw0 & Ht2 & E).
  rewrite Hv in E. cbn [fst] in E. injection E as -> ->.
  cbn [n_temperature n_humidity n_air_quality n_battery_voltage].
  split; [|split; [|split; [|split; [|split; [|split; [|split]]]]]].
  - intros v Hn Hw.
    eapply check_temperature_sound; [exact Hn|].
    intros Hin. apply Hw. apply in_or_app. right.
    apply in_or_app. left. exact Hin.
  - intros v Hn Hw.
    eapply check_humidity_sound; [exact Hn|].
    intros Hin. apply Hw. do 2 (apply in_or_app; right).
    apply in_or_app. left. exact Hin.
  - intros v Hn Hw.
    eapply check_air_quality_sound; [exact Hn|].
    intros Hin. apply Hw. do 3 (apply in_or_app; right).
    apply in_or_app. left. exact Hin.
  - intros v Hn Hw.
    eapply check_battery_voltage_sound; [exact Hn|].
    intros Hin. apply Hw. do 4 (apply in_or_app; right).
    apply in_or_app. left. exact Hin.
  - intros j Hj Hf. rewrite (Ht2 j Hj). cbn [coerce]. rewrite Hf.
    split; [reflexivity|]. intros H. no_such_warning H Hw0.
  - intros j Hj Hf. rewrite Hj. cbn [coerce]. rewrite Hf.
    split; [reflexivity|]. intros H. no_such_warning H Hw0.
  - intros j Hj Hf. rewrite Hj. cbn [coerce]. rewrite Hf.
    split; [reflexivity|]. intros H. no_such_warning H Hw0.
  - intros j Hj Hf. rewrite Hj. cbn [coerce]. rewrite Hf.
    split; [reflexivity|]. intros H. no_such_warning H Hw0.
Qed.

Lemma unwarned_values_are_in_range_witness :
  let p := Demo.posted (Py.Fin 26500) Py.NaN (Py.Fin 30) (Py.Fin 500)
             (Py.Fin (39#10)) in
  let r := validate_and_normalize_sensor_payload p in
  (forall v, n_temperature (fst (fst r)) = Some (Some v) ->
             ~ In "temperature out-of-range" (snd (fst r)) ->
             nan_or_between (-50) 80 v)
  /\ (forall v, n_humidity (fst (fst r)) = Some (Some v) ->
                ~ In "humidity out-of-range" (snd (fst r)) ->
                nan_or_between 0 100 v)
  /\ (forall v, n_air_quality (fst (fst r)) = Some (Some v) ->
                ~ In "air_quality negative" (snd (fst r)) -> nan_or_from 0 v)
  /\ (forall v, n_battery_voltage (fst (fst r)) = Some (Some v) ->
                ~ In "battery_voltage out-of-range" (snd (fst r)) ->
                nan_or_between 0 20 v)
  /\ (forall j, p_temperature p = Some j -> jv_float j = Some Py.NaN ->
                n_temperature (fst (fst r)) = Some (Some Py.NaN)
                /\ ~ In "temperature out-of-range" (snd (fst r)))
  /\ (forall j, p_humidity p = Some j -> jv_float j = Some Py.NaN ->
                n_humidity (fst (fst r)) = Some (Some Py.NaN)
                /\ ~ In "humidity out-of-range" (snd (fst r)))
  /\ (forall j, p_air_quality p = Some j -> jv_float j = Some Py.NaN ->
                n_air_quality (fst (fst r)) = Some (Some Py.NaN)
                /\ ~ In "air_quality negative" (snd (fst r)))
  /\ (forall j, p_battery_voltage p = Some j -> jv_float j = Some Py.NaN ->
                n_battery_voltage (fst (fst r)) = Some (Some Py.NaN)
                /\ ~ In "battery_voltage out-of-range" (snd (fst r))).
Proof.
  cbv zeta.
  apply (unwarned_values_are_in_range
           (Demo.posted (Py.Fin 26500) Py.NaN (Py.Fin 30) (Py.Fin 500)
              (Py.Fin (39#10)))
           _ _
           (snd (validate_and_normalize_sensor_payload
                   (Demo.posted (Py.Fin 26500) Py.NaN (Py.Fin 30) (Py.Fin 500)
                      (Py.Fin (39#10)))))).
  vm_compute. reflexivity.
Defined.

(** X27.  The coordinates the validator hands on are the payload's own
    [latitude] and [longitude], or a pair of floats each of which is NaN
    or a number in range (-90..90 and -180..180): the aliases [lat] and
    [lon] never bring a finite or infinite position out of range into the
    reading, but they do bring NaN, which no guard stops and for which no
    warning is raised. *)
Theorem coordinates_replaced_only_in_range (p : payload) :
  let n := fst (fst (validate_and_normalize_sensor_payload p)) in
  ((n_latitude n = p_latitude p /\ n_longitude n = p_longitude p)
   \/ exists la lo,
        n_latitude n = Some (jv_of_float la)
        /\ n_longitude n = Some (jv_of_float lo)
        /\ nan_or_between (-90) 90 la /\ nan_or_between (-180) 180 lo)
  /\ (forall a o, jv_or (p_lat p) (p_latitude p) = Some a ->
                  jv_or (p_lon p) (p_longitude p) = Some o ->
                  jv_float a = Some Py.NaN -> jv_float o = Some Py.NaN ->
                  n_latitude n = Some (jv_of_float Py.NaN)
                  /\ n_longitude n = Some (jv_of_float Py.NaN)
                  /\ snd (check_gps p) = []).
Proof.
  cbv zeta. unfold validate_and_normalize_sensor_payload. cbv zeta.
  cbn [fst snd n_latitude n_longitude]. unfold check_gps. cbv zeta.
  split.
  - destruct (jv_or (p_lat p) (p_latitude p)) as [la|];
      [|left; split; reflexivity].
    destruct (jv_or (p_lon p) (p_longitude p)) as [lo|];
      [|left; split; reflexivity].
    destruct (jv_float la) as [latf|]; [|left; split; reflexivity].
    destruct (jv_float lo) as [lonf|]; [|left; split; reflexivity].
    destruct (Py.flt (Py.Fin 90) (Py.fabs latf)
              || Py.flt (Py.Fin 180) (Py.fabs lonf)) eqn:Hr;
      [left; split; reflexivity|].
    right. exists latf, lonf. cbn [fst snd].
    apply orb_false_iff in Hr. destruct Hr as [H1 H2].
    apply abs_guard in H1. apply abs_guard in H2.
    repeat split; try reflexivity; assumption.
  - intros a o Ha Ho Hfa Hfo. rewrite Ha, Ho, Hfa, Hfo. cbn.
    repeat split.
Qed.

(** X28.  A latitude of zero sent under the alias [lat] counts as absent: with
    no [latitude] key beside it the reading gets no latitude, its
    [longitude] key is left as it came, and the coordinate check of lines
    1652-1665 raises no warning, whatever the longitude. *)
Theorem zero_latitude_alias_is_dropped (p : payload) (la : jv) :
  p_lat p = Some la ->
  jv_truthy la = false ->
  p_latitude p = None ->
  n_latitude (fst (fst (validate_and_normalize_sensor_payload p))) = None
  /\ n_longitude (fst (fst (validate_and_normalize_sensor_payload p)))
     = p_longitude p
  /\ snd (check_gps p) = [].
Proof.
  intros Hl Ht Hn.
  assert (E : check_gps p = (None, p_longitude p, [])).
  { unfold check_gps, jv_or. rewrite Hl, Hn.
    destruct la as [|t f]; cbn [jv_get jv_truthy] in *.
    - reflexivity.
    - rewrite Ht. reflexivity. }
  unfold validate_and_normalize_sensor_payload. cbv zeta.
  cbn [fst snd n_latitude n_longitude]. rewrite E.
  repeat split.
Qed.

Lemma zero_latitude_alias_is_dropped_witness :
  n_latitude
    (fst (fst (validate_and_normalize_sensor_payload
                 (mk_payload None None None None None None None None None
                    (Some (jv_of_float (Py.Fin 0))) None
                    (Some (jv_of_float (Py.Fin (1068#10)))) None)))) = None
  /\ n_longitude
       (fst (fst (validate_and_normalize_sensor_payload
                    (mk_payload None None None None None None None None None
                       (Some (jv_of_float (Py.Fin 0))) None
                       (Some (jv_of_float (Py.Fin (1068#10)))) None)))) = None
  /\ snd (check_gps
            (mk_payload None None None None None None None None None
               (Some (jv_of_float (Py.Fin 0))) None
               (Some (jv_of_float (Py.Fin (1068#10)))) None))
     = [].
Proof.
  apply (zero_latitude_alias_is_dropped
           (mk_payload None None None None None None None None None
              (Some (jv_of_float (Py.Fin 0))) None
              (Some (jv_of_float (Py.Fin (1068#10)))) None)
           (jv_of_float (Py.Fin 0))); reflexivity.
Defined.

End Payload.



(** ** Device sessions *)

Section Sessions.

Import DeviceRegistry.

Context {V : Type}.

Lemma lookup_assign_same (d : list (string * V)) (k : string) (v : V) :
  lookup (assign d k v) k = Some v.
Proof.
  induction d as [|[k' v'] r IH]; cbn.
  - now rewrite String.eqb_refl.
  - destruct (String.eqb k' k) eqn:E; cbn.
    + now rewrite String.eqb_refl.
    + now rewrite E.
Qed.

Lemma lookup_assign_other (d : list (string * V)) (k k' : string) (v : V) :
  k <> k' -> lookup (assign d k v) k' = lookup d k'.
Proof.
  intros Hk. apply String.eqb_neq in Hk.
  induction d as [|[k0 v0] r IH]; cbn.
  - now rewrite Hk.
  - destruct (String.eqb k0 k) eqn:E; cbn.
    + apply String.eqb_eq in E. subst k0. now rewrite Hk.
    + now rewrite IH.
Qed.

Lemma lookup_pop_same (d : list (string * V)) (k : string) :
  lookup (pop d k) k = None.
Proof.
  unfold pop. induction d as [|[k' v'] r IH]; cbn; [reflexivity|].
  destruct (String.eqb k' k) eqn:E; cbn; [exact IH|].
  now rewrite E.
Qed.

End Sessions.

Section SessionRules.

Import DeviceRegistry.

Lemma str_truthy_true (s : string) : s <> "" -> str_truthy s = true.
Proof.
  intros H. unfold str_truthy. apply String.eqb_neq in H. now rewrite H.
Qed.

(** X29.  A session issued for a registered device is accepted for that device
    up to and including its expiry instant, [session_ttl] seconds after
    the issue, and refused after it; it is refused for any other device;
    and issuing it changes the answer for no other token. *)
Theorem session_round_trip
    (device_id token : string) (now : Z) (r : registry) :
  is_registered r device_id = true ->
  device_id <> "" ->
  token <> "" ->
  exists r1,
    issue_session device_id token now r
    = Some ((token, (now + session_ttl r * 1000000)%Z), r1)
    /\ (forall t, fst (validate_session device_id token t r1)
                  = (t <=? now + session_ttl r * 1000000)%Z)
    /\ (forall other t, other <> device_id ->
                        fst (validate_session other token t r1) = false)
    /\ (forall d token' t, token' <> token ->
                           fst (validate_session d token' t r1)
                           = fst (validate_session d token' t r)).
Proof.
  intros Hreg Hd Ht. unfold issue_session. rewrite Hreg. cbn [negb].
  eexists. split; [reflexivity|].
  split; [|split].
  - intros t. unfold validate_session. cbn [sessions].
    rewrite (str_truthy_true _ Hd), (str_truthy_true _ Ht). cbn [negb orb].
    rewrite lookup_assign_same. cbn [session_device_id expires_at].
    rewrite String.eqb_refl. cbn [negb].
    rewrite Z.leb_antisym.
    destruct (now + session_ttl r * 1000000 <? t)%Z; reflexivity.
  - intros other t Ho. unfold validate_session. cbn [sessions].
    destruct (negb (str_truthy other) || negb (str_truthy token));
      [reflexivity|].
    rewrite lookup_assign_same. cbn [session_device_id].
    assert (E : String.eqb device_id other = false)
      by (apply String.eqb_neq; congruence).
    rewrite E. reflexivity.
  - intros d token' t Hne. unfold validate_session. cbn [sessions].
    destruct (negb (str_truthy d) || negb (str_truthy token'));
      [reflexivity|].
    rewrite lookup_assign_other by congruence.
    destruct (lookup (sessions r) token') as [s|]; [|reflexivity].
    destruct (negb (String.eqb (session_device_id s) d)); [reflexivity|].
    destruct (expires_at s <? t)%Z; reflexivity.
Qed.

Lemma session_round_trip_witness :
  exists r1,
    issue_session "esp32-01" "tok" 0 Demo.one_device
    = Some (("tok", (0 + session_ttl Demo.one_device * 1000000)%Z), r1)
    /\ (forall t, fst (validate_session "esp32-01" "tok" t r1)
                  = (t <=? 0 + session_ttl Demo.one_device * 1000000)%Z)
    /\ (forall other t, other <> "esp32-01" ->
                        fst (validate_session other "tok" t r1) = false)
    /\ (forall d token' t, token' <> "tok" ->
                           fst (validate_session d token' t r1)
                           = fst (validate_session d token' t Demo.one_device)).
Proof.
  apply (session_round_trip "esp32-01" "tok" 0 Demo.one_device).
  - reflexivity.
  - discriminate.
  - discriminate.
Defined.

(** X30.  A session found expired is forgotten: once a validation has refused
    it for its age, the token is refused for every device and at every
    clock value, also an earlier one. *)
Theorem expired_session_is_forgotten
    (device_id token : string) (now : Z) (r : registry) (s : session) :
  device_id <> "" ->
  token <> "" ->
  lookup (sessions r) token = Some s ->
  session_device_id s = device_id ->
  (expires_at s < now)%Z ->
  fst (validate_session device_id token now r) = false
  /\ forall d t,
       fst (validate_session d token t
              (snd (validate_session device_id token now r))) = false.
Proof.
  intros Hd Ht Hs Hdev Hexp.
  assert (E : validate_session device_id token now r
              = (false, mk_registry (devices r) (pop (sessions r) token)
                          (session_ttl r))).
  { unfold validate_session.
    rewrite (str_truthy_true _ Hd), (str_truthy_true _ Ht). cbn [negb orb].
    rewrite Hs, Hdev, String.eqb_refl. cbn [negb].
    apply Z.ltb_lt in Hexp. now rewrite Hexp. }
  rewrite E. cbn [fst snd]. split; [reflexivity|].
  intros d t. unfold validate_session. cbn [sessions].
  destruct (negb (str_truthy d) || negb (str_truthy token)); [reflexivity|].
  now rewrite lookup_pop_same.
Qed.

Lemma expired_session_is_forgotten_witness :
  fst (validate_session "esp32-01" "tok" 3600000001 Demo.one_session) = false
  /\ forall d t,
       fst (validate_session d "tok" t
              (snd (validate_session "esp32-01" "tok" 3600000001
                      Demo.one_session))) = false.
Proof.
  apply (expired_session_is_forgotten "esp32-01" "tok" 3600000001
           Demo.one_session (mk_session "esp32-01" 3600000000)).
  - discriminate.
  - discriminate.
  - reflexivity.
  - reflexivity.
  - reflexivity.
Defined.

End SessionRules.
